(** * planka-mcp: protocol gateway and resource-resolution client

    A shallow embedding of the Go packages [internal/planka] (the client of
    the kanban service) and [internal/mcp] (the JSON-RPC gateway over stdio
    and HTTP), followed by the properties of the gateway design.

    Conventions of the embedding.
    - A Go [interface{}] holding JSON-like data is a [value]; a
      [map[string]interface{}] is a [gmap string value]; [float64] is the
      kernel's binary64 [float].
    - A Go [error] is the message it prints; [(T, error)] is [result T].
    - Bytes on the wire are a [payload]: the text together with what
      [encoding/json] reads from it.  The struct-directed part of
      [json.Unmarshal] and the functions of package [time] are library
      code and are taken as parameters ([Unmarshal], [GoLib]).
    - A field the code reads and no declaration has
      ([CreateBoardRequest.Position]) is a parameter as well.
    - The backing service is an oracle [Service] from the calls made so
      far and the next call to its reply; an [io] computation threads the
      log of calls it has issued. *)

From Stdlib Require Import Floats.PrimFloat ZArith Ascii String.
From Stdlib Require Floats.FloatAxioms Floats.SpecFloat.
From stdpp Require Import base option list strings gmap pretty.

Set Default Proof Using "Type".
#[local] Set Warnings "-register-all".

(** ** Go values *)

Definition error : Type := string.

Inductive result (A : Type) : Type :=
| Ok (a : A)
| Err (e : error).
Arguments Ok {A} a.
Arguments Err {A} e.

Definition is_Err {A} (r : result A) : Prop :=
  match r with Err _ => True | Ok _ => False end.

(** A slice is nil or backed by an array; both have a length. *)
Inductive slice (A : Type) : Type :=
| nil_slice
| Slice (l : list A).
Arguments nil_slice {A}.
Arguments Slice {A} l.

Definition elems {A} (s : slice A) : list A :=
  match s with nil_slice => [] | Slice l => l end.

Definition slice_append {A} (s : slice A) (x : A) : slice A :=
  Slice (elems s ++ [x]).

(** What an [interface{}] holds in this program. *)
Inductive value : Type :=
| VNil
| VBool (b : bool)
| VNum (f : float)
| VInt (z : Z)
| VStr (s : string)
| VArr (l : list value)
| VObj (m : gmap string value).

(** Type assertions [x.(string)], [x.(float64)], [x.(bool)] and
    [x.(map[string]interface{})] on the result of a map lookup. *)
Definition as_string (v : option value) : option string :=
  match v with Some (VStr s) => Some s | _ => None end.

Definition as_float64 (v : option value) : option float :=
  match v with Some (VNum f) => Some f | _ => None end.

Definition as_bool (v : option value) : option bool :=
  match v with Some (VBool b) => Some b | _ => None end.

Definition as_map (v : option value) : option (gmap string value) :=
  match v with Some (VObj m) => Some m | _ => None end.

(** [x, _ := m[k]]: the zero value of [interface{}] when the key is absent. *)
Definition index (m : gmap string value) (k : string) : value :=
  default VNil (m !! k).

(** [encoding/json] stores a number it reads into an [interface{}] as a
    [float64]: the nearest one, ties to even.  For an integer literal below
    2^63 in absolute value that is the conversion of the integer. *)
Definition float64_of_integer (z : Z) : float :=
  if (z <? 0)%Z
  then PrimFloat.opp (PrimFloat.of_uint63 (Uint63Axioms.of_Z (- z)))
  else PrimFloat.of_uint63 (Uint63Axioms.of_Z z).

(** A [time.Time]: an instant and the offset of its zone. *)
Record Time : Type := { unixNano : Z; zoneOffset : Z }.

(** Bytes, with the JSON value [encoding/json] reads from them (or its
    syntax error). *)
Record payload : Type := { bytes : string; parsed : result value }.

(** The library functions the program calls. *)
Class GoLib : Type := {
  time_Parse_RFC3339 : string -> result Time;
  time_Format_RFC3339 : Time -> string;
  time_MarshalJSON : Time -> value;
  json_Marshal : value -> result string;
  json_MarshalIndent : value -> result string;
  http_NewRequest : string -> string -> result unit;
}.

(** The struct-directed half of [json.Unmarshal] for a target type. *)
Class Unmarshal (T : Type) : Type := unmarshal : value -> result T.
#[global] Hint Mode Unmarshal ! : typeclass_instances.

Definition json_Unmarshal {T} `{!Unmarshal T} (data : payload) : result T :=
  match parsed data with
  | Err e => Err e
  | Ok v => unmarshal v
  end.

(** [json.Marshal] of a value: the text, read back as the value. *)
Definition marshal `{!GoLib} (v : value) : result payload :=
  match json_Marshal v with
  | Err e => Err e
  | Ok text => Ok {| bytes := text; parsed := Ok v |}
  end.

(** ** The backing service and client computations *)

Record call : Type := {
  req_method : string;
  req_url : string;
  req_authorization : string;
  req_body : option payload;
}.

Inductive reply : Type :=
| Failed (e : error)
| Response (status : Z) (body : payload).

(** The reply to a call may depend on the calls made before it.  A reply
    delivers its body whole. *)
Class Service : Type := roundTrip : list call -> call -> reply.

Definition io (A : Type) : Type := list call -> result A * list call.

Definition ret {A} (a : A) : io A := fun log => (Ok a, log).

Definition fail {A} (e : error) : io A := fun log => (Err e, log).

Definition bind {A B} (m : io A) (k : A -> io B) : io B :=
  fun log =>
    match m log with
    | (Ok a, log') => k a log'
    | (Err e, log') => (Err e, log')
    end.

Notation "'let*' x ':=' m 'in' k" := (bind m (fun x => k))
  (at level 10, x name, m at level 100, k at level 200).

Definition lift {A} (r : result A) : io A := fun log => (r, log).

(** Run [m] and hand its outcome to the caller, as [x, err := m()] does. *)
Definition attempt {A} (m : io A) : io (result A) :=
  fun log => let '(r, log') := m log in (Ok r, log').

(** [v, ok := x.(T); if !ok { return fmt.Errorf(msg) }]. *)
Definition require {A} (o : option A) (msg : error) : io A :=
  match o with Some a => ret a | None => fail msg end.

(** Every call a computation adds to the log satisfies [P]. *)
Definition every_call {A} (P : call -> Prop) (m : io A) : Prop :=
  forall log, exists new, snd (m log) = log ++ new /\ Forall P new.

(** The computation fails without adding any call to the log. *)
Definition rejected {A} (m : io A) : Prop :=
  forall log, exists e, m log = (Err e, log).

(** ** Package planka: the entities (types.go) *)

Module planka.

Module User.
Record t : Type := {
  ID : string; Email : string; Name : string; Username : string;
}.
End User.

Module Label.
Record t : Type := { ID : string; Name : string; Color : string }.
End Label.

Module Comment.
Record t : Type := {
    ID : string; Text : string; CardID : string; UserID : string;
    CreatedAt : Time; UpdatedAt : Time;
  }.
End Comment.

Module Task.
Record t : Type := {
    ID : string; Name : string; CardID : string; Position : float;
    IsCompleted : bool; CreatedAt : Time; UpdatedAt : Time;
  }.
End Task.

Module Card.
Record t : Type := {
    ID : string; Name : string; Description : string; ListID : string;
    Position : float; DueDate : option Time;
    CreatedAt : Time; UpdatedAt : Time;
    Tasks : slice Task.t; Comments : slice Comment.t; Labels : slice Label.t;
  }.
End Card.

Module List.
Record t : Type := {
    ID : string; Name : string; BoardID : string; Position : float;
    CreatedAt : Time; UpdatedAt : Time; Cards : slice Card.t;
  }.
End List.

Module Board.
Record t : Type := {
    ID : string; Name : string; Description : string; ProjectID : string;
    CreatedAt : Time; UpdatedAt : Time; Lists : slice List.t;
  }.
End Board.

Module Project.
Record t : Type := {
    ID : string; Name : string; Description : string;
    CreatedAt : Time; UpdatedAt : Time; Boards : slice Board.t;
  }.
End Project.

Module Stopwatch.
Record t : Type := {
    ID : string; CardID : string; StartedAt : option Time; Duration : Z;
  }.
End Stopwatch.

Module CreateProjectRequest.
Record t : Type := { Name : string; Description : string }.
End CreateProjectRequest.

(** The declaration has three fields.  [CreateBoard] reads a fourth,
    [req.Position], which the declaration does not have: what that selector
    yields is a parameter of the development, [CreateBoardRequest.Position]. *)
Module CreateBoardRequest.
Record t : Type := { Name : string; Description : string; ProjectID : string }.
Class Selector : Type := Position : t -> float.
End CreateBoardRequest.

Module CreateListRequest.
Record t : Type := { Name : string; BoardID : string; Position : float }.
End CreateListRequest.

Module CreateCardRequest.
Record t : Type := {
    Name : string; Description : string; ListID : string;
    Position : float; DueDate : option Time;
  }.
End CreateCardRequest.

(** Every field is a pointer: [None] is the nil pointer. *)
Module UpdateCardRequest.
Record t : Type := {
    Name : option string; Description : option string;
    ListID : option string; Position : option float; DueDate : option Time;
  }.
Definition zero : t :=
    {| Name := None; Description := None; ListID := None;
       Position := None; DueDate := None |}.
End UpdateCardRequest.

Module CreateTaskRequest.
Record t : Type := { Name : string; CardID : string; Position : float }.
End CreateTaskRequest.

Module UpdateTaskRequest.
Record t : Type := {
    Name : option string; IsCompleted : option bool; Position : option float;
  }.
Definition zero : t :=
    {| Name := None; IsCompleted := None; Position := None |}.
End UpdateTaskRequest.

Module CreateCommentRequest.
Record t : Type := { Text : string; CardID : string }.
End CreateCommentRequest.

(** [APIResponse] and the anonymous response structs of api.go. *)
Module APIResponse.
Record t : Type := { Items : value; Included : value }.
End APIResponse.

Record ItemIncluded (T : Type) : Type := {
  Item : T;
  Included : gmap string value;
}.
Arguments Item {T} _.
Arguments Included {T} _.

Record ItemOnly (T : Type) : Type := { item : T }.
Arguments item {T} _.

(** *** The JSON image of a struct, by its field tags *)

Class ToJSON (T : Type) : Type := to_json : T -> value.
#[global] Hint Mode ToJSON ! : typeclass_instances.

(** A field tagged [omitempty] is left out when it is the empty string, a
    slice of length zero or a nil pointer. *)
Definition put (k : string) (v : value) (m : gmap string value) :=
  <[k := v]> m.

Definition put_string_omitempty (k s : string) (m : gmap string value) :=
  if decide (s = "") then m else <[k := VStr s]> m.

Definition put_slice_omitempty {T} `{!ToJSON T} (k : string) (s : slice T)
    (m : gmap string value) :=
  match elems s with
  | [] => m
  | _ :: _ => <[k := VArr (to_json <$> elems s)]> m
  end.

Definition put_ptr_omitempty {T} (f : T -> value) (k : string) (p : option T)
    (m : gmap string value) :=
  match p with
  | None => m
  | Some x => <[k := f x]> m
  end.

#[global] Instance slice_to_json {T} `{!ToJSON T} : ToJSON (slice T) :=
  fun s =>
    match s with
    | nil_slice => VNil
    | Slice l => VArr (to_json <$> l)
    end.

Section encoding.
Context `{!GoLib}.

#[global] Instance Label_to_json : ToJSON Label.t := fun x =>
    VObj (put "id" (VStr (Label.ID x))
         (put "name" (VStr (Label.Name x))
         (put "color" (VStr (Label.Color x)) ∅))).

#[global] Instance Comment_to_json : ToJSON Comment.t := fun x =>
    VObj (put "id" (VStr (Comment.ID x))
         (put "text" (VStr (Comment.Text x))
         (put "cardId" (VStr (Comment.CardID x))
         (put "userId" (VStr (Comment.UserID x))
         (put "createdAt" (time_MarshalJSON (Comment.CreatedAt x))
         (put "updatedAt" (time_MarshalJSON (Comment.UpdatedAt x)) ∅)))))).

#[global] Instance Task_to_json : ToJSON Task.t := fun x =>
    VObj (put "id" (VStr (Task.ID x))
         (put "name" (VStr (Task.Name x))
         (put "cardId" (VStr (Task.CardID x))
         (put "position" (VNum (Task.Position x))
         (put "isCompleted" (VBool (Task.IsCompleted x))
         (put "createdAt" (time_MarshalJSON (Task.CreatedAt x))
         (put "updatedAt" (time_MarshalJSON (Task.UpdatedAt x)) ∅))))))).

#[global] Instance Card_to_json : ToJSON Card.t := fun x =>
    VObj (put "id" (VStr (Card.ID x))
         (put "name" (VStr (Card.Name x))
         (put "description" (VStr (Card.Description x))
         (put "listId" (VStr (Card.ListID x))
         (put "position" (VNum (Card.Position x))
         (put_ptr_omitempty time_MarshalJSON "dueDate" (Card.DueDate x)
         (put "createdAt" (time_MarshalJSON (Card.CreatedAt x))
         (put "updatedAt" (time_MarshalJSON (Card.UpdatedAt x))
         (put_slice_omitempty "tasks" (Card.Tasks x)
         (put_slice_omitempty "comments" (Card.Comments x)
         (put_slice_omitempty "labels" (Card.Labels x) ∅))))))))))).

#[global] Instance List_to_json : ToJSON List.t := fun x =>
    VObj (put "id" (VStr (List.ID x))
         (put "name" (VStr (List.Name x))
         (put "boardId" (VStr (List.BoardID x))
         (put "position" (VNum (List.Position x))
         (put "createdAt" (time_MarshalJSON (List.CreatedAt x))
         (put "updatedAt" (time_MarshalJSON (List.UpdatedAt x))
         (put_slice_omitempty "cards" (List.Cards x) ∅))))))).

#[global] Instance Board_to_json : ToJSON Board.t := fun x =>
    VObj (put "id" (VStr (Board.ID x))
         (put "name" (VStr (Board.Name x))
         (put "description" (VStr (Board.Description x))
         (put "projectId" (VStr (Board.ProjectID x))
         (put "createdAt" (time_MarshalJSON (Board.CreatedAt x))
         (put "updatedAt" (time_MarshalJSON (Board.UpdatedAt x))
         (put_slice_omitempty "lists" (Board.Lists x) ∅))))))).

#[global] Instance Project_to_json : ToJSON Project.t := fun x =>
    VObj (put "id" (VStr (Project.ID x))
         (put "name" (VStr (Project.Name x))
         (put "description" (VStr (Project.Description x))
         (put "createdAt" (time_MarshalJSON (Project.CreatedAt x))
         (put "updatedAt" (time_MarshalJSON (Project.UpdatedAt x))
         (put_slice_omitempty "boards" (Project.Boards x) ∅)))))).

#[global] Instance Stopwatch_to_json : ToJSON Stopwatch.t := fun x =>
    VObj (put "id" (VStr (Stopwatch.ID x))
         (put "cardId" (VStr (Stopwatch.CardID x))
         (put_ptr_omitempty time_MarshalJSON "startedAt" (Stopwatch.StartedAt x)
         (put "duration" (VInt (Stopwatch.Duration x)) ∅)))).

#[global] Instance CreateProjectRequest_to_json
    : ToJSON CreateProjectRequest.t := fun x =>
    VObj (put "name" (VStr (CreateProjectRequest.Name x))
         (put_string_omitempty "description"
            (CreateProjectRequest.Description x) ∅)).

#[global] Instance UpdateCardRequest_to_json
    : ToJSON UpdateCardRequest.t := fun x =>
    VObj (put_ptr_omitempty VStr "name" (UpdateCardRequest.Name x)
         (put_ptr_omitempty VStr "description" (UpdateCardRequest.Description x)
         (put_ptr_omitempty VStr "listId" (UpdateCardRequest.ListID x)
         (put_ptr_omitempty VNum "position" (UpdateCardRequest.Position x)
         (put_ptr_omitempty time_MarshalJSON "dueDate"
            (UpdateCardRequest.DueDate x) ∅))))).

#[global] Instance UpdateTaskRequest_to_json
    : ToJSON UpdateTaskRequest.t := fun x =>
    VObj (put_ptr_omitempty VStr "name" (UpdateTaskRequest.Name x)
         (put_ptr_omitempty VBool "isCompleted" (UpdateTaskRequest.IsCompleted x)
         (put_ptr_omitempty VNum "position" (UpdateTaskRequest.Position x) ∅))).

#[global] Instance CreateCommentRequest_to_json
    : ToJSON CreateCommentRequest.t := fun x =>
    VObj (put "text" (VStr (CreateCommentRequest.Text x))
         (put "cardId" (VStr (CreateCommentRequest.CardID x)) ∅)).
End encoding.

(** ** Package planka: the transport (client.go) *)

Record Client : Type := { baseURL : string; token : string }.

(** The response to a login request: [Item] is the access token. *)
Module LoginResponse.
Record t : Type := { Item : string }.
End LoginResponse.

Definition NewClient (baseURL token : string) : Client :=
  {| baseURL := baseURL; token := token |}.

Definition min (a b : nat) : nat := if (a <? b)%nat then a else b.

Definition starts_with_lt (b : string) : bool :=
  match b with
  | String c _ => Ascii.eqb c "<"%char
  | EmptyString => false
  end.

Definition preview (b : string) : string :=
  substring 0 (min 200 (String.length b)) b.

Section transport.
Context `{lib : !GoLib, svc : !Service}.

Definition doRequest (c : Client) (method endpoint : string)
    (body : option value) : io payload :=
  let* reqBody :=
    match body with
    | None => ret None
    | Some v =>
        match marshal v with
        | Err e => fail ("failed to marshal request body: " +:+ e)
        | Ok jsonData => ret (Some jsonData)
        end
    end in
  let url := baseURL c +:+ endpoint in
  match http_NewRequest method url with
  | Err e => fail ("failed to create request: " +:+ e)
  | Ok _ =>
      let req := {| req_method := method; req_url := url;
                    req_authorization := "Bearer " +:+ token c;
                    req_body := reqBody |} in
      fun log =>
        match roundTrip log req with
        | Failed e => (Err ("request failed: " +:+ e), log ++ [req])
        | Response status body =>
            if (400 <=? status)%Z
            then (Err ("API error (status " +:+ pretty status +:+ "): "
                       +:+ bytes body), log ++ [req])
            else (Ok body, log ++ [req])
        end
  end.

Definition get {T} `{!Unmarshal T} (c : Client) (endpoint : string)
    : io T :=
  let* body := doRequest c "GET" endpoint None in
  if starts_with_lt (bytes body)
  then fail ("received HTML instead of JSON for endpoint " +:+ endpoint
             +:+ ". Response preview: " +:+ preview (bytes body))
  else
    match json_Unmarshal body with
    | Err e => fail ("failed to decode JSON response for endpoint "
                     +:+ endpoint +:+ ": " +:+ e
                     +:+ ". Response preview: " +:+ preview (bytes body))
    | Ok x => ret x
    end.

Definition decode_response {T} `{!Unmarshal T} (body : payload) : io T :=
  match json_Unmarshal body with
  | Err e => fail ("failed to decode response: " +:+ e)
  | Ok x => ret x
  end.

Definition post {T} `{!Unmarshal T} (c : Client) (endpoint : string)
    (body : option value) : io T :=
  let* resp := doRequest c "POST" endpoint body in
  decode_response resp.

Definition patch {T} `{!Unmarshal T} (c : Client) (endpoint : string)
    (body : option value) : io T :=
  let* resp := doRequest c "PATCH" endpoint body in
  decode_response resp.

Definition delete (c : Client) (endpoint : string) : io unit :=
  let* _ := doRequest c "DELETE" endpoint None in
  ret tt.

(** The POST of the login.  No [Authorization] header is set on the
    request, which reads as the empty string. *)
Definition postWithoutAuth {T} `{!Unmarshal T} (c : Client)
    (endpoint : string) (body : option value) : io T :=
  let* reqBody :=
    match body with
    | None => ret None
    | Some v =>
        match marshal v with
        | Err e => fail ("failed to marshal request body: " +:+ e)
        | Ok jsonData => ret (Some jsonData)
        end
    end in
  let url := baseURL c +:+ endpoint in
  match http_NewRequest "POST" url with
  | Err e => fail ("failed to create request: " +:+ e)
  | Ok _ =>
      let req := {| req_method := "POST"; req_url := url;
                    req_authorization := ""; req_body := reqBody |} in
      let* resp :=
        (fun log =>
           match roundTrip log req with
           | Failed e => (Err ("request failed: " +:+ e), log ++ [req])
           | Response status body =>
               if (400 <=? status)%Z
               then (Err ("API error (status " +:+ pretty status +:+ "): "
                          +:+ bytes body), log ++ [req])
               else (Ok body, log ++ [req])
           end) in
      decode_response resp
  end.

(** Logging in with a user name and a password: the client carries the
    access token of the response. *)
Definition NewClientWithPassword `{!Unmarshal LoginResponse.t}
    (baseURL username password : string) : io Client :=
  let client := {| baseURL := baseURL; token := "" |} in
  let loginReq : gmap string value :=
    <["emailOrUsername" := VStr username]>
      (<["password" := VStr password]> ∅) in
  let* r := attempt (postWithoutAuth (T := LoginResponse.t) client
                       "/api/access-tokens" (Some (VObj loginReq))) in
  match r with
  | Err e => fail ("login failed: " +:+ e)
  | Ok loginResp =>
      ret {| baseURL := baseURL; token := LoginResponse.Item loginResp |}
  end.

End transport.

(** ** Package planka: the resource operations (api.go) *)

Section api.
Context `{lib : !GoLib, svc : !Service}.
Context `{field : !CreateBoardRequest.Selector}.
Context `{!Unmarshal APIResponse.t}.
Context `{!Unmarshal (slice Project.t), !Unmarshal (slice Board.t),
          !Unmarshal (slice List.t), !Unmarshal (slice Card.t),
          !Unmarshal (slice Task.t), !Unmarshal (slice Comment.t)}.
Context `{!Unmarshal (ItemIncluded Project.t), !Unmarshal (ItemIncluded Board.t),
          !Unmarshal (ItemIncluded List.t), !Unmarshal (ItemIncluded Card.t)}.
Context `{!Unmarshal (ItemOnly Project.t), !Unmarshal (ItemOnly Board.t),
          !Unmarshal (ItemOnly List.t), !Unmarshal (ItemOnly Card.t),
          !Unmarshal (ItemOnly Task.t), !Unmarshal (ItemOnly Comment.t),
          !Unmarshal (ItemOnly Stopwatch.t)}.

(** [json.Marshal] of a decoded value followed by [json.Unmarshal] into
    the target; [what] names the collection in the two error messages. *)
Definition remarshal {T} `{!Unmarshal T} (what : string) (data : value)
    : io T :=
  match marshal data with
  | Err e => fail ("failed to marshal " +:+ what +:+ ": " +:+ e)
  | Ok dataJSON =>
      match json_Unmarshal dataJSON with
      | Err e => fail ("failed to unmarshal " +:+ what +:+ ": " +:+ e)
      | Ok xs => ret xs
      end
  end.

Definition extractItems {T} `{!Unmarshal (slice T)} (resp : APIResponse.t)
    : io (slice T) :=
  remarshal "items" (APIResponse.Items resp).

Definition GetMe `{!Unmarshal User.t} (c : Client) : io User.t :=
  get (T := User.t) c "/api/users/me".

Definition GetProjects (c : Client) : io (slice Project.t) :=
  let* resp := get c "/api/projects" in
  extractItems resp.

Definition GetProject (c : Client) (projectID : string) : io Project.t :=
  let* resp := get (T := ItemIncluded Project.t) c
                 ("/api/projects/" +:+ projectID) in
  ret (Item resp).

Definition CreateProject (c : Client) (req : CreateProjectRequest.t)
    : io Project.t :=
  let* resp := post (T := ItemOnly Project.t) c "/api/projects"
                 (Some (to_json req)) in
  ret (item resp).

Definition DeleteProject (c : Client) (projectID : string) : io unit :=
  delete c ("/api/projects/" +:+ projectID).

Definition GetBoards (c : Client) (projectID : string)
    : io (slice Board.t) :=
  let* resp := get (T := ItemIncluded Project.t) c
                 ("/api/projects/" +:+ projectID) in
  match Included resp !! "boards" with
  | Some boardsData => remarshal "boards" boardsData
  | None => ret (Slice [])
  end.

Definition GetBoard (c : Client) (boardID : string) : io Board.t :=
  let* resp := get (T := ItemIncluded Board.t) c
                 ("/api/boards/" +:+ boardID) in
  ret (Item resp).

Definition CreateBoard (c : Client) (req : CreateBoardRequest.t)
    : io Board.t :=
  let position := CreateBoardRequest.Position req in
  let position := if PrimFloat.eqb position 0 then 65535%float else position in
  let requestBody : gmap string value :=
    <["position" := VNum position]>
      (<["name" := VStr (CreateBoardRequest.Name req)]> ∅) in
  let requestBody :=
    if decide (CreateBoardRequest.Description req = "") then requestBody
    else <["description" := VStr (CreateBoardRequest.Description req)]>
           requestBody in
  let* resp := post (T := ItemOnly Board.t) c
                 ("/api/projects/" +:+ CreateBoardRequest.ProjectID req
                  +:+ "/boards")
                 (Some (VObj requestBody)) in
  ret (item resp).

Definition DeleteBoard (c : Client) (boardID : string) : io unit :=
  delete c ("/api/boards/" +:+ boardID).

Definition GetLists (c : Client) (boardID : string) : io (slice List.t) :=
  let* resp := get (T := ItemIncluded Board.t) c
                 ("/api/boards/" +:+ boardID) in
  match Included resp !! "lists" with
  | Some listsData => remarshal "lists" listsData
  | None => ret (Slice [])
  end.

Definition GetList (c : Client) (listID : string) : io List.t :=
  let* resp := get (T := ItemIncluded List.t) c ("/api/lists/" +:+ listID) in
  ret (Item resp).

Definition CreateList (c : Client) (req : CreateListRequest.t)
    : io List.t :=
  let position := CreateListRequest.Position req in
  let position := if PrimFloat.eqb position 0 then 65535%float else position in
  let requestBody : gmap string value :=
    <["position" := VNum position]>
      (<["name" := VStr (CreateListRequest.Name req)]> ∅) in
  let* resp := post (T := ItemOnly List.t) c
                 ("/api/boards/" +:+ CreateListRequest.BoardID req +:+ "/lists")
                 (Some (VObj requestBody)) in
  ret (item resp).

Definition DeleteList (c : Client) (listID : string) : io unit :=
  delete c ("/api/lists/" +:+ listID).

(** The three nested loops of [GetCards].  [boardID] is the variable the
    loops assign; a loop is left as soon as it is non-empty. *)
Fixpoint scan_lists (listID : string) (board : Board.t) (lists : list List.t)
    (boardID : string) : string :=
  match lists with
  | [] => boardID
  | list :: rest =>
      if String.eqb (List.ID list) listID
      then Board.ID board
      else scan_lists listID board rest boardID
  end.

Fixpoint scan_boards (c : Client) (listID : string) (boards : list Board.t)
    (boardID : string) : io string :=
  match boards with
  | [] => ret boardID
  | board :: rest =>
      let* r := attempt (GetLists c (Board.ID board)) in
      match r with
      | Err _ => scan_boards c listID rest boardID
      | Ok lists =>
          let boardID := scan_lists listID board (elems lists) boardID in
          if negb (String.eqb boardID "") then ret boardID
          else scan_boards c listID rest boardID
      end
  end.

Fixpoint scan_projects (c : Client) (listID : string)
    (projects : list Project.t) (boardID : string) : io string :=
  match projects with
  | [] => ret boardID
  | project :: rest =>
      let* r := attempt (GetBoards c (Project.ID project)) in
      match r with
      | Err _ => scan_projects c listID rest boardID
      | Ok boards =>
          let* boardID := scan_boards c listID (elems boards) boardID in
          if negb (String.eqb boardID "") then ret boardID
          else scan_projects c listID rest boardID
      end
  end.

(** [for _, card := range allCards { if card.ListID == listID { append } }] *)
Fixpoint filter_cards (listID : string) (allCards : list Card.t)
    (filteredCards : slice Card.t) : slice Card.t :=
  match allCards with
  | [] => filteredCards
  | card :: rest =>
      filter_cards listID rest
        (if String.eqb (Card.ListID card) listID
         then slice_append filteredCards card
         else filteredCards)
  end.

(** The part of [GetCards] after the board id is known: fetch the board
    and keep the cards of the list. *)
Definition cards_of_board (c : Client) (boardID listID : string)
    : io (slice Card.t) :=
  let* r := attempt (get (T := ItemIncluded Board.t) c
                       ("/api/boards/" +:+ boardID)) in
  match r with
  | Err e => fail ("failed to get board " +:+ boardID +:+ ": " +:+ e)
  | Ok boardResp =>
      match Included boardResp !! "cards" with
      | Some cardsData =>
          let* allCards := remarshal (T := slice Card.t) "cards" cardsData in
          ret (filter_cards listID (elems allCards) nil_slice)
      | None => ret (Slice [])
      end
  end.

Definition GetCards (c : Client) (listID : string) : io (slice Card.t) :=
  let* listResp := attempt (get (T := ItemIncluded List.t) c
                              ("/api/lists/" +:+ listID)) in
  match listResp with
  | Err _ =>
      let* r := attempt (GetProjects c) in
      match r with
      | Err e => fail ("failed to get projects to find board: " +:+ e)
      | Ok projects =>
          let* boardID := scan_projects c listID (elems projects) "" in
          if String.eqb boardID "" then ret (Slice [])
          else cards_of_board c boardID listID
      end
  | Ok listResp =>
      let boardID := List.BoardID (Item listResp) in
      if String.eqb boardID "" then ret (Slice [])
      else cards_of_board c boardID listID
  end.

Definition GetCard (c : Client) (cardID : string) : io Card.t :=
  let* resp := get (T := ItemIncluded Card.t) c ("/api/cards/" +:+ cardID) in
  ret (Item resp).

Definition CreateCard (c : Client) (req : CreateCardRequest.t)
    : io Card.t :=
  let position := CreateCardRequest.Position req in
  let position := if PrimFloat.eqb position 0 then 65535%float else position in
  let requestBody : gmap string value :=
    <["position" := VNum position]>
      (<["name" := VStr (CreateCardRequest.Name req)]> ∅) in
  let requestBody :=
    if decide (CreateCardRequest.Description req = "") then requestBody
    else <["description" := VStr (CreateCardRequest.Description req)]>
           requestBody in
  let requestBody :=
    match CreateCardRequest.DueDate req with
    | None => requestBody
    | Some dueDate =>
        <["dueDate" := VStr (time_Format_RFC3339 dueDate)]> requestBody
    end in
  let* resp := post (T := ItemOnly Card.t) c
                 ("/api/lists/" +:+ CreateCardRequest.ListID req +:+ "/cards")
                 (Some (VObj requestBody)) in
  ret (item resp).

Definition UpdateCard (c : Client) (cardID : string)
    (req : UpdateCardRequest.t) : io Card.t :=
  let* resp := patch (T := ItemOnly Card.t) c ("/api/cards/" +:+ cardID)
                 (Some (to_json req)) in
  ret (item resp).

Definition DeleteCard (c : Client) (cardID : string) : io unit :=
  delete c ("/api/cards/" +:+ cardID).

Definition MoveCard (c : Client) (cardID listID : string) (position : float)
    : io Card.t :=
  let req :=
    {| UpdateCardRequest.Name := None;
       UpdateCardRequest.Description := None;
       UpdateCardRequest.ListID := Some listID;
       UpdateCardRequest.Position := Some position;
       UpdateCardRequest.DueDate := None |} in
  UpdateCard c cardID req.

Definition GetTasks (c : Client) (cardID : string) : io (slice Task.t) :=
  let* resp := get (T := ItemIncluded Card.t) c ("/api/cards/" +:+ cardID) in
  match Included resp !! "tasks" with
  | Some tasksData => remarshal "tasks" tasksData
  | None => ret (Slice [])
  end.

Definition CreateTask (c : Client) (req : CreateTaskRequest.t)
    : io Task.t :=
  let position := CreateTaskRequest.Position req in
  let position := if PrimFloat.eqb position 0 then 65535%float else position in
  let requestBody : gmap string value :=
    <["position" := VNum position]>
      (<["name" := VStr (CreateTaskRequest.Name req)]> ∅) in
  let* resp := post (T := ItemOnly Task.t) c
                 ("/api/cards/" +:+ CreateTaskRequest.CardID req +:+ "/tasks")
                 (Some (VObj requestBody)) in
  ret (item resp).

Definition UpdateTask (c : Client) (taskID : string)
    (req : UpdateTaskRequest.t) : io Task.t :=
  let* resp := patch (T := ItemOnly Task.t) c ("/api/tasks/" +:+ taskID)
                 (Some (to_json req)) in
  ret (item resp).

Definition DeleteTask (c : Client) (taskID : string) : io unit :=
  delete c ("/api/tasks/" +:+ taskID).

Definition GetComments (c : Client) (cardID : string)
    : io (slice Comment.t) :=
  let* r := attempt (get (T := APIResponse.t) c
                       ("/api/cards/" +:+ cardID +:+ "/comments")) in
  match r with
  | Err _ =>
      let* r := attempt (get (T := ItemIncluded Card.t) c
                           ("/api/cards/" +:+ cardID)) in
      match r with
      | Err e => fail ("failed to get card: " +:+ e)
      | Ok cardResp =>
          match Included cardResp !! "comments" with
          | Some commentsData => remarshal "comments" commentsData
          | None => ret (Slice [])
          end
      end
  | Ok resp => extractItems resp
  end.

Definition CreateComment (c : Client) (req : CreateCommentRequest.t)
    : io Comment.t :=
  let* resp := post (T := ItemOnly Comment.t) c "/api/comments"
                 (Some (to_json req)) in
  ret (item resp).

Definition DeleteComment (c : Client) (commentID : string) : io unit :=
  delete c ("/api/comments/" +:+ commentID).

Definition GetStopwatch (c : Client) (cardID : string) : io Stopwatch.t :=
  let* resp := get (T := ItemOnly Stopwatch.t) c
                 ("/api/cards/" +:+ cardID +:+ "/stopwatch") in
  ret (item resp).

Definition StartStopwatch (c : Client) (cardID : string)
    : io Stopwatch.t :=
  let* resp := post (T := ItemOnly Stopwatch.t) c
                 ("/api/cards/" +:+ cardID +:+ "/stopwatch/start") None in
  ret (item resp).

Definition StopStopwatch (c : Client) (cardID : string)
    : io Stopwatch.t :=
  let* resp := post (T := ItemOnly Stopwatch.t) c
                 ("/api/cards/" +:+ cardID +:+ "/stopwatch/stop") None in
  ret (item resp).

Definition ResetStopwatch (c : Client) (cardID : string)
    : io Stopwatch.t :=
  let* resp := post (T := ItemOnly Stopwatch.t) c
                 ("/api/cards/" +:+ cardID +:+ "/stopwatch/reset") None in
  ret (item resp).

End api.

End planka.

(** ** Package mcp: the tool registry and the tool handlers (tools.go) *)

Module mcp.

Record Server : Type := { client : planka.Client }.

Definition NewServer (client : planka.Client) : Server :=
  {| client := client |}.

(** One entry of a schema's [properties]. *)
Definition property (type description : string) : value :=
  VObj (<["type" := VStr type]> (<["description" := VStr description]> ∅)).

(** The [inputSchema] of a tool; [get_projects] declares no [required]. *)
Definition inputSchema (properties : list (string * value))
    (required : option (list string)) : value :=
  let schema : gmap string value :=
    <["type" := VStr "object"]>
      (<["properties" := VObj (list_to_map properties)]> ∅) in
  VObj match required with
       | None => schema
       | Some keys => <["required" := VArr (VStr <$> keys)]> schema
       end.

Definition tool (name description : string)
    (properties : list (string * value)) (required : option (list string))
    : gmap string value :=
  <["name" := VStr name]>
    (<["description" := VStr description]>
       (<["inputSchema" := inputSchema properties required]> ∅)).

Definition cardId_only : list (string * value) :=
  [("cardId", property "string" "The card ID")].

Definition getTools (s : Server) : list (gmap string value) :=
  [ tool "get_projects" "Get all projects" [] None;
    tool "get_project" "Get a project by ID"
      [("projectId", property "string" "The project ID")]
      (Some ["projectId"]);
    tool "create_project" "Create a new project"
      [("name", property "string" "The project name");
       ("description", property "string" "The project description")]
      (Some ["name"]);
    tool "get_boards" "Get all boards for a project"
      [("projectId", property "string" "The project ID")]
      (Some ["projectId"]);
    tool "get_board" "Get a board by ID"
      [("boardId", property "string" "The board ID")]
      (Some ["boardId"]);
    tool "create_board" "Create a new board"
      [("name", property "string" "The board name");
       ("description", property "string" "The board description");
       ("projectId", property "string" "The project ID")]
      (Some ["name"; "projectId"]);
    tool "get_lists" "Get all lists for a board"
      [("boardId", property "string" "The board ID")]
      (Some ["boardId"]);
    tool "get_list" "Get a list by ID"
      [("listId", property "string" "The list ID")]
      (Some ["listId"]);
    tool "create_list" "Create a new list"
      [("name", property "string" "The list name");
       ("boardId", property "string" "The board ID");
       ("position", property "number" "The list position")]
      (Some ["name"; "boardId"]);
    tool "get_cards" "Get all cards for a list"
      [("listId", property "string" "The list ID")]
      (Some ["listId"]);
    tool "get_card" "Get a card by ID" cardId_only (Some ["cardId"]);
    tool "create_card" "Create a new card"
      [("name", property "string" "The card name");
       ("description", property "string" "The card description");
       ("listId", property "string" "The list ID");
       ("position", property "number" "The card position");
       ("dueDate", property "string" "The due date (ISO 8601 format)")]
      (Some ["name"; "listId"]);
    tool "update_card" "Update a card"
      [("cardId", property "string" "The card ID");
       ("name", property "string" "The card name");
       ("description", property "string" "The card description");
       ("listId", property "string" "The list ID (to move card)");
       ("position", property "number" "The card position");
       ("dueDate", property "string" "The due date (ISO 8601 format)")]
      (Some ["cardId"]);
    tool "delete_card" "Delete a card" cardId_only (Some ["cardId"]);
    tool "move_card" "Move a card to a different list"
      [("cardId", property "string" "The card ID");
       ("listId", property "string" "The target list ID");
       ("position", property "number" "The card position in the new list")]
      (Some ["cardId"; "listId"]);
    tool "get_tasks" "Get all tasks for a card" cardId_only (Some ["cardId"]);
    tool "create_task" "Create a new task"
      [("name", property "string" "The task name");
       ("cardId", property "string" "The card ID");
       ("position", property "number" "The task position")]
      (Some ["name"; "cardId"]);
    tool "update_task" "Update a task"
      [("taskId", property "string" "The task ID");
       ("name", property "string" "The task name");
       ("isCompleted", property "boolean" "Whether the task is completed");
       ("position", property "number" "The task position")]
      (Some ["taskId"]);
    tool "delete_task" "Delete a task"
      [("taskId", property "string" "The task ID")]
      (Some ["taskId"]);
    tool "get_comments" "Get all comments for a card" cardId_only
      (Some ["cardId"]);
    tool "create_comment" "Create a new comment"
      [("text", property "string" "The comment text");
       ("cardId", property "string" "The card ID")]
      (Some ["text"; "cardId"]);
    tool "delete_comment" "Delete a comment"
      [("commentId", property "string" "The comment ID")]
      (Some ["commentId"]);
    tool "get_stopwatch" "Get the stopwatch for a card" cardId_only
      (Some ["cardId"]);
    tool "start_stopwatch" "Start the stopwatch for a card" cardId_only
      (Some ["cardId"]);
    tool "stop_stopwatch" "Stop the stopwatch for a card" cardId_only
      (Some ["cardId"]);
    tool "reset_stopwatch" "Reset the stopwatch for a card" cardId_only
      (Some ["cardId"]) ].

(** Reading a descriptor back: its name, the keys it requires and the
    declared type of a property. *)
Definition tool_name (t : gmap string value) : string :=
  default "" (as_string (t !! "name")).

Definition tool_schema (t : gmap string value) : gmap string value :=
  default ∅ (as_map (t !! "inputSchema")).

Definition tool_required (t : gmap string value) : list string :=
  match tool_schema t !! "required" with
  | Some (VArr keys) => omap (fun k => as_string (Some k)) keys
  | _ => []
  end.

Definition tool_property_type (t : gmap string value) (key : string)
    : option string :=
  match as_map (tool_schema t !! "properties") with
  | Some props =>
      match as_map (props !! key) with
      | Some p => as_string (p !! "type")
      | None => None
      end
  | None => None
  end.

(** The literal text returned by the delete handlers. *)
Definition quote : string := String "034"%char EmptyString.

Definition success_true : string :=
  "{" +:+ quote +:+ "success" +:+ quote +:+ ": true}".

Section handlers.
Import planka.
Context `{lib : !GoLib, svc : !Service}.
Context `{field : !CreateBoardRequest.Selector}.
Context `{!Unmarshal APIResponse.t}.
Context `{!Unmarshal (slice Project.t), !Unmarshal (slice Board.t),
          !Unmarshal (slice List.t), !Unmarshal (slice Card.t),
          !Unmarshal (slice Task.t), !Unmarshal (slice Comment.t)}.
Context `{!Unmarshal (ItemIncluded Project.t), !Unmarshal (ItemIncluded Board.t),
          !Unmarshal (ItemIncluded List.t), !Unmarshal (ItemIncluded Card.t)}.
Context `{!Unmarshal (ItemOnly Project.t), !Unmarshal (ItemOnly Board.t),
          !Unmarshal (ItemOnly List.t), !Unmarshal (ItemOnly Card.t),
          !Unmarshal (ItemOnly Task.t), !Unmarshal (ItemOnly Comment.t),
          !Unmarshal (ItemOnly Stopwatch.t)}.

(** [data, err := json.MarshalIndent(x, "", "  "); return string(data), err] *)
Definition render {T} `{!ToJSON T} (x : T) : io string :=
  lift (json_MarshalIndent (to_json x)).

(** [time.Parse(time.RFC3339, s)] with the handlers' error wrapping. *)
Definition parse_dueDate (dueDateStr : string) : io Time :=
  match time_Parse_RFC3339 dueDateStr with
  | Err e => fail ("invalid dueDate format: " +:+ e)
  | Ok dueDate => ret dueDate
  end.

Definition handleGetProjects (s : Server) : io string :=
  let* projects := GetProjects (client s) in
  render projects.

Definition handleGetProject (s : Server) (args : gmap string value)
    : io string :=
  let* projectID := require (as_string (args !! "projectId"))
                      "missing projectId" in
  let* project := GetProject (client s) projectID in
  render project.

Definition handleCreateProject (s : Server) (args : gmap string value)
    : io string :=
  let* name := require (as_string (args !! "name")) "missing name" in
  let req :=
    {| CreateProjectRequest.Name := name;
       CreateProjectRequest.Description :=
         default "" (as_string (args !! "description")) |} in
  let* project := CreateProject (client s) req in
  render project.

Definition handleGetBoards (s : Server) (args : gmap string value)
    : io string :=
  let* projectID := require (as_string (args !! "projectId"))
                      "missing projectId" in
  let* boards := GetBoards (client s) projectID in
  render boards.

Definition handleGetBoard (s : Server) (args : gmap string value)
    : io string :=
  let* boardID := require (as_string (args !! "boardId")) "missing boardId" in
  let* board := GetBoard (client s) boardID in
  render board.

Definition handleCreateBoard (s : Server) (args : gmap string value)
    : io string :=
  let* name := require (as_string (args !! "name")) "missing name" in
  let* projectID := require (as_string (args !! "projectId"))
                      "missing projectId" in
  let req :=
    {| CreateBoardRequest.Name := name;
       CreateBoardRequest.ProjectID := projectID;
       CreateBoardRequest.Description :=
         default "" (as_string (args !! "description")) |} in
  let* board := CreateBoard (client s) req in
  render board.

Definition handleGetLists (s : Server) (args : gmap string value)
    : io string :=
  let* boardID := require (as_string (args !! "boardId")) "missing boardId" in
  let* lists := GetLists (client s) boardID in
  render lists.

Definition handleGetList (s : Server) (args : gmap string value)
    : io string :=
  let* listID := require (as_string (args !! "listId")) "missing listId" in
  let* list := GetList (client s) listID in
  render list.

Definition handleCreateList (s : Server) (args : gmap string value)
    : io string :=
  let* name := require (as_string (args !! "name")) "missing name" in
  let* boardID := require (as_string (args !! "boardId")) "missing boardId" in
  let position :=
    match as_float64 (args !! "position") with
    | Some pos => if PrimFloat.ltb 0 pos then pos else 65535%float
    | None => 65535%float
    end in
  let req :=
    {| CreateListRequest.Name := name;
       CreateListRequest.BoardID := boardID;
       CreateListRequest.Position := position |} in
  let* list := CreateList (client s) req in
  render list.

Definition handleGetCards (s : Server) (args : gmap string value)
    : io string :=
  let* listID := require (as_string (args !! "listId")) "missing listId" in
  let* cards := GetCards (client s) listID in
  render cards.

Definition handleGetCard (s : Server) (args : gmap string value)
    : io string :=
  let* cardID := require (as_string (args !! "cardId")) "missing cardId" in
  let* card := GetCard (client s) cardID in
  render card.

Definition handleCreateCard (s : Server) (args : gmap string value)
    : io string :=
  let* name := require (as_string (args !! "name")) "missing name" in
  let* listID := require (as_string (args !! "listId")) "missing listId" in
  let description := default "" (as_string (args !! "description")) in
  let position := default 0%float (as_float64 (args !! "position")) in
  let* dueDate :=
    match as_string (args !! "dueDate") with
    | Some dueDateStr =>
        let* dueDate := parse_dueDate dueDateStr in ret (Some dueDate)
    | None => ret None
    end in
  let req :=
    {| CreateCardRequest.Name := name;
       CreateCardRequest.ListID := listID;
       CreateCardRequest.Description := description;
       CreateCardRequest.Position := position;
       CreateCardRequest.DueDate := dueDate |} in
  let* card := CreateCard (client s) req in
  render card.

Definition handleUpdateCard (s : Server) (args : gmap string value)
    : io string :=
  let* cardID := require (as_string (args !! "cardId")) "missing cardId" in
  let* dueDate :=
    match as_string (args !! "dueDate") with
    | Some dueDateStr =>
        let* dueDate := parse_dueDate dueDateStr in ret (Some dueDate)
    | None => ret None
    end in
  let req :=
    {| UpdateCardRequest.Name := as_string (args !! "name");
       UpdateCardRequest.Description := as_string (args !! "description");
       UpdateCardRequest.ListID := as_string (args !! "listId");
       UpdateCardRequest.Position := as_float64 (args !! "position");
       UpdateCardRequest.DueDate := dueDate |} in
  let* card := UpdateCard (client s) cardID req in
  render card.

Definition handleDeleteCard (s : Server) (args : gmap string value)
    : io string :=
  let* cardID := require (as_string (args !! "cardId")) "missing cardId" in
  let* _ := DeleteCard (client s) cardID in
  ret success_true.

Definition handleMoveCard (s : Server) (args : gmap string value)
    : io string :=
  let* cardID := require (as_string (args !! "cardId")) "missing cardId" in
  let* listID := require (as_string (args !! "listId")) "missing listId" in
  let position := default 0%float (as_float64 (args !! "position")) in
  let* card := MoveCard (client s) cardID listID position in
  render card.

Definition handleGetTasks (s : Server) (args : gmap string value)
    : io string :=
  let* cardID := require (as_string (args !! "cardId")) "missing cardId" in
  let* tasks := GetTasks (client s) cardID in
  render tasks.

Definition handleCreateTask (s : Server) (args : gmap string value)
    : io string :=
  let* name := require (as_string (args !! "name")) "missing name" in
  let* cardID := require (as_string (args !! "cardId")) "missing cardId" in
  let req :=
    {| CreateTaskRequest.Name := name;
       CreateTaskRequest.CardID := cardID;
       CreateTaskRequest.Position :=
         default 0%float (as_float64 (args !! "position")) |} in
  let* task := CreateTask (client s) req in
  render task.

Definition handleUpdateTask (s : Server) (args : gmap string value)
    : io string :=
  let* taskID := require (as_string (args !! "taskId")) "missing taskId" in
  let req :=
    {| UpdateTaskRequest.Name := as_string (args !! "name");
       UpdateTaskRequest.IsCompleted := as_bool (args !! "isCompleted");
       UpdateTaskRequest.Position := as_float64 (args !! "position") |} in
  let* task := UpdateTask (client s) taskID req in
  render task.

Definition handleDeleteTask (s : Server) (args : gmap string value)
    : io string :=
  let* taskID := require (as_string (args !! "taskId")) "missing taskId" in
  let* _ := DeleteTask (client s) taskID in
  ret success_true.

Definition handleGetComments (s : Server) (args : gmap string value)
    : io string :=
  let* cardID := require (as_string (args !! "cardId")) "missing cardId" in
  let* comments := GetComments (client s) cardID in
  render comments.

Definition handleCreateComment (s : Server) (args : gmap string value)
    : io string :=
  let* text := require (as_string (args !! "text")) "missing text" in
  let* cardID := require (as_string (args !! "cardId")) "missing cardId" in
  let req :=
    {| CreateCommentRequest.Text := text;
       CreateCommentRequest.CardID := cardID |} in
  let* comment := CreateComment (client s) req in
  render comment.

Definition handleDeleteComment (s : Server) (args : gmap string value)
    : io string :=
  let* commentID := require (as_string (args !! "commentId"))
                      "missing commentId" in
  let* _ := DeleteComment (client s) commentID in
  ret success_true.

Definition handleGetStopwatch (s : Server) (args : gmap string value)
    : io string :=
  let* cardID := require (as_string (args !! "cardId")) "missing cardId" in
  let* stopwatch := GetStopwatch (client s) cardID in
  render stopwatch.

Definition handleStartStopwatch (s : Server) (args : gmap string value)
    : io string :=
  let* cardID := require (as_string (args !! "cardId")) "missing cardId" in
  let* stopwatch := StartStopwatch (client s) cardID in
  render stopwatch.

Definition handleStopStopwatch (s : Server) (args : gmap string value)
    : io string :=
  let* cardID := require (as_string (args !! "cardId")) "missing cardId" in
  let* stopwatch := StopStopwatch (client s) cardID in
  render stopwatch.

Definition handleResetStopwatch (s : Server) (args : gmap string value)
    : io string :=
  let* cardID := require (as_string (args !! "cardId")) "missing cardId" in
  let* stopwatch := ResetStopwatch (client s) cardID in
  render stopwatch.

(** [switch name { case ...: ...; default: unknown tool }] *)
Definition callTool (s : Server) (name : string) (arguments : gmap string value)
    : io string :=
  if String.eqb name "get_projects" then handleGetProjects s
  else if String.eqb name "get_project" then handleGetProject s arguments
  else if String.eqb name "create_project" then handleCreateProject s arguments
  else if String.eqb name "get_boards" then handleGetBoards s arguments
  else if String.eqb name "get_board" then handleGetBoard s arguments
  else if String.eqb name "create_board" then handleCreateBoard s arguments
  else if String.eqb name "get_lists" then handleGetLists s arguments
  else if String.eqb name "get_list" then handleGetList s arguments
  else if String.eqb name "create_list" then handleCreateList s arguments
  else if String.eqb name "get_cards" then handleGetCards s arguments
  else if String.eqb name "get_card" then handleGetCard s arguments
  else if String.eqb name "create_card" then handleCreateCard s arguments
  else if String.eqb name "update_card" then handleUpdateCard s arguments
  else if String.eqb name "delete_card" then handleDeleteCard s arguments
  else if String.eqb name "move_card" then handleMoveCard s arguments
  else if String.eqb name "get_tasks" then handleGetTasks s arguments
  else if String.eqb name "create_task" then handleCreateTask s arguments
  else if String.eqb name "update_task" then handleUpdateTask s arguments
  else if String.eqb name "delete_task" then handleDeleteTask s arguments
  else if String.eqb name "get_comments" then handleGetComments s arguments
  else if String.eqb name "create_comment" then handleCreateComment s arguments
  else if String.eqb name "delete_comment" then handleDeleteComment s arguments
  else if String.eqb name "get_stopwatch" then handleGetStopwatch s arguments
  else if String.eqb name "start_stopwatch"
       then handleStartStopwatch s arguments
  else if String.eqb name "stop_stopwatch" then handleStopStopwatch s arguments
  else if String.eqb name "reset_stopwatch"
       then handleResetStopwatch s arguments
  else fail ("unknown tool: " +:+ name).

(** ** Package mcp: envelopes and the stdio server (server.go) *)

Context `{!Unmarshal (gmap string value)}.

Definition buildInitializeResponse (s : Server) (id : value)
    : gmap string value :=
  <["jsonrpc" := VStr "2.0"]>
    (<["result" :=
         VObj (<["protocolVersion" := VStr "2024-11-05"]>
              (<["capabilities" := VObj (<["tools" := VObj ∅]> ∅)]>
              (<["serverInfo" :=
                   VObj (<["name" := VStr "planka-mcp"]>
                        (<["version" := VStr "1.0.0"]> ∅))]> ∅)))]>
       (<["id" := id]> ∅)).

Definition buildToolsListResponse (s : Server) (id : value)
    : gmap string value :=
  let tools := getTools s in
  <["jsonrpc" := VStr "2.0"]>
    (<["result" := VObj (<["tools" := VArr (VObj <$> tools)]> ∅)]>
       (<["id" := id]> ∅)).

Definition buildToolsCallResponse (s : Server) (request : gmap string value)
    (id : value) : io (gmap string value) :=
  let* params := require (as_map (request !! "params"))
                   "missing params in request" in
  let* toolName := require (as_string (params !! "name"))
                     "missing name in params" in
  let arguments := default ∅ (as_map (params !! "arguments")) in
  let* r := attempt (callTool s toolName arguments) in
  match r with
  | Err e => fail ("tool call failed: " +:+ e)
  | Ok result =>
      ret (<["jsonrpc" := VStr "2.0"]>
             (<["result" :=
                  VObj (<["content" :=
                            VArr [VObj (<["type" := VStr "text"]>
                                       (<["text" := VStr result]> ∅))]]> ∅)]>
                (<["id" := id]> ∅)))
  end.

(** The request handler shared by the stdio and the HTTP servers. *)
Definition handleMCPRequest (s : Server) (request : gmap string value)
    : io (gmap string value) :=
  let* method := require (as_string (request !! "method"))
                   "missing method in request" in
  let id := index request "id" in
  if String.eqb method "tools/list" then ret (buildToolsListResponse s id)
  else if String.eqb method "tools/call"
       then buildToolsCallResponse s request id
  else fail ("unknown method: " +:+ method).

Definition buildErrorResponse (s : Server) (id : value) (err : error)
    : gmap string value :=
  <["jsonrpc" := VStr "2.0"]>
    (<["error" := VObj (<["code" := VInt (-32603)]>
                       (<["message" := VStr err]> ∅))]>
       (<["id" := id]> ∅)).

(** An encoder writes the JSON text followed by a newline. *)
Definition newline : string := String "010"%char EmptyString.

Definition line (text : payload) : payload :=
  {| bytes := bytes text +:+ newline; parsed := parsed text |}.

(** [encoder.Encode(v)] on standard output: the line is written unless
    marshalling fails. *)
Definition Encode (out : list payload) (v : gmap string value)
    : result unit * list payload :=
  match marshal (VObj v) with
  | Err e => (Err e, out)
  | Ok text => (Ok tt, out ++ [line text])
  end.

Definition handleInitialize (s : Server) (request : gmap string value)
    (out : list payload) (id : value) : result unit * list payload :=
  Encode out (buildInitializeResponse s id).

Definition handleRequest (s : Server) (request : gmap string value)
    (out : list payload) (log : list call)
    : result unit * list payload * list call :=
  match handleMCPRequest s request log with
  | (Err e, log') => (Err e, out, log')
  | (Ok response, log') =>
      let '(r, out') := Encode out response in (r, out', log')
  end.

(** The per-method helpers of the stdio server. *)
Definition handleToolsList (s : Server) (out : list payload) (id : value)
    : result unit * list payload :=
  Encode out (buildToolsListResponse s id).

Definition handleToolsCall (s : Server) (request : gmap string value)
    (out : list payload) (id : value) (log : list call)
    : result unit * list payload * list call :=
  match buildToolsCallResponse s request id log with
  | (Err e, log') => (Err e, out, log')
  | (Ok response, log') =>
      let '(r, out') := Encode out response in (r, out', log')
  end.

Definition sendError (s : Server) (out : list payload)
    (request : gmap string value) (err : error) : list payload :=
  let id := index request "id" in
  snd (Encode out (buildErrorResponse s id err)).

(** The read loop of [StartStdio].  Standard input is the sequence of
    JSON texts the decoder reads before end of file. *)
Fixpoint stdio_loop (s : Server) (stdin : list payload) (initialized : bool)
    (out : list payload) (log : list call)
    : result unit * list payload * list call :=
  match stdin with
  | [] => (Ok tt, out, log)
  | data :: rest =>
      match json_Unmarshal (T := gmap string value) data with
      | Err e => (Err ("failed to decode request: " +:+ e), out, log)
      | Ok request =>
          let method := default "" (as_string (request !! "method")) in
          let id := index request "id" in
          if String.eqb method "initialize" then
            match handleInitialize s request out id with
            | (Err e, out') =>
                (Err ("failed to handle initialize: " +:+ e), out', log)
            | (Ok _, out') => stdio_loop s rest true out' log
            end
          else if String.eqb method "notifications/initialized" then
            stdio_loop s rest initialized out log
          else if negb initialized then
            (Err "received request before initialization", out, log)
          else
            match handleRequest s request out log with
            | (Err e, out', log') =>
                stdio_loop s rest initialized (sendError s out' request e) log'
            | (Ok _, out', log') => stdio_loop s rest initialized out' log'
            end
      end
  end.

Definition StartStdio (s : Server) (stdin : list payload)
    (log : list call) : result unit * list payload * list call :=
  stdio_loop s stdin false [] log.

(** ** Package mcp: the HTTP server (http.go) *)

Record sessionState : Type := { initialized : bool }.

Record httpServer : Type := {
  server : Server;
  sessions : gmap string sessionState;
}.

(** The parts of an [*http.Request] the handler reads; a header that is
    not set reads as the empty string. *)
Record http_request : Type := {
  Method : string;
  X_Session_Token : string;
  User_Agent : string;
  RemoteAddr : string;
  Body : payload;
}.

Inductive response_body : Type :=
| NoBody
| PlainText (text : string)
| JSONBody (text : payload).

Record http_response : Type := {
  StatusCode : Z;
  ResponseBody : response_body;
}.

Definition StatusOK : Z := 200.
Definition StatusBadRequest : Z := 400.
Definition StatusMethodNotAllowed : Z := 405.

(** [w.WriteHeader(status); json.NewEncoder(w).Encode(v)] *)
Definition write_json (status : Z) (v : gmap string value) : http_response :=
  {| StatusCode := status;
     ResponseBody := match marshal (VObj v) with
                     | Ok text => JSONBody (line text)
                     | Err _ => NoBody
                     end |}.

Definition getSessionID (h : httpServer) (r : http_request) : string :=
  if negb (String.eqb (X_Session_Token r) "") then X_Session_Token r
  else RemoteAddr r +:+ User_Agent r.

Definition getOrCreateSession (h : httpServer) (sessionID : string)
    : httpServer * sessionState :=
  match sessions h !! sessionID with
  | Some session => (h, session)
  | None =>
      let session := {| initialized := false |} in
      ({| server := server h;
          sessions := <[sessionID := session]> (sessions h) |}, session)
  end.

(** [session.initialized = true] through the pointer held in the map. *)
Definition mark_initialized (h : httpServer) (sessionID : string)
    : httpServer :=
  {| server := server h;
     sessions := <[sessionID := {| initialized := true |}]> (sessions h) |}.

Definition sendHTTPError (h : httpServer)
    (request : option (gmap string value)) (err : error) (statusCode : Z)
    : http_response :=
  let id := match request with
            | Some request => index request "id"
            | None => VNil
            end in
  write_json statusCode (buildErrorResponse (server h) id err).

Definition httpServer_handleMCPRequest (h : httpServer) (r : http_request)
    (log : list call) : httpServer * http_response * list call :=
  if negb (String.eqb (Method r) "POST") then
    (h, {| StatusCode := StatusMethodNotAllowed;
           ResponseBody :=
             PlainText ("Method not allowed. Use POST for JSON-RPC requests."
                        +:+ newline) |},
     log)
  else
    let sessionID := getSessionID h r in
    let '(h, session) := getOrCreateSession h sessionID in
    match json_Unmarshal (T := gmap string value) (Body r) with
    | Err e =>
        (h, sendHTTPError h None ("failed to decode request: " +:+ e)
              StatusBadRequest, log)
    | Ok request =>
        let method := default "" (as_string (request !! "method")) in
        let id := index request "id" in
        if String.eqb method "initialize" then
          let h := mark_initialized h sessionID in
          (h, write_json StatusOK (buildInitializeResponse (server h) id), log)
        else if String.eqb method "notifications/initialized" then
          (h, write_json StatusOK
                (<["jsonrpc" := VStr "2.0"]>
                   (<["result" := VNil]> (<["id" := id]> ∅))), log)
        else
          let h := if negb (initialized session)
                      && negb (String.eqb method "initialize")
                   then mark_initialized h sessionID else h in
          match handleMCPRequest (server h) request log with
          | (Err e, log') =>
              (h, sendHTTPError h (Some request) e StatusOK, log')
          | (Ok response, log') => (h, write_json StatusOK response, log')
          end
    end.

End handlers.

(** ** Package mcp: the stdio server before the HTTP mode was added

    The earlier [server.go]: [Start] is the same read loop, and each
    method helper builds its envelope and encodes it itself. *)

Module legacy.
Section server.
Import planka.
Context `{lib : !GoLib, svc : !Service}.
Context `{field : !CreateBoardRequest.Selector}.
Context `{!Unmarshal APIResponse.t}.
Context `{!Unmarshal (slice Project.t), !Unmarshal (slice Board.t),
          !Unmarshal (slice List.t), !Unmarshal (slice Card.t),
          !Unmarshal (slice Task.t), !Unmarshal (slice Comment.t)}.
Context `{!Unmarshal (ItemIncluded Project.t), !Unmarshal (ItemIncluded Board.t),
          !Unmarshal (ItemIncluded List.t), !Unmarshal (ItemIncluded Card.t)}.
Context `{!Unmarshal (ItemOnly Project.t), !Unmarshal (ItemOnly Board.t),
          !Unmarshal (ItemOnly List.t), !Unmarshal (ItemOnly Card.t),
          !Unmarshal (ItemOnly Task.t), !Unmarshal (ItemOnly Comment.t),
          !Unmarshal (ItemOnly Stopwatch.t)}.
Context `{!Unmarshal (gmap string value)}.

Definition handleInitialize (s : Server) (request : gmap string value)
    (out : list payload) (id : value) : result unit * list payload :=
  let response : gmap string value :=
    <["jsonrpc" := VStr "2.0"]>
      (<["result" :=
           VObj (<["protocolVersion" := VStr "2024-11-05"]>
                (<["capabilities" := VObj (<["tools" := VObj ∅]> ∅)]>
                (<["serverInfo" :=
                     VObj (<["name" := VStr "planka-mcp"]>
                          (<["version" := VStr "1.0.0"]> ∅))]> ∅)))]>
         (<["id" := id]> ∅)) in
  Encode out response.

Definition handleToolsList (s : Server) (out : list payload) (id : value)
    : result unit * list payload :=
  let tools := getTools s in
  let response : gmap string value :=
    <["jsonrpc" := VStr "2.0"]>
      (<["result" := VObj (<["tools" := VArr (VObj <$> tools)]> ∅)]>
         (<["id" := id]> ∅)) in
  Encode out response.

Definition handleToolsCall (s : Server) (request : gmap string value)
    (out : list payload) (id : value) (log : list call)
    : result unit * list payload * list call :=
  match as_map (request !! "params") with
  | None => (Err "missing params in request", out, log)
  | Some params =>
      match as_string (params !! "name") with
      | None => (Err "missing name in params", out, log)
      | Some toolName =>
          let arguments := default ∅ (as_map (params !! "arguments")) in
          match callTool s toolName arguments log with
          | (Err e, log') => (Err ("tool call failed: " +:+ e), out, log')
          | (Ok result, log') =>
              let response : gmap string value :=
                <["jsonrpc" := VStr "2.0"]>
                  (<["result" :=
                       VObj (<["content" :=
                                 VArr [VObj (<["type" := VStr "text"]>
                                            (<["text" := VStr result]> ∅))]]>
                               ∅)]>
                     (<["id" := id]> ∅)) in
              let '(r, out') := Encode out response in (r, out', log')
          end
      end
  end.

Definition handleRequest (s : Server) (request : gmap string value)
    (out : list payload) (log : list call)
    : result unit * list payload * list call :=
  match as_string (request !! "method") with
  | None => (Err "missing method in request", out, log)
  | Some method =>
      let id := index request "id" in
      if String.eqb method "tools/list" then
        let '(r, out') := handleToolsList s out id in (r, out', log)
      else if String.eqb method "tools/call" then
        handleToolsCall s request out id log
      else (Err ("unknown method: " +:+ method), out, log)
  end.

Definition sendError (s : Server) (out : list payload)
    (request : gmap string value) (err : error) : list payload :=
  let id := index request "id" in
  let response : gmap string value :=
    <["jsonrpc" := VStr "2.0"]>
      (<["error" := VObj (<["code" := VInt (-32603)]>
                         (<["message" := VStr err]> ∅))]>
         (<["id" := id]> ∅)) in
  snd (Encode out response).

Fixpoint Start_loop (s : Server) (stdin : list payload) (initialized : bool)
    (out : list payload) (log : list call)
    : result unit * list payload * list call :=
  match stdin with
  | [] => (Ok tt, out, log)
  | data :: rest =>
      match json_Unmarshal (T := gmap string value) data with
      | Err e => (Err ("failed to decode request: " +:+ e), out, log)
      | Ok request =>
          let method := default "" (as_string (request !! "method")) in
          let id := index request "id" in
          if String.eqb method "initialize" then
            match handleInitialize s request out id with
            | (Err e, out') =>
                (Err ("failed to handle initialize: " +:+ e), out', log)
            | (Ok _, out') => Start_loop s rest true out' log
            end
          else if String.eqb method "notifications/initialized" then
            Start_loop s rest initialized out log
          else if negb initialized then
            (Err "received request before initialization", out, log)
          else
            match handleRequest s request out log with
            | (Err e, out', log') =>
                Start_loop s rest initialized (sendError s out' request e) log'
            | (Ok _, out', log') => Start_loop s rest initialized out' log'
            end
      end
  end.

Definition Start (s : Server) (stdin : list payload)
    (log : list call) : result unit * list payload * list call :=
  Start_loop s stdin false [] log.

End server.
End legacy.

End mcp.

(** ** Command planka-mcp: [main] (main.go)

    [main] ends in one of three calls, [RunTests()], [server.StartHTTP] or
    [server.StartStdio], or in a [log.Fatal]; [handover] names the call it
    reaches, and a [log.Fatal] is the error with its message.  The inputs
    are what [flag.Parse] leaves, the three flags and the remaining
    arguments [flag.Args()], and the environment. *)

Module cmd.
Import planka.

(** [os.Getenv]: the empty string when the variable is not set. *)
Definition Getenv (env : gmap string string) (key : string) : string :=
  default "" (env !! key).

Inductive handover : Type :=
  | RunTests
  | StartHTTP (server : mcp.Server) (addr : string) (port : Z)
  | StartStdio (server : mcp.Server).

Section main.
Context `{lib : !GoLib, svc : !Service}.
Context `{!Unmarshal LoginResponse.t}.

Definition main (httpMode : bool) (httpPort : Z) (httpAddr : string)
    (args : list string) (env : gmap string string) : io handover :=
  if match args with arg :: _ => String.eqb arg "test" | [] => false end then
    ret RunTests
  else
    let plankaURL := Getenv env "PLANKA_URL" in
    if String.eqb plankaURL "" then
      fail "PLANKA_URL environment variable is required"
    else
      let plankaToken := Getenv env "PLANKA_TOKEN" in
      let* client :=
        if negb (String.eqb plankaToken "") then
          ret (NewClient plankaURL plankaToken)
        else
          let username := Getenv env "PLANKA_USERNAME" in
          let password := Getenv env "PLANKA_PASSWORD" in
          if String.eqb username "" || String.eqb password "" then
            fail ("Either PLANKA_TOKEN or both PLANKA_USERNAME and "
                  +:+ "PLANKA_PASSWORD environment variables are required")
          else
            let* r := attempt (NewClientWithPassword plankaURL username
                                 password) in
            match r with
            | Err e =>
                fail ("Failed to authenticate with username/password: "
                      +:+ e)
            | Ok client => ret client
            end in
      let server := mcp.NewServer client in
      if httpMode then ret (StartHTTP server httpAddr httpPort)
      else ret (StartStdio server).

End main.
End cmd.

(** ** The design, in the words of the specification

    [Spec.GetCards] is the two-hop resolution as the design describes it:
    resolve the owning board (directly, else by the first match of a
    search over projects, boards and lists), then keep the cards of the
    list.  It is compared with [planka.GetCards] below. *)

Module Spec.
Import planka.

(** The error codes of the protocol family. *)
Definition MethodNotFound : Z := -32601.
Definition InvalidRequest : Z := -32600.
Definition InternalError : Z := -32603.

(** The procedure names the dispatcher recognises. *)
Definition lifecycle (method : string) : bool :=
  String.eqb method "initialize"
  || String.eqb method "notifications/initialized".

Definition recognised (method : string) : bool :=
  lifecycle method
  || String.eqb method "tools/list" || String.eqb method "tools/call".

(** A response carries exactly one of [result] and [error]. *)
Definition exactly_one_of_result_error (envelope : gmap string value) : Prop :=
  (is_Some (envelope !! "result") /\ envelope !! "error" = None)
  \/ (envelope !! "result" = None /\ is_Some (envelope !! "error")).

(** The integer a [float64] denotes, when it denotes one. *)
Definition integer_of (f : float) : option Z :=
  match FloatOps.Prim2SF f with
  | SpecFloat.S754_zero _ => Some 0%Z
  | SpecFloat.S754_finite sign m e =>
      let magnitude :=
        if (0 <=? e)%Z then Some (Z.pos m * 2 ^ e)%Z
        else if (Z.pos m mod 2 ^ (- e) =? 0)%Z
             then Some (Z.pos m / 2 ^ (- e))%Z
             else None in
      (fun n => if sign then (- n)%Z else n) <$> magnitude
  | _ => None
  end.

Definition error_code (envelope : gmap string value) : option value :=
  match envelope !! "error" with
  | Some (VObj e) => e !! "code"
  | _ => None
  end.

(** Whether a value has the primitive type a schema names. *)
Definition has_type (type : string) (v : value) : bool :=
  match v with
  | VStr _ => String.eqb type "string"
  | VNum _ => String.eqb type "number"
  | VBool _ => String.eqb type "boolean"
  | _ => false
  end.

Definition has_list (listID : string) (lists : list List.t) : bool :=
  existsb (fun list => String.eqb (List.ID list) listID) lists.

Section resolution.
Context `{lib : !GoLib, svc : !Service}.
Context `{!Unmarshal APIResponse.t}.
Context `{!Unmarshal (slice Project.t), !Unmarshal (slice Board.t),
          !Unmarshal (slice List.t), !Unmarshal (slice Card.t)}.
Context `{!Unmarshal (ItemIncluded Project.t), !Unmarshal (ItemIncluded Board.t),
          !Unmarshal (ItemIncluded List.t)}.

(** Whether a board counts as the owner of the list once its lists are
    read.  With [nonempty] set, a board whose identifier is empty never
    counts. *)
Definition owns (nonempty : bool) (listID : string) (board : Board.t)
    (lists : list List.t) : bool :=
  has_list listID lists
  && (negb nonempty || negb (String.eqb (Board.ID board) "")).

(** All boards of a project in order, stopping at the first that owns
    the list; a board whose lists cannot be read is passed over. *)
Fixpoint first_board (nonempty : bool) (c : Client) (listID : string)
    (boards : list Board.t) : io (option string) :=
  match boards with
  | [] => ret None
  | board :: rest =>
      let* lists := attempt (GetLists c (Board.ID board)) in
      match lists with
      | Ok lists =>
          if owns nonempty listID board (elems lists)
          then ret (Some (Board.ID board))
          else first_board nonempty c listID rest
      | Err _ => first_board nonempty c listID rest
      end
  end.

(** All projects in order; a project whose boards cannot be read is
    passed over. *)
Fixpoint search (nonempty : bool) (c : Client) (listID : string)
    (projects : list Project.t) : io (option string) :=
  match projects with
  | [] => ret None
  | project :: rest =>
      let* boards := attempt (GetBoards c (Project.ID project)) in
      match boards with
      | Ok boards =>
          let* found := first_board nonempty c listID (elems boards) in
          match found with
          | Some boardID => ret (Some boardID)
          | None => search nonempty c listID rest
          end
      | Err _ => search nonempty c listID rest
      end
  end.

(** The owning board: the list's own board reference when the direct
    lookup succeeds (an empty reference is no board), else the result of
    the search; a failure to enumerate the projects is an error. *)
Definition resolve_board (c : Client) (listID : string) : io (option string) :=
  let* direct := attempt (get (T := ItemIncluded List.t) c
                            ("/api/lists/" +:+ listID)) in
  match direct with
  | Ok listResp =>
      let boardID := List.BoardID (Item listResp) in
      ret (if String.eqb boardID "" then None else Some boardID)
  | Err _ =>
      let* projects := attempt (GetProjects c) in
      match projects with
      | Err e => fail ("failed to get projects to find board: " +:+ e)
      | Ok projects => search true c listID (elems projects)
      end
  end.

Definition GetCards (c : Client) (listID : string) : io (slice Card.t) :=
  let* found := resolve_board c listID in
  match found with
  | None => ret (Slice [])
  | Some boardID => cards_of_board c boardID listID
  end.

End resolution.
End Spec.

(** ** A scripted library and service, for concrete runs

    Stand-ins for the parameters: decoders that read fields by their
    exact keys (timestamps and nested collections are not read), a
    library whose encoders print a placeholder, and a service that
    answers from a table of routes. *)

Module fixture.
Import planka.

Definition epoch : Time := {| unixNano := 0; zoneOffset := 0 |}.

Definition lib : GoLib :=
  {| time_Parse_RFC3339 := fun s =>
       if String.eqb s "" then Err "cannot parse as a time" else Ok epoch;
     time_Format_RFC3339 := fun _ => "1970-01-01T00:00:00Z";
     time_MarshalJSON := fun _ => VStr "1970-01-01T00:00:00Z";
     json_Marshal := fun _ => Ok "(json)";
     json_MarshalIndent := fun _ => Ok "(indented json)";
     http_NewRequest := fun _ _ => Ok tt |}.

(** A field no composite literal of the repository sets reads as the
    zero value. *)
Definition unset : CreateBoardRequest.Selector := fun _ => 0%float.

Definition str (m : gmap string value) (k : string) : string :=
  default "" (as_string (m !! k)).

Definition num (m : gmap string value) (k : string) : float :=
  default 0%float (as_float64 (m !! k)).

Definition cannot_unmarshal {A} : result A :=
  Err "json: cannot unmarshal into the Go value".

(** A struct from an object; [null] leaves the zero value. *)
Definition struct_of {A} (f : gmap string value -> A) : Unmarshal A :=
  fun v =>
    match v with
    | VObj m => Ok (f m)
    | VNil => Ok (f ∅)
    | _ => cannot_unmarshal
    end.

Definition Project_of : Unmarshal Project.t := struct_of (fun m =>
  {| Project.ID := str m "id"; Project.Name := str m "name";
     Project.Description := str m "description";
     Project.CreatedAt := epoch; Project.UpdatedAt := epoch;
     Project.Boards := nil_slice |}).

Definition Board_of : Unmarshal Board.t := struct_of (fun m =>
  {| Board.ID := str m "id"; Board.Name := str m "name";
     Board.Description := str m "description";
     Board.ProjectID := str m "projectId";
     Board.CreatedAt := epoch; Board.UpdatedAt := epoch;
     Board.Lists := nil_slice |}).

Definition List_of : Unmarshal List.t := struct_of (fun m =>
  {| List.ID := str m "id"; List.Name := str m "name";
     List.BoardID := str m "boardId"; List.Position := num m "position";
     List.CreatedAt := epoch; List.UpdatedAt := epoch;
     List.Cards := nil_slice |}).

Definition Card_of : Unmarshal Card.t := struct_of (fun m =>
  {| Card.ID := str m "id"; Card.Name := str m "name";
     Card.Description := str m "description";
     Card.ListID := str m "listId"; Card.Position := num m "position";
     Card.DueDate := None;
     Card.CreatedAt := epoch; Card.UpdatedAt := epoch;
     Card.Tasks := nil_slice; Card.Comments := nil_slice;
     Card.Labels := nil_slice |}).

Definition Task_of : Unmarshal Task.t := struct_of (fun m =>
  {| Task.ID := str m "id"; Task.Name := str m "name";
     Task.CardID := str m "cardId"; Task.Position := num m "position";
     Task.IsCompleted := default false (as_bool (m !! "isCompleted"));
     Task.CreatedAt := epoch; Task.UpdatedAt := epoch |}).

Definition Comment_of : Unmarshal Comment.t := struct_of (fun m =>
  {| Comment.ID := str m "id"; Comment.Text := str m "text";
     Comment.CardID := str m "cardId"; Comment.UserID := str m "userId";
     Comment.CreatedAt := epoch; Comment.UpdatedAt := epoch |}).

Definition Stopwatch_of : Unmarshal Stopwatch.t := struct_of (fun m =>
  {| Stopwatch.ID := str m "id"; Stopwatch.CardID := str m "cardId";
     Stopwatch.StartedAt := None; Stopwatch.Duration := 0 |}).

Definition User_of : Unmarshal User.t := struct_of (fun m =>
  {| User.ID := str m "id"; User.Email := str m "email";
     User.Name := str m "name"; User.Username := str m "username" |}).

Definition LoginResponse_of : Unmarshal LoginResponse.t := struct_of (fun m =>
  {| LoginResponse.Item := str m "item" |}).

Fixpoint each {A} (f : value -> result A) (l : list value)
    : result (list A) :=
  match l with
  | [] => Ok []
  | v :: rest =>
      match f v, each f rest with
      | Ok x, Ok xs => Ok (x :: xs)
      | Err e, _ => Err e
      | _, Err e => Err e
      end
  end.

Definition slice_of {A} (f : Unmarshal A) : Unmarshal (slice A) :=
  fun v =>
    match v with
    | VNil => Ok nil_slice
    | VArr l =>
        match each f l with
        | Ok xs => Ok (Slice xs)
        | Err e => Err e
        end
    | _ => cannot_unmarshal
    end.

Definition ItemIncluded_of {A} (f : Unmarshal A) : Unmarshal (ItemIncluded A) :=
  fun v =>
    match v with
    | VObj m =>
        match f (index m "item") with
        | Ok x =>
            Ok {| Item := x; Included := default ∅ (as_map (m !! "included")) |}
        | Err e => Err e
        end
    | _ => cannot_unmarshal
    end.

Definition ItemOnly_of {A} (f : Unmarshal A) : Unmarshal (ItemOnly A) :=
  fun v =>
    match v with
    | VObj m =>
        match f (index m "item") with
        | Ok x => Ok {| item := x |}
        | Err e => Err e
        end
    | _ => cannot_unmarshal
    end.

Definition APIResponse_of : Unmarshal APIResponse.t := struct_of (fun m =>
  {| APIResponse.Items := index m "items";
     APIResponse.Included := index m "included" |}).

Definition envelope_of : Unmarshal (gmap string value) :=
  fun v =>
    match v with
    | VObj m => Ok m
    | VNil => Ok ∅
    | _ => cannot_unmarshal
    end.

(** The text of a JSON value, and two texts that are not JSON. *)
Definition json (v : value) : payload :=
  {| bytes := "(json)"; parsed := Ok v |}.

Definition json_line (v : value) : payload := mcp.line (json v).

Definition html : payload :=
  {| bytes := "<!DOCTYPE html>";
     parsed := Err "invalid character '<' looking for beginning of value" |}.

Definition garbage : payload :=
  {| bytes := "invalid json";
     parsed := Err "invalid character 'i' looking for beginning of value" |}.

Definition obj (fields : list (string * value)) : value :=
  VObj (list_to_map fields).

(** A service answering from a table keyed by method and URL; any other
    call finds nobody listening. *)
Definition route : Type := string * string * reply.

Definition serve (routes : list route) : Service :=
  fun _ call =>
    match
      find (fun r => String.eqb r.1.1 (req_method call)
                     && String.eqb r.1.2 (req_url call)) routes
    with
    | Some r => r.2
    | None => Failed "connection refused"
    end.

Definition unreachable : Service := serve [].

Definition c : Client := NewClient "http://planka" "secret".

Definition s : mcp.Server := mcp.NewServer c.

Definition GET (url : string) (body : option payload) : call :=
  {| req_method := "GET"; req_url := "http://planka" +:+ url;
     req_authorization := "Bearer secret"; req_body := body |}.

Definition POST (url : string) (body : option payload) : call :=
  {| req_method := "POST"; req_url := "http://planka" +:+ url;
     req_authorization := "Bearer secret"; req_body := body |}.

Definition PATCH (url : string) (body : option payload) : call :=
  {| req_method := "PATCH"; req_url := "http://planka" +:+ url;
     req_authorization := "Bearer secret"; req_body := body |}.

Definition DELETE (url : string) (body : option payload) : call :=
  {| req_method := "DELETE"; req_url := "http://planka" +:+ url;
     req_authorization := "Bearer secret"; req_body := body |}.

End fixture.

(** * Properties *)

(** ** Running computations *)

Lemma bind_Ok {A B} (m : io A) (k : A -> io B) log a log' :
  m log = (Ok a, log') -> bind m k log = k a log'.
Proof. intros Hm. unfold bind. now rewrite Hm. Qed.

Lemma bind_Err {A B} (m : io A) (k : A -> io B) log e log' :
  m log = (Err e, log') -> bind m k log = (Err e, log').
Proof. intros Hm. unfold bind. now rewrite Hm. Qed.

Lemma attempt_run {A} (m : io A) log :
  attempt m log = (Ok (m log).1, (m log).2).
Proof. unfold attempt. now destruct (m log). Qed.

Lemma attempt_eq {A} (m : io A) log r log' :
  m log = (r, log') -> attempt m log = (Ok r, log').
Proof. intros Hm. unfold attempt. now rewrite Hm. Qed.

Lemma every_call_ret {A} P (a : A) : every_call P (ret a).
Proof. intros log. exists []. now rewrite app_nil_r. Qed.

Lemma every_call_fail {A} P e : every_call P (@fail A e).
Proof. intros log. exists []. now rewrite app_nil_r. Qed.

Lemma every_call_lift {A} P (r : result A) : every_call P (lift r).
Proof. intros log. exists []. now rewrite app_nil_r. Qed.

Lemma every_call_require {A} P (o : option A) msg :
  every_call P (require o msg).
Proof. destruct o; [apply every_call_ret | apply every_call_fail]. Qed.

Lemma every_call_bind {A B} P (m : io A) (k : A -> io B) :
  every_call P m -> (forall a, every_call P (k a)) ->
  every_call P (bind m k).
Proof.
  intros Hm Hk log. unfold bind.
  destruct (Hm log) as (new1 & E1 & F1).
  destruct (m log) as [[a|e] log1]; simpl in E1; subst log1.
  - destruct (Hk a (log ++ new1)) as (new2 & E2 & F2).
    exists (new1 ++ new2). rewrite E2, app_assoc. split; [done|].
    now apply Forall_app.
  - now exists new1.
Qed.

Lemma every_call_attempt {A} P (m : io A) :
  every_call P m -> every_call P (attempt m).
Proof.
  intros Hm log. rewrite attempt_run. simpl. apply Hm.
Qed.

Create HintDb calls.

#[local] Hint Resolve every_call_ret every_call_fail every_call_lift
  every_call_require every_call_attempt : calls.

(** What a call carries for a request body [body]. *)
Definition carries (body : option value) (reqBody : option payload) : Prop :=
  match body, reqBody with
  | None, None => True
  | Some v, Some data => parsed data = Ok v
  | _, _ => False
  end.

Section transport_facts.
Context {lib : GoLib} {svc : Service}.

Lemma every_call_doRequest P c method endpoint body :
  (forall reqBody, carries body reqBody ->
     P {| req_method := method;
          req_url := planka.baseURL c +:+ endpoint;
          req_authorization := "Bearer " +:+ planka.token c;
          req_body := reqBody |}) ->
  every_call P (planka.doRequest c method endpoint body).
Proof.
  intros HP log. unfold planka.doRequest, bind.
  assert (forall reqBody, carries body reqBody ->
    exists new,
      snd (match http_NewRequest method (planka.baseURL c +:+ endpoint) with
           | Err e => fail ("failed to create request: " +:+ e)
           | Ok _ =>
               let req := {| req_method := method;
                             req_url := planka.baseURL c +:+ endpoint;
                             req_authorization := "Bearer " +:+ planka.token c;
                             req_body := reqBody |} in
               fun log =>
                 match roundTrip log req with
                 | Failed e => (Err ("request failed: " +:+ e), log ++ [req])
                 | Response status body =>
                     if (400 <=? status)%Z
                     then (Err ("API error (status " +:+ pretty status
                                +:+ "): " +:+ bytes body), log ++ [req])
                     else (Ok body, log ++ [req])
                 end
           end log) = log ++ new /\ Forall P new) as Hsend.
  { intros reqBody Hc.
    destruct (http_NewRequest method _).
    - simpl. destruct (roundTrip log _) as [e|status data];
        [|destruct (400 <=? status)%Z]; simpl;
        (eexists [_]; split; [reflexivity|]; apply Forall_singleton, HP, Hc).
    - exists []. simpl. now rewrite app_nil_r. }
  destruct body as [v|]; simpl.
  - unfold marshal. destruct (json_Marshal v) as [text|e]; simpl.
    + now apply Hsend.
    + exists []. now rewrite app_nil_r.
  - now apply Hsend.
Qed.

End transport_facts.

(** ** Parent-children resolution (boards, lists, tasks, cards) *)

Section resolution_facts.
Import planka.
Context {lib : GoLib} {svc : Service}.
Context `{!Unmarshal APIResponse.t}.
Context `{!Unmarshal (slice Project.t), !Unmarshal (slice Board.t),
          !Unmarshal (slice List.t), !Unmarshal (slice Card.t),
          !Unmarshal (slice Task.t)}.
Context `{!Unmarshal (ItemIncluded Project.t), !Unmarshal (ItemIncluded Board.t),
          !Unmarshal (ItemIncluded List.t), !Unmarshal (ItemIncluded Card.t)}.

(** C7. When the parent is fetched and its bundle has no entry for the
    kind, boards-of-project, lists-of-board, tasks-of-card and
    cards-of-list (the board fetch of [GetCards], on either path, and the
    whole of [GetCards] on the direct path) all return an empty
    collection, not an error. *)
Theorem absent_kind_is_empty (c : Client) (log log' : list call) :
  (forall projectID resp,
      get (T := ItemIncluded Project.t) c ("/api/projects/" +:+ projectID) log
        = (Ok resp, log') ->
      Included resp !! "boards" = None ->
      GetBoards c projectID log = (Ok (Slice []), log'))
  /\ (forall boardID resp,
      get (T := ItemIncluded Board.t) c ("/api/boards/" +:+ boardID) log
        = (Ok resp, log') ->
      Included resp !! "lists" = None ->
      GetLists c boardID log = (Ok (Slice []), log'))
  /\ (forall cardID resp,
      get (T := ItemIncluded Card.t) c ("/api/cards/" +:+ cardID) log
        = (Ok resp, log') ->
      Included resp !! "tasks" = None ->
      GetTasks c cardID log = (Ok (Slice []), log'))
  /\ (forall boardID listID resp,
      get (T := ItemIncluded Board.t) c ("/api/boards/" +:+ boardID) log
        = (Ok resp, log') ->
      Included resp !! "cards" = None ->
      cards_of_board c boardID listID log = (Ok (Slice []), log'))
  /\ (forall listID listResp log1 resp,
      get (T := ItemIncluded List.t) c ("/api/lists/" +:+ listID) log
        = (Ok listResp, log1) ->
      List.BoardID (Item listResp) <> "" ->
      get (T := ItemIncluded Board.t) c
          ("/api/boards/" +:+ List.BoardID (Item listResp)) log1
        = (Ok resp, log') ->
      Included resp !! "cards" = None ->
      GetCards c listID log = (Ok (Slice []), log')).
Proof.
  repeat split.
  - intros projectID resp Hget Habsent. unfold GetBoards.
    rewrite (bind_Ok _ _ _ _ _ Hget). now rewrite Habsent.
  - intros boardID resp Hget Habsent. unfold GetLists.
    rewrite (bind_Ok _ _ _ _ _ Hget). now rewrite Habsent.
  - intros cardID resp Hget Habsent. unfold GetTasks.
    rewrite (bind_Ok _ _ _ _ _ Hget). now rewrite Habsent.
  - intros boardID listID resp Hget Habsent. unfold cards_of_board.
    rewrite (bind_Ok _ _ _ _ _ (attempt_eq _ _ _ _ Hget)).
    now rewrite Habsent.
  - intros listID listResp log1 resp Hlist Hboard Hget Habsent.
    unfold GetCards.
    rewrite (bind_Ok _ _ _ _ _ (attempt_eq _ _ _ _ Hlist)).
    apply String.eqb_neq in Hboard. rewrite Hboard.
    unfold cards_of_board.
    rewrite (bind_Ok _ _ _ _ _ (attempt_eq _ _ _ _ Hget)).
    now rewrite Habsent.
Qed.

(** The inner loop finds the board exactly when one of its lists has the
    requested identifier. *)
Lemma scan_lists_has_list listID board lists :
  scan_lists listID board lists ""
  = if Spec.has_list listID lists then Board.ID board else "".
Proof.
  induction lists as [|list rest IH]; simpl; [done|].
  now destruct (String.eqb (List.ID list) listID).
Qed.

(** How the loops report their result: the empty string for no board. *)
Definition sentinel (r : result (option string) * list call)
    : result string * list call :=
  match r with
  | (Ok found, log) => (Ok (default "" found), log)
  | (Err e, log) => (Err e, log)
  end.

Lemma scan_boards_first_board c listID boards log :
  scan_boards c listID boards "" log
  = sentinel (Spec.first_board true c listID boards log).
Proof.
  revert log. induction boards as [|board rest IH]; intros log; [done|].
  simpl. unfold bind. rewrite attempt_run.
  destruct (GetLists c (Board.ID board) log) as [[lists|e] log1]; simpl;
    [|apply IH].
  rewrite scan_lists_has_list. unfold Spec.owns.
  destruct (Spec.has_list listID (elems lists)); simpl; [|apply IH].
  destruct (String.eqb (Board.ID board) "") eqn:Hid; simpl; [|done].
  apply String.eqb_eq in Hid. rewrite Hid. apply IH.
Qed.

Lemma first_board_nonempty c listID boards log boardID log' :
  Spec.first_board true c listID boards log = (Ok (Some boardID), log') ->
  String.eqb boardID "" = false.
Proof.
  revert log. induction boards as [|board rest IH]; intros log; [done|].
  simpl. unfold bind. rewrite attempt_run.
  destruct (GetLists c (Board.ID board) log) as [[lists|e] log1]; simpl;
    [|apply IH].
  unfold Spec.owns.
  destruct (Spec.has_list listID (elems lists)); simpl; [|apply IH].
  destruct (String.eqb (Board.ID board) "") eqn:Hid; simpl; [apply IH|].
  unfold ret. now intros [= <- _].
Qed.

Lemma first_board_total nonempty c listID boards log :
  exists found log', Spec.first_board nonempty c listID boards log
                     = (Ok found, log').
Proof.
  revert log. induction boards as [|board rest IH]; intros log.
  - now exists None, log.
  - simpl. unfold bind. rewrite attempt_run.
    destruct (GetLists c (Board.ID board) log) as [[lists|e] log1]; simpl;
      [|apply IH].
    destruct (Spec.owns _ _ _ _); [|apply IH].
    now eexists _, _.
Qed.

Lemma scan_projects_search c listID projects log :
  scan_projects c listID projects "" log
  = sentinel (Spec.search true c listID projects log).
Proof.
  revert log. induction projects as [|project rest IH]; intros log; [done|].
  simpl. unfold bind at 1 3. rewrite attempt_run.
  destruct (GetBoards c (Project.ID project) log) as [[boards|e] log1]; simpl;
    [|apply IH].
  unfold bind. rewrite scan_boards_first_board.
  destruct (first_board_total true c listID (elems boards) log1)
    as (found & log2 & Hfound).
  rewrite Hfound. simpl. destruct found as [boardID|]; simpl; [|apply IH].
  now rewrite (first_board_nonempty _ _ _ _ _ _ Hfound).
Qed.

Lemma search_nonempty c listID projects log boardID log' :
  Spec.search true c listID projects log = (Ok (Some boardID), log') ->
  String.eqb boardID "" = false.
Proof.
  revert log. induction projects as [|project rest IH]; intros log; [done|].
  simpl. unfold bind at 1. rewrite attempt_run.
  destruct (GetBoards c (Project.ID project) log) as [[boards|e] log1]; simpl;
    [|apply IH].
  unfold bind.
  destruct (first_board_total true c listID (elems boards) log1)
    as (found & log2 & Hfound).
  rewrite Hfound. destruct found as [b|]; [|apply IH].
  unfold ret. intros [= <- _]. eapply first_board_nonempty, Hfound.
Qed.

(** The filtering loop keeps the cards of the list, in order. *)
Lemma filter_cards_elems listID allCards filteredCards :
  elems (filter_cards listID allCards filteredCards)
  = elems filteredCards
    ++ filter (fun card => Card.ListID card = listID) allCards.
Proof.
  revert filteredCards.
  induction allCards as [|card rest IH]; intros acc; simpl.
  - now rewrite app_nil_r.
  - rewrite IH, filter_cons.
    destruct (String.eqb_spec (Card.ListID card) listID) as [Heq|Hne].
    + rewrite decide_True by done. simpl. now rewrite <- app_assoc.
    + now rewrite decide_False by done.
Qed.

Lemma cards_of_board_ListID c boardID listID log cards log' :
  cards_of_board c boardID listID log = (Ok cards, log') ->
  Forall (fun card => Card.ListID card = listID) (elems cards).
Proof.
  unfold cards_of_board, bind. rewrite attempt_run.
  destruct (get c _ log) as [[boardResp|e] log1]; simpl; [|done].
  destruct (Included boardResp !! "cards") as [cardsData|].
  - destruct (remarshal "cards" cardsData log1) as [[allCards|e] log2];
      simpl; [|done].
    unfold ret. intros [= <- _]. rewrite filter_cards_elems. simpl.
    apply Forall_forall. intros card Hin.
    now apply list_elem_of_filter in Hin as [? _].
  - unfold ret. intros [= <- _]. constructor.
Qed.

(** C1, as amended.  [GetCards] is the resolution of the design: the
    list's own board reference when the direct lookup succeeds, else the
    first board with a non-empty identifier, in the order projects, boards,
    lists, one of whose lists has the requested identifier (an error when
    the projects cannot be enumerated); no board gives the empty
    collection; and every card returned belongs to the requested list. *)
Theorem GetCards_resolution (c : Client) (listID : string) (log : list call) :
  GetCards c listID log = Spec.GetCards c listID log
  /\ (forall e log1 e' log2,
        get (T := ItemIncluded List.t) c ("/api/lists/" +:+ listID) log
          = (Err e, log1) ->
        GetProjects c log1 = (Err e', log2) ->
        GetCards c listID log
        = (Err ("failed to get projects to find board: " +:+ e'), log2))
  /\ (forall log',
        Spec.resolve_board c listID log = (Ok None, log') ->
        GetCards c listID log = (Ok (Slice []), log'))
  /\ (forall cards log',
        GetCards c listID log = (Ok cards, log') ->
        Forall (fun card => Card.ListID card = listID) (elems cards)).
Proof.
  assert (GetCards c listID log = Spec.GetCards c listID log) as Hrefine.
  { unfold GetCards, Spec.GetCards, Spec.resolve_board, bind, attempt.
    destruct (get c ("/api/lists/" +:+ listID) log) as [[listResp|e] log1].
    - now destruct (String.eqb (List.BoardID (Item listResp)) "").
    - destruct (GetProjects c log1) as [[projects|e'] log2]; [|done].
      rewrite scan_projects_search.
      destruct (Spec.search true c listID (elems projects) log2)
        as [[[boardID|]|e'] log3] eqn:Hsearch; simpl; [|done|done].
      now rewrite (search_nonempty _ _ _ _ _ _ Hsearch). }
  split; [exact Hrefine|]. split; [|split].
  - intros e log1 e' log2 Hlist Hprojects. unfold GetCards.
    rewrite (bind_Ok _ _ _ _ _ (attempt_eq _ _ _ _ Hlist)).
    now rewrite (bind_Ok _ _ _ _ _ (attempt_eq _ _ _ _ Hprojects)).
  - intros log' Hnone. rewrite Hrefine. unfold Spec.GetCards.
    now rewrite (bind_Ok _ _ _ _ _ Hnone).
  - intros cards log'. rewrite Hrefine. unfold Spec.GetCards, bind.
    destruct (Spec.resolve_board c listID log) as [[[boardID|]|e] log1];
      [apply cards_of_board_ListID| |done].
    unfold ret. intros [= <- _]. constructor.
Qed.

End resolution_facts.

(** ** Tool calls: argument checks and outbound requests *)

Lemma sentinel_not_zero : PrimFloat.eqb 65535%float 0%float = false.
Proof. reflexivity. Qed.

Lemma ltb_zero_not_eqb pos :
  PrimFloat.ltb 0 pos = true -> PrimFloat.eqb pos 0 = false.
Proof.
  rewrite FloatAxioms.ltb_spec, FloatAxioms.eqb_spec.
  replace (FloatOps.Prim2SF 0) with (SpecFloat.S754_zero false) by reflexivity.
  destruct (FloatOps.Prim2SF pos) as [sg|sg| |sg m e]; simpl; try done.
  all: try (destruct sg; try discriminate; reflexivity).
Qed.

(** Each tool of the registry with the keys it requires and their
    declared types. *)
Definition registry_rows (s : mcp.Server)
    : list (string * list string * list (option string)) :=
  map (fun t => (mcp.tool_name t, mcp.tool_required t,
                 map (mcp.tool_property_type t) (mcp.tool_required t)))
      (mcp.getTools s).

Lemma registry_table s :
  registry_rows s =
  [ ("get_projects", [], []);
    ("get_project", ["projectId"], [Some "string"]);
    ("create_project", ["name"], [Some "string"]);
    ("get_boards", ["projectId"], [Some "string"]);
    ("get_board", ["boardId"], [Some "string"]);
    ("create_board", ["name"; "projectId"], [Some "string"; Some "string"]);
    ("get_lists", ["boardId"], [Some "string"]);
    ("get_list", ["listId"], [Some "string"]);
    ("create_list", ["name"; "boardId"], [Some "string"; Some "string"]);
    ("get_cards", ["listId"], [Some "string"]);
    ("get_card", ["cardId"], [Some "string"]);
    ("create_card", ["name"; "listId"], [Some "string"; Some "string"]);
    ("update_card", ["cardId"], [Some "string"]);
    ("delete_card", ["cardId"], [Some "string"]);
    ("move_card", ["cardId"; "listId"], [Some "string"; Some "string"]);
    ("get_tasks", ["cardId"], [Some "string"]);
    ("create_task", ["name"; "cardId"], [Some "string"; Some "string"]);
    ("update_task", ["taskId"], [Some "string"]);
    ("delete_task", ["taskId"], [Some "string"]);
    ("get_comments", ["cardId"], [Some "string"]);
    ("create_comment", ["text"; "cardId"], [Some "string"; Some "string"]);
    ("delete_comment", ["commentId"], [Some "string"]);
    ("get_stopwatch", ["cardId"], [Some "string"]);
    ("start_stopwatch", ["cardId"], [Some "string"]);
    ("stop_stopwatch", ["cardId"], [Some "string"]);
    ("reset_stopwatch", ["cardId"], [Some "string"]) ].
Proof. vm_compute. reflexivity. Qed.

Section tool_facts.
Import planka mcp.
Context {lib : GoLib} {svc : Service}.
Context {field : CreateBoardRequest.Selector}.
Context `{!Unmarshal APIResponse.t}.
Context `{!Unmarshal (slice Project.t), !Unmarshal (slice Board.t),
          !Unmarshal (slice List.t), !Unmarshal (slice Card.t),
          !Unmarshal (slice Task.t), !Unmarshal (slice Comment.t)}.
Context `{!Unmarshal (ItemIncluded Project.t), !Unmarshal (ItemIncluded Board.t),
          !Unmarshal (ItemIncluded List.t), !Unmarshal (ItemIncluded Card.t)}.
Context `{!Unmarshal (ItemOnly Project.t), !Unmarshal (ItemOnly Board.t),
          !Unmarshal (ItemOnly List.t), !Unmarshal (ItemOnly Card.t),
          !Unmarshal (ItemOnly Task.t), !Unmarshal (ItemOnly Comment.t),
          !Unmarshal (ItemOnly Stopwatch.t)}.

(** A handler whose check of [key] fails returns before any call. *)
Ltac reject_missing H :=
  intros log; unfold bind, require, ret, fail;
  repeat match goal with
    | |- context [as_string (?a !! ?k)] =>
        first [ rewrite H | destruct (as_string (a !! k)) ]
    end;
  eauto.

(** A required argument (all of them are declared as strings) that is
    absent or not a string makes the call fail before any call to the
    backing service. *)
Lemma required_argument_rejected (s : Server) (t : gmap string value)
    (key : string) (arguments : gmap string value) :
  t ∈ getTools s ->
  key ∈ tool_required t ->
  as_string (arguments !! key) = None ->
  tool_property_type t key = Some "string"
  /\ rejected (callTool s (tool_name t) arguments).
Proof.
  intros Ht Hkey Hargs.
  assert ((tool_name t, tool_required t,
           map (tool_property_type t) (tool_required t))
          ∈ registry_rows s) as Hrow.
  { unfold registry_rows. apply list_elem_of_fmap. now exists t. }
  rewrite registry_table in Hrow.
  repeat (apply elem_of_cons in Hrow as [Hrow|Hrow]);
    try (now apply elem_of_nil in Hrow).
  all: injection Hrow as Hname Hreq Htypes.
  all: rewrite Hreq in Hkey, Htypes; rewrite Hname; clear Hname Hreq.
  all: repeat (apply elem_of_cons in Hkey as [->|Hkey]);
    try (now apply elem_of_nil in Hkey).
  all: split; [now injection Htypes|].
  all: unfold callTool; simpl (String.eqb _ _); cbv iota.
  all: unfold handleGetProject, handleCreateProject, handleGetBoards,
    handleGetBoard, handleCreateBoard, handleGetLists, handleGetList,
    handleCreateList, handleGetCards, handleGetCard, handleCreateCard,
    handleUpdateCard, handleDeleteCard, handleMoveCard, handleGetTasks,
    handleCreateTask, handleUpdateTask, handleDeleteTask, handleGetComments,
    handleCreateComment, handleDeleteComment, handleGetStopwatch,
    handleStartStopwatch, handleStopStopwatch, handleResetStopwatch.
  all: reject_missing Hargs.
Qed.


(** A property a descriptor gives a type to is one of those it was
    built from. *)
Lemma tool_property_declared name description properties required key type :
  tool_property_type (tool name description properties required) key
  = Some type ->
  exists p, (key, p) ∈ properties
            /\ as_string (default ∅ (as_map (Some p)) !! "type") = Some type.
Proof.
  unfold tool_property_type, tool_schema, tool, inputSchema.
  rewrite lookup_insert_ne by done. rewrite lookup_insert_ne by done.
  rewrite lookup_insert_eq. simpl.
  assert (forall schema : gmap string value,
    (<["type" := VStr "object"]>
       (<["properties" := VObj (list_to_map properties)]> schema))
      !! "properties" = Some (VObj (list_to_map properties))) as Hprops.
  { intros schema. rewrite lookup_insert_ne by done.
    apply lookup_insert_eq. }
  destruct required as [keys|]; [rewrite lookup_insert_ne by done|];
    rewrite Hprops; simpl.
  all: destruct (list_to_map properties !! key) as [p|] eqn:Hp;
    simpl; [|done].
  all: intros Htype; exists p; split;
    [now apply elem_of_list_to_map_2 in Hp|].
  all: destruct p; try done; simpl in *; done.
Qed.

(** Deleting [k] leaves the other argument keys as they were. *)
Ltac other_keys m k :=
  try rewrite (lookup_delete_ne m k "projectId") by done;
  try rewrite (lookup_delete_ne m k "boardId") by done;
  try rewrite (lookup_delete_ne m k "listId") by done;
  try rewrite (lookup_delete_ne m k "cardId") by done;
  try rewrite (lookup_delete_ne m k "taskId") by done;
  try rewrite (lookup_delete_ne m k "commentId") by done;
  try rewrite (lookup_delete_ne m k "name") by done;
  try rewrite (lookup_delete_ne m k "description") by done;
  try rewrite (lookup_delete_ne m k "position") by done;
  try rewrite (lookup_delete_ne m k "dueDate") by done;
  try rewrite (lookup_delete_ne m k "isCompleted") by done;
  try rewrite (lookup_delete_ne m k "text") by done.

Ltac name_tool :=
  match goal with
  | |- context [tool_name ?t] =>
      let n := eval vm_compute in (tool_name t) in
      change (tool_name t) with n
  end.

Ltac unfold_handlers :=
  unfold callTool; simpl (String.eqb _ _); cbv iota;
  unfold handleGetProject, handleCreateProject, handleGetBoards,
    handleGetBoard, handleCreateBoard, handleGetLists, handleGetList,
    handleCreateList, handleGetCards, handleGetCard, handleCreateCard,
    handleUpdateCard, handleDeleteCard, handleMoveCard, handleGetTasks,
    handleCreateTask, handleUpdateTask, handleDeleteTask, handleGetComments,
    handleCreateComment, handleDeleteComment, handleGetStopwatch,
    handleStartStopwatch, handleStopStopwatch, handleResetStopwatch.

(** An optional argument whose value is not of the declared type is read
    as if it were absent. *)
Lemma optional_argument_ignored (s : Server) (t : gmap string value)
    (key type : string) (v : value) (arguments : gmap string value) log :
  t ∈ getTools s ->
  key ∉ tool_required t ->
  tool_property_type t key = Some type ->
  arguments !! key = Some v ->
  Spec.has_type type v = false ->
  callTool s (tool_name t) arguments log
  = callTool s (tool_name t) (base.delete key arguments) log.
Proof.
  intros Ht Hopt Hprop Hv Htype.
  unfold getTools, cardId_only in Ht.
  repeat (apply elem_of_cons in Ht as [->|Ht]).
  all: try (apply elem_of_nil in Ht; destruct Ht).
  all: apply tool_property_declared in Hprop as (p & Hin & Hdeclared).
  all: repeat (apply elem_of_cons in Hin as [Hin|Hin]).
  all: try (apply elem_of_nil in Hin; destruct Hin).
  all: injection Hin as -> ->.
  all: try (exfalso; apply Hopt; vm_compute; solve [repeat constructor]).
  all: clear Hopt; vm_compute in Hdeclared; injection Hdeclared as <-.
  all: name_tool; unfold_handlers.
  all: match goal with
       | |- context [base.delete ?k ?m] =>
           rewrite (lookup_delete_eq m k), Hv; other_keys m k
       end.
  all: destruct v; simpl in Htype; try discriminate; reflexivity.
Qed.

(** C3, as amended.  For every tool of the registry: a required argument
    (all of them are declared as strings) that is absent or not a string
    makes the call fail before any call to the backing service; an
    optional argument whose value is not of its declared type is not
    rejected, the call runs as if the argument had been omitted. *)
Theorem arguments_checked (s : Server) (t : gmap string value)
    (key : string) (arguments : gmap string value) :
  t ∈ getTools s ->
  (key ∈ tool_required t ->
   as_string (arguments !! key) = None ->
   tool_property_type t key = Some "string"
   /\ rejected (callTool s (tool_name t) arguments))
  /\ (key ∉ tool_required t ->
      forall type v log,
        tool_property_type t key = Some type ->
        arguments !! key = Some v ->
        Spec.has_type type v = false ->
        callTool s (tool_name t) arguments log
        = callTool s (tool_name t) (base.delete key arguments) log).
Proof.
  intros Ht. split.
  - intros Hkey Hargs. now apply required_argument_rejected.
  - intros Hopt type v log Hprop Hv Htype.
    now apply (optional_argument_ignored s t key type v).
Qed.

(** The call [doRequest] would make for a marshalled body. *)
Definition outbound (c : Client) (method endpoint : string)
    (reqBody : option payload) : call :=
  {| req_method := method;
     req_url := baseURL c +:+ endpoint;
     req_authorization := "Bearer " +:+ token c;
     req_body := reqBody |}.

(** A call carrying the JSON object [body]. *)
Definition sends_object (method url : string) (body : gmap string value)
    (x : call) : Prop :=
  req_method x = method /\ req_url x = url
  /\ exists data, req_body x = Some data /\ parsed data = Ok (VObj body).

Lemma every_call_send {T} `{!Unmarshal T} P c method endpoint body :
  (forall reqBody, carries body reqBody ->
     P (outbound c method endpoint reqBody)) ->
  every_call P (let* resp := doRequest c method endpoint body in
                decode_response (T := T) resp).
Proof.
  intros HP. apply every_call_bind.
  - now apply every_call_doRequest.
  - intros resp. unfold decode_response.
    destruct (json_Unmarshal resp); [apply every_call_ret|apply every_call_fail].
Qed.

Lemma sends_object_outbound c method endpoint body reqBody :
  carries (Some (VObj body)) reqBody ->
  sends_object method (baseURL c +:+ endpoint) body
    (outbound c method endpoint reqBody).
Proof.
  destruct reqBody as [data|]; simpl; [|done].
  intros Hdata. repeat split. now exists data.
Qed.

(** When the body marshals and the request can be built, exactly one
    call is made, and the reply decides the outcome. *)
Lemma doRequest_run c method endpoint body text log :
  json_Marshal body = Ok text ->
  http_NewRequest method (baseURL c +:+ endpoint) = Ok tt ->
  let sent := outbound c method endpoint
                (Some {| bytes := text; parsed := Ok body |}) in
  doRequest c method endpoint (Some body) log
  = (match roundTrip log sent with
     | Failed e => Err ("request failed: " +:+ e)
     | Response status data =>
         if (400 <=? status)%Z
         then Err ("API error (status " +:+ pretty status +:+ "): "
                   +:+ bytes data)
         else Ok data
     end, log ++ [sent]).
Proof.
  intros Htext Hnew sent. unfold doRequest, bind, marshal.
  rewrite Htext. simpl. rewrite Hnew. subst sent. unfold outbound.
  destruct (roundTrip log _) as [e|status data]; [done|].
  now destruct (400 <=? status)%Z.
Qed.

(** The body of a create request: the name and the position, then the
    description and the due date when there are any. *)
Definition create_body (name : string) (position : float)
    (description : string) (dueDate : option Time) : gmap string value :=
  let body : gmap string value :=
    <["position" := VNum position]> (<["name" := VStr name]> ∅) in
  let body :=
    if decide (description = "") then body
    else <["description" := VStr description]> body in
  match dueDate with
  | None => body
  | Some dueDate => <["dueDate" := VStr (time_Format_RFC3339 dueDate)]> body
  end.

Lemma create_body_position name position description dueDate :
  create_body name position description dueDate !! "position"
  = Some (VNum position).
Proof.
  unfold create_body. destruct dueDate; destruct (decide _);
    repeat (rewrite lookup_insert_ne by done); apply lookup_insert_eq.
Qed.

(** The tool sends exactly one request, a POST of [body] to [endpoint],
    whenever the body can be marshalled and the request built. *)
Definition posts (s : Server) (tool : string) (arguments : gmap string value)
    (endpoint : string) (body : gmap string value) : Prop :=
  forall log text,
    json_Marshal (VObj body) = Ok text ->
    http_NewRequest "POST" (baseURL (client s) +:+ endpoint) = Ok tt ->
    (callTool s tool arguments log).2
    = log ++ [outbound (client s) "POST" endpoint
                (Some {| bytes := text; parsed := Ok (VObj body) |})].

(** A continuation that makes no call leaves the log as it finds it. *)
Lemma quiet_bind {A B} (m : io A) (k : A -> io B) log :
  (forall x, every_call (fun _ => False) (k x)) ->
  (bind m k log).2 = (m log).2.
Proof.
  intros Hk. unfold bind. destruct (m log) as [[x|e] log']; [|done].
  destruct (Hk x log') as (new & -> & Hnone).
  destruct Hnone as [|? ? []]. apply app_nil_r.
Qed.

Lemma post_log {T} `{!Unmarshal T} c endpoint body text log :
  json_Marshal body = Ok text ->
  http_NewRequest "POST" (baseURL c +:+ endpoint) = Ok tt ->
  (post (T := T) c endpoint (Some body) log).2
  = log ++ [outbound c "POST" endpoint
              (Some {| bytes := text; parsed := Ok body |})].
Proof.
  intros Htext Hnew. unfold post. rewrite quiet_bind.
  - now rewrite (doRequest_run _ _ _ _ _ _ Htext Hnew).
  - intros resp. unfold decode_response.
    destruct (json_Unmarshal resp); [apply every_call_ret|apply every_call_fail].
Qed.

(** C10. A position equal to zero supplied to a create tool does not reach
    the backing service.  For create_list, create_card and create_task
    every call made is a POST whose body has position 65535.  The handler
    of create_board reads no position: the request carries what
    [CreateBoard] finds in [req.Position], replaced by 65535 when that is
    zero, so it is never zero, and it is 65535 when the field reads as
    zero.  And the request is made: given the name and the parent as
    strings, and a due date that parses when there is one, each tool sends
    exactly one POST of that body to the parent's collection whenever the
    body can be marshalled and the request built. *)
Theorem zero_position_is_replaced (s : Server)
    (arguments : gmap string value) (pos : float) :
  arguments !! "position" = Some (VNum pos) ->
  PrimFloat.eqb pos 0 = true ->
  let carries_position (ok : float -> Prop) (x : call) : Prop :=
    req_method x = "POST"
    /\ exists data body position,
         req_body x = Some data /\ parsed data = Ok (VObj body)
         /\ body !! "position" = Some (VNum position) /\ ok position in
  let description := default "" (as_string (arguments !! "description")) in
  (forall tool, tool ∈ ["create_list"; "create_card"; "create_task"] ->
     every_call (carries_position (fun position => position = 65535%float))
       (callTool s tool arguments))
  /\ every_call
       (carries_position
          (fun position =>
             PrimFloat.eqb position 0 = false
             /\ ((forall req,
                    PrimFloat.eqb (CreateBoardRequest.Position req) 0 = true) ->
                 position = 65535%float)))
       (callTool s "create_board" arguments)
  /\ (forall name boardID,
        arguments !! "name" = Some (VStr name) ->
        arguments !! "boardId" = Some (VStr boardID) ->
        posts s "create_list" arguments
          ("/api/boards/" +:+ boardID +:+ "/lists")
          (create_body name 65535 "" None))
  /\ (forall name listID dueDate,
        arguments !! "name" = Some (VStr name) ->
        arguments !! "listId" = Some (VStr listID) ->
        match as_string (arguments !! "dueDate"), dueDate with
        | Some dueDateStr, Some parsed =>
            time_Parse_RFC3339 dueDateStr = Ok parsed
        | None, None => True
        | _, _ => False
        end ->
        posts s "create_card" arguments
          ("/api/lists/" +:+ listID +:+ "/cards")
          (create_body name 65535 description dueDate))
  /\ (forall name cardID,
        arguments !! "name" = Some (VStr name) ->
        arguments !! "cardId" = Some (VStr cardID) ->
        posts s "create_task" arguments
          ("/api/cards/" +:+ cardID +:+ "/tasks")
          (create_body name 65535 "" None))
  /\ (forall name projectID,
        arguments !! "name" = Some (VStr name) ->
        arguments !! "projectId" = Some (VStr projectID) ->
        let position :=
          CreateBoardRequest.Position
            {| CreateBoardRequest.Name := name;
               CreateBoardRequest.Description := description;
               CreateBoardRequest.ProjectID := projectID |} in
        posts s "create_board" arguments
          ("/api/projects/" +:+ projectID +:+ "/boards")
          (create_body name
             (if PrimFloat.eqb position 0 then 65535%float else position)
             description None)).
Proof.
  intros Hpos Hzero carries_position description.
  assert (forall A (x : A), every_call (fun _ => False) (ret x)) as Hret
    by (intros; apply every_call_ret).
  assert (forall T `{!ToJSON T} (x : T), every_call (fun _ => False) (render x))
    as Hrender by (intros; apply every_call_lift).
  repeat split.
  - intros tool Htool.
    repeat (apply elem_of_cons in Htool as [->|Htool]);
      try (now apply elem_of_nil in Htool).
    all: unfold callTool; simpl (String.eqb _ _); cbv iota.
    + (* create_list *)
      unfold handleCreateList. rewrite Hpos. simpl as_float64.
      apply every_call_bind; [apply every_call_require|intros listName].
      apply every_call_bind; [apply every_call_require|intros boardID].
      apply every_call_bind; [|intros; apply every_call_lift].
      unfold CreateList, post. simpl CreateListRequest.Position.
      apply every_call_bind; [|intros; apply every_call_ret].
      apply every_call_send. intros [data|] Hc; simpl in Hc; [|done].
      split; [done|]. eexists data, _, _. split; [done|]. split; [exact Hc|].
      split; [apply lookup_insert_eq|].
      destruct (PrimFloat.ltb 0 pos).
      * now rewrite Hzero.
      * now rewrite sentinel_not_zero.
    + (* create_card *)
      unfold handleCreateCard. rewrite Hpos. simpl as_float64.
      apply every_call_bind; [apply every_call_require|intros cardName].
      apply every_call_bind; [apply every_call_require|intros listID].
      apply every_call_bind.
      { destruct (as_string (arguments !! "dueDate")); [|apply every_call_ret].
        apply every_call_bind; [|intros; apply every_call_ret].
        unfold parse_dueDate.
        destruct (time_Parse_RFC3339 _);
          [apply every_call_ret|apply every_call_fail]. }
      intros dueDate.
      apply every_call_bind; [|intros; apply every_call_lift].
      unfold CreateCard, post. simpl.
      apply every_call_bind; [|intros; apply every_call_ret].
      apply every_call_send. intros [data|] Hc; simpl in Hc; [|done].
      split; [done|]. eexists data, _, _. split; [done|]. split; [exact Hc|].
      rewrite Hzero. split; [|reflexivity].
      destruct dueDate; destruct (decide _);
        repeat (rewrite lookup_insert_ne by done); apply lookup_insert_eq.
    + (* create_task *)
      unfold handleCreateTask. rewrite Hpos. simpl as_float64.
      apply every_call_bind; [apply every_call_require|intros taskName].
      apply every_call_bind; [apply every_call_require|intros cardID].
      apply every_call_bind; [|intros; apply every_call_lift].
      unfold CreateTask, post. simpl.
      apply every_call_bind; [|intros; apply every_call_ret].
      apply every_call_send. intros [data|] Hc; simpl in Hc; [|done].
      split; [done|]. eexists data, _, _. split; [done|]. split; [exact Hc|].
      rewrite Hzero. split; [apply lookup_insert_eq|reflexivity].
  - (* create_board: the handler never reads the position *)
    unfold callTool; simpl (String.eqb _ _); cbv iota.
    unfold handleCreateBoard.
    apply every_call_bind; [apply every_call_require|intros boardName].
    apply every_call_bind; [apply every_call_require|intros projectID].
    apply every_call_bind; [|intros; apply every_call_lift].
    unfold CreateBoard, post.
    apply every_call_bind; [|intros; apply every_call_ret].
    apply every_call_send. intros [data|] Hc; simpl in Hc; [|done].
    split; [done|]. eexists data, _, _. split; [done|]. split; [exact Hc|].
    split.
    { destruct (decide _);
        repeat (rewrite lookup_insert_ne by done); apply lookup_insert_eq. }
    split.
    + destruct (PrimFloat.eqb (CreateBoardRequest.Position _) 0) eqn:Hread;
        [apply sentinel_not_zero|exact Hread].
    + intros Hunset. now rewrite Hunset.
  - (* create_list is sent *)
    intros name boardID Hname Hboard log text Htext Hnew.
    unfold callTool; simpl (String.eqb _ _); cbv iota.
    unfold handleCreateList. rewrite Hname, Hboard, Hpos. simpl as_float64.
    simpl as_string. unfold require, bind at 1 2; unfold ret at 1 2.
    replace (if PrimFloat.ltb 0 pos then pos else 65535%float)
      with 65535%float.
    2:{ destruct (PrimFloat.ltb 0 pos) eqn:Hlt; [|done].
        now apply ltb_zero_not_eqb in Hlt; rewrite Hlt in Hzero. }
    unfold CreateList. rewrite !quiet_bind by auto. simpl.
    now apply post_log.
  - (* create_card is sent *)
    intros name listID dueDate Hname Hlist Hdue log text Htext Hnew.
    unfold callTool; simpl (String.eqb _ _); cbv iota.
    unfold handleCreateCard. rewrite Hname, Hlist, Hpos. simpl as_float64.
    simpl as_string. unfold require, bind at 1 2; unfold ret at 1 2.
    fold description.
    assert ((match as_string (arguments !! "dueDate") with
             | Some dueDateStr =>
                 let* dueDate := parse_dueDate dueDateStr in ret (Some dueDate)
             | None => ret None
             end) log = (Ok dueDate, log)) as Hparse.
    { destruct (as_string (arguments !! "dueDate")) as [dueDateStr|],
        dueDate as [parsed|]; try done.
      unfold bind, parse_dueDate. now rewrite Hdue. }
    unfold bind at 1. rewrite Hparse.
    unfold CreateCard. rewrite !quiet_bind by auto. simpl. rewrite Hzero.
    now apply post_log.
  - (* create_task is sent *)
    intros name cardID Hname Hcard log text Htext Hnew.
    unfold callTool; simpl (String.eqb _ _); cbv iota.
    unfold handleCreateTask. rewrite Hname, Hcard, Hpos. simpl as_float64.
    simpl as_string. unfold require, bind at 1 2; unfold ret at 1 2.
    unfold CreateTask. rewrite !quiet_bind by auto. simpl. rewrite Hzero.
    now apply post_log.
  - (* create_board is sent *)
    intros name projectID Hname Hproject position log text Htext Hnew.
    unfold callTool; simpl (String.eqb _ _); cbv iota.
    unfold handleCreateBoard. rewrite Hname, Hproject.
    simpl as_string. unfold require, bind at 1 2; unfold ret at 1 2.
    fold description.
    unfold CreateBoard. rewrite !quiet_bind by auto. simpl.
    now apply post_log.
Qed.

Lemma every_call_ext {A} P (m m' : io A) :
  (forall log, m log = m' log) -> every_call P m' -> every_call P m.
Proof. intros Heq Hm log. rewrite Heq. apply Hm. Qed.

(** C8. A create_list call without a position sends one POST to the
    board's lists whose body holds the name and position 65535; it does
    not fail for the missing position, its outcome is decided by the
    reply; and when the service answers with the list it created, the
    result text is the rendering of an object with that name. *)
Theorem create_list_default_position (s : Server)
    (arguments : gmap string value) (name boardID : string) :
  arguments !! "name" = Some (VStr name) ->
  arguments !! "boardId" = Some (VStr boardID) ->
  arguments !! "position" = None ->
  let body : gmap string value :=
    <["position" := VNum 65535%float]> (<["name" := VStr name]> ∅) in
  let endpoint := "/api/boards/" +:+ boardID +:+ "/lists" in
  every_call (sends_object "POST" (baseURL (client s) +:+ endpoint) body)
    (callTool s "create_list" arguments)
  /\ (forall log text status reply created,
        json_Marshal (VObj body) = Ok text ->
        http_NewRequest "POST" (baseURL (client s) +:+ endpoint) = Ok tt ->
        let sent := outbound (client s) "POST" endpoint
                      (Some {| bytes := text; parsed := Ok (VObj body) |}) in
        roundTrip log sent = Response status reply ->
        (status < 400)%Z ->
        json_Unmarshal reply = Ok {| item := created |} ->
        List.Name created = name ->
        callTool s "create_list" arguments log
          = (json_MarshalIndent (to_json created), log ++ [sent])
        /\ exists fields,
             to_json created = VObj fields
             /\ fields !! "name" = Some (VStr name)).
Proof.
  intros Hname Hboard Hpos body endpoint.
  assert (forall log,
    callTool s "create_list" arguments log
    = (let* list := (let* resp := (let* resp := doRequest (client s) "POST"
                                                  endpoint (Some (VObj body)) in
                                   decode_response (T := ItemOnly List.t) resp) in
                     ret (item resp)) in
       render list) log) as Hrun.
  { intros log. unfold callTool; simpl (String.eqb _ _); cbv iota.
    unfold handleCreateList. rewrite Hname, Hboard, Hpos. simpl.
    reflexivity. }
  split.
  - eapply every_call_ext; [exact Hrun|].
    apply every_call_bind; [|intros; apply every_call_lift].
    apply every_call_bind; [|intros; apply every_call_ret].
    apply every_call_send. intros reqBody Hc.
    now apply (sends_object_outbound (client s) "POST" endpoint).
  - intros log text status reply created Htext Hnew sent Hreply Hstatus
      Hdecode Hecho.
    split.
    + rewrite Hrun. unfold bind at 1 2 3.
      rewrite (doRequest_run _ _ _ _ _ _ Htext Hnew). fold sent.
      rewrite Hreply.
      replace (400 <=? status)%Z with false by (symmetry; now apply Z.leb_gt).
      unfold decode_response. now rewrite Hdecode.
    + eexists. split; [reflexivity|]. unfold put.
      rewrite lookup_insert_ne by done. rewrite lookup_insert_eq.
      now rewrite Hecho.
Qed.

Lemma lookup_put_ptr_eq {T} (f : T -> value) k p m :
  put_ptr_omitempty f k p m !! k
  = match p with Some x => Some (f x) | None => m !! k end.
Proof. destruct p; simpl; [apply lookup_insert_eq|done]. Qed.

Lemma lookup_put_ptr_ne {T} (f : T -> value) k p m k' :
  k <> k' -> put_ptr_omitempty f k p m !! k' = m !! k'.
Proof. intros Hne. destruct p; simpl; [now apply lookup_insert_ne|done]. Qed.

(** The patch holds the caller's fields and nothing else. *)
Definition exactly_supplied (arguments patch : gmap string value) : Prop :=
  patch !! "name" = VStr <$> as_string (arguments !! "name")
  /\ patch !! "description" = VStr <$> as_string (arguments !! "description")
  /\ patch !! "listId" = VStr <$> as_string (arguments !! "listId")
  /\ patch !! "position" = VNum <$> as_float64 (arguments !! "position")
  /\ match as_string (arguments !! "dueDate") with
     | Some text =>
         exists dueDate, time_Parse_RFC3339 text = Ok dueDate
                         /\ patch !! "dueDate" = Some (time_MarshalJSON dueDate)
     | None => patch !! "dueDate" = None
     end
  /\ forall k,
       k ∉ ["name"; "description"; "listId"; "position"; "dueDate"] ->
       patch !! k = None.

Lemma UpdateCardRequest_fields (arguments : gmap string value) dueDate :
  match as_string (arguments !! "dueDate") with
  | Some text => exists d, time_Parse_RFC3339 text = Ok d /\ dueDate = Some d
  | None => dueDate = None
  end ->
  exists patch,
    to_json {| UpdateCardRequest.Name := as_string (arguments !! "name");
               UpdateCardRequest.Description :=
                 as_string (arguments !! "description");
               UpdateCardRequest.ListID := as_string (arguments !! "listId");
               UpdateCardRequest.Position :=
                 as_float64 (arguments !! "position");
               UpdateCardRequest.DueDate := dueDate |} = VObj patch
    /\ exactly_supplied arguments patch.
Proof.
  intros Hdue. eexists. split; [reflexivity|].
  cbv beta iota delta [UpdateCardRequest.Name UpdateCardRequest.Description
    UpdateCardRequest.ListID UpdateCardRequest.Position
    UpdateCardRequest.DueDate].
  unfold exactly_supplied. repeat split.
  - rewrite lookup_put_ptr_eq.
    destruct (as_string (arguments !! "name")); [done|].
    now rewrite !lookup_put_ptr_ne by done.
  - rewrite lookup_put_ptr_ne by done. rewrite lookup_put_ptr_eq.
    destruct (as_string (arguments !! "description")); [done|].
    now rewrite !lookup_put_ptr_ne by done.
  - rewrite !lookup_put_ptr_ne by done. rewrite lookup_put_ptr_eq.
    destruct (as_string (arguments !! "listId")); [done|].
    now rewrite !lookup_put_ptr_ne by done.
  - rewrite !lookup_put_ptr_ne by done. rewrite lookup_put_ptr_eq.
    destruct (as_float64 (arguments !! "position")); [done|].
    now rewrite !lookup_put_ptr_ne by done.
  - destruct (as_string (arguments !! "dueDate")) as [text|];
      [destruct Hdue as (d & Hparse & ->); exists d; split; [done|]
      |subst dueDate];
      rewrite !lookup_put_ptr_ne by done; now rewrite lookup_put_ptr_eq.
  - intros k Hk.
    rewrite !lookup_put_ptr_ne; [done|intros <-; apply Hk; set_solver..].
Qed.


Lemma every_call_bind_pure {A B} P (m : io A) (k : A -> io B) r :
  (forall log, m log = (r, log)) ->
  match r with Ok a => every_call P (k a) | Err _ => True end ->
  every_call P (bind m k).
Proof.
  intros Hm Hk log. unfold bind. rewrite Hm. destruct r as [a|e].
  - apply Hk.
  - exists []. now rewrite app_nil_r.
Qed.

(** C4, as amended.  Every patch update_card sends holds exactly the
    fields the caller supplied (with their declared types).  Every patch
    move_card sends holds the target list and a position, which is 0 when
    the caller gave none, and no other field; move_card sends that patch
    whenever its body marshals and the request can be built. *)
Theorem patch_contents (s : Server) (arguments : gmap string value) :
  every_call
    (fun x => req_method x = "PATCH"
              /\ exists data patch,
                   req_body x = Some data /\ parsed data = Ok (VObj patch)
                   /\ exactly_supplied arguments patch)
    (callTool s "update_card" arguments)
  /\ every_call
       (fun x => exists cardID listID,
          as_string (arguments !! "cardId") = Some cardID
          /\ as_string (arguments !! "listId") = Some listID
          /\ sends_object "PATCH"
               (baseURL (client s) +:+ "/api/cards/" +:+ cardID)
               (<["listId" := VStr listID]>
                  (<["position" :=
                       VNum (default 0%float
                               (as_float64 (arguments !! "position")))]> ∅))
               x)
       (callTool s "move_card" arguments)
  /\ (forall log cardID listID text,
        as_string (arguments !! "cardId") = Some cardID ->
        as_string (arguments !! "listId") = Some listID ->
        let patch : gmap string value :=
          <["listId" := VStr listID]>
            (<["position" :=
                 VNum (default 0%float
                         (as_float64 (arguments !! "position")))]> ∅) in
        json_Marshal (VObj patch) = Ok text ->
        http_NewRequest "PATCH"
          (baseURL (client s) +:+ "/api/cards/" +:+ cardID) = Ok tt ->
        snd (callTool s "move_card" arguments log)
        = log ++ [outbound (client s) "PATCH" ("/api/cards/" +:+ cardID)
                    (Some {| bytes := text; parsed := Ok (VObj patch) |})]).
Proof.
  split; [|split].
  - unfold callTool; simpl (String.eqb _ _); cbv iota.
    unfold handleUpdateCard.
    apply every_call_bind; [apply every_call_require|intros cardID].
    assert (forall dueDate,
      match as_string (arguments !! "dueDate") with
      | Some text =>
          exists d, time_Parse_RFC3339 text = Ok d /\ dueDate = Some d
      | None => dueDate = None
      end ->
      every_call
        (fun x => req_method x = "PATCH"
                  /\ exists data patch,
                       req_body x = Some data /\ parsed data = Ok (VObj patch)
                       /\ exactly_supplied arguments patch)
        (let* card := UpdateCard (client s) cardID
           {| UpdateCardRequest.Name := as_string (arguments !! "name");
              UpdateCardRequest.Description :=
                as_string (arguments !! "description");
              UpdateCardRequest.ListID := as_string (arguments !! "listId");
              UpdateCardRequest.Position :=
                as_float64 (arguments !! "position");
              UpdateCardRequest.DueDate := dueDate |} in
         render card)) as Hsend.
    { intros dueDate Hdue.
      destruct (UpdateCardRequest_fields arguments dueDate Hdue)
        as (fields & Hjson & Hsupplied).
      apply every_call_bind; [|intros; apply every_call_lift].
      unfold UpdateCard, patch.
      apply every_call_bind; [|intros; apply every_call_ret].
      apply every_call_send. intros [data|] Hc; simpl in Hc; [|done].
      split; [done|]. exists data, fields. rewrite Hjson in Hc. done. }
    destruct (as_string (arguments !! "dueDate")) as [text|] eqn:Hdue.
    + unfold parse_dueDate.
      destruct (time_Parse_RFC3339 text) as [d|e] eqn:Hparse.
      * apply (every_call_bind_pure _ _ _ (Ok (Some d))); [done|].
        apply Hsend. now exists d.
      * now apply (every_call_bind_pure _ _ _
                     (Err ("invalid dueDate format: " +:+ e))).
    + apply (every_call_bind_pure _ _ _ (Ok None)); [done|]. now apply Hsend.
  - unfold callTool; simpl (String.eqb _ _); cbv iota.
    unfold handleMoveCard.
    destruct (as_string (arguments !! "cardId")) as [cardID|];
      [|now apply (every_call_bind_pure _ _ _ (Err "missing cardId"))].
    apply (every_call_bind_pure _ _ _ (Ok cardID)); [done|].
    destruct (as_string (arguments !! "listId")) as [listID|];
      [|now apply (every_call_bind_pure _ _ _ (Err "missing listId"))].
    apply (every_call_bind_pure _ _ _ (Ok listID)); [done|].
    apply every_call_bind; [|intros; apply every_call_lift].
    unfold MoveCard, UpdateCard, patch.
    apply every_call_bind; [|intros; apply every_call_ret].
    apply every_call_send. intros reqBody Hc.
    exists cardID, listID. split; [done|]. split; [done|].
    now apply (sends_object_outbound (client s) "PATCH"
                 ("/api/cards/" +:+ cardID)).
  - intros log cardID listID text Hcard Hlist patch0 Htext Hnew.
    assert (callTool s "move_card" arguments log
      = (let* card := (let* resp :=
                         (let* resp := doRequest (client s) "PATCH"
                                         ("/api/cards/" +:+ cardID)
                                         (Some (VObj patch0)) in
                          decode_response (T := ItemOnly Card.t) resp) in
                       ret (item resp)) in
         render card) log) as ->.
    { unfold callTool; simpl (String.eqb _ _); cbv iota.
      unfold handleMoveCard. now rewrite Hcard, Hlist. }
    unfold bind at 1 2 3. rewrite (doRequest_run _ _ _ _ _ _ Htext Hnew).
    destruct (roundTrip log _) as [e|status data]; [done|].
    destruct (400 <=? status)%Z; [done|].
    unfold decode_response. destruct (json_Unmarshal data); [|done].
    unfold render, lift, ret. done.
Qed.

End tool_facts.

(** ** The dispatcher: lifecycle, envelopes and error codes *)

Section gateway_facts.
Import planka mcp.
Context {lib : GoLib} {svc : Service}.
Context {field : CreateBoardRequest.Selector}.
Context `{!Unmarshal APIResponse.t}.
Context `{!Unmarshal (slice Project.t), !Unmarshal (slice Board.t),
          !Unmarshal (slice List.t), !Unmarshal (slice Card.t),
          !Unmarshal (slice Task.t), !Unmarshal (slice Comment.t)}.
Context `{!Unmarshal (ItemIncluded Project.t), !Unmarshal (ItemIncluded Board.t),
          !Unmarshal (ItemIncluded List.t), !Unmarshal (ItemIncluded Card.t)}.
Context `{!Unmarshal (ItemOnly Project.t), !Unmarshal (ItemOnly Board.t),
          !Unmarshal (ItemOnly List.t), !Unmarshal (ItemOnly Card.t),
          !Unmarshal (ItemOnly Task.t), !Unmarshal (ItemOnly Comment.t),
          !Unmarshal (ItemOnly Stopwatch.t)}.
Context `{!Unmarshal (gmap string value)}.

(** The lifecycle state of a session key: [Ready] or [AwaitingInit]. *)
Definition is_ready (h : httpServer) (sessionID : string) : bool :=
  match sessions h !! sessionID with
  | Some session => initialized session
  | None => false
  end.

(** The identifier a response must echo: the one the request holds under
    the key id, [null] when it holds none or when no request could be
    read. *)
Definition request_id (request : result (gmap string value)) : value :=
  match request with
  | Ok request =>
      match request !! "id" with
      | Some id => id
      | None => VNil
      end
  | Err _ => VNil
  end.

#[local] Arguments request_id : simpl never.

Lemma recognised_false method :
  Spec.recognised method = false ->
  String.eqb method "initialize" = false
  /\ String.eqb method "notifications/initialized" = false
  /\ String.eqb method "tools/list" = false
  /\ String.eqb method "tools/call" = false.
Proof.
  unfold Spec.recognised, Spec.lifecycle. intros Hrec.
  repeat (apply orb_false_elim in Hrec as [Hrec ?]). done.
Qed.

Lemma handleMCPRequest_unknown s request method log :
  as_string (request !! "method") = Some method ->
  String.eqb method "tools/list" = false ->
  String.eqb method "tools/call" = false ->
  handleMCPRequest s request log = (Err ("unknown method: " +:+ method), log).
Proof.
  intros Hmethod Hlist Hcall. unfold handleMCPRequest, bind.
  rewrite Hmethod. simpl. now rewrite Hlist, Hcall.
Qed.

Lemma error_code_buildErrorResponse s id err :
  Spec.error_code (buildErrorResponse s id err) = Some (VInt (-32603)).
Proof. reflexivity. Qed.

(** C2, as amended.  A request whose method the dispatcher does not
    recognise is answered, over HTTP with status 200 and over an
    initialised stdio connection, by the error envelope for "unknown
    method", whose code is -32603: the internal-error code, which every
    error envelope of the server carries. *)
Theorem unknown_method_answer (h : httpServer) (r : http_request)
    (request : gmap string value) (method : string) (log : list call) :
  as_string (request !! "method") = Some method ->
  Spec.recognised method = false ->
  let answer := buildErrorResponse (server h) (index request "id")
                  ("unknown method: " +:+ method) in
  (Method r = "POST" -> json_Unmarshal (Body r) = Ok request ->
     (httpServer_handleMCPRequest h r log).1.2 = write_json StatusOK answer
     /\ (httpServer_handleMCPRequest h r log).2 = log)
  /\ (forall data rest out,
        json_Unmarshal data = Ok request ->
        stdio_loop (server h) (data :: rest) true out log
        = stdio_loop (server h) rest true (snd (Encode out answer)) log)
  /\ Spec.error_code answer = Some (VInt Spec.InternalError)
  /\ (forall id err,
        Spec.error_code (buildErrorResponse (server h) id err)
        = Some (VInt Spec.InternalError)).
Proof.
  intros Hmethod Hrec answer.
  destruct (recognised_false _ Hrec) as (Hinit & Hnote & Hlist & Hcall).
  split; [|split; [|split]]; [| |reflexivity|reflexivity].
  - intros Hpost Hdecode. unfold httpServer_handleMCPRequest.
    rewrite Hpost. simpl (String.eqb "POST" "POST"). cbv iota. simpl negb.
    cbv iota.
    destruct (getOrCreateSession h (getSessionID h r)) as [h1 session] eqn:Hs.
    rewrite Hdecode, Hmethod. simpl default. rewrite Hinit, Hnote.
    assert (server h1 = server h) as Hserver.
    { unfold getOrCreateSession in Hs.
      destruct (sessions h !! getSessionID h r); now inversion Hs. }
    destruct (negb (initialized session) && negb false);
      simpl server; rewrite Hserver;
      now rewrite (handleMCPRequest_unknown _ _ _ _ Hmethod Hlist Hcall).
  - intros data rest out Hdecode. simpl. rewrite Hdecode, Hmethod.
    simpl default. rewrite Hinit, Hnote. simpl negb. cbv iota.
    unfold handleRequest.
    now rewrite (handleMCPRequest_unknown _ _ _ _ Hmethod Hlist Hcall).
Qed.

(** C9, as amended.  The initialized notification is accepted in every
    state.  Over stdio it is passed over in silence: no reply, no change
    of state, no call.  Over HTTP it is answered with status 200 and the
    bare envelope with a null result and the request's id; no call is
    made and no session changes its lifecycle state. *)
Theorem initialized_notification (request : gmap string value) :
  as_string (request !! "method") = Some "notifications/initialized" ->
  (forall s data rest ready out log,
      json_Unmarshal data = Ok request ->
      stdio_loop s (data :: rest) ready out log
      = stdio_loop s rest ready out log)
  /\ (forall h r log,
        Method r = "POST" ->
        json_Unmarshal (Body r) = Ok request ->
        (httpServer_handleMCPRequest h r log).1.2
        = write_json StatusOK
            (<["jsonrpc" := VStr "2.0"]>
               (<["result" := VNil]>
                  (<["id" := index request "id"]> ∅)))
        /\ (httpServer_handleMCPRequest h r log).2 = log
        /\ forall sessionID,
             is_ready (httpServer_handleMCPRequest h r log).1.1 sessionID
             = is_ready h sessionID).
Proof.
  intros Hmethod. split.
  - intros s data rest ready out log Hdecode. simpl.
    now rewrite Hdecode, Hmethod.
  - intros h r log Hpost Hdecode. unfold httpServer_handleMCPRequest.
    rewrite Hpost. simpl (String.eqb "POST" "POST"). simpl negb. cbv iota.
    destruct (getOrCreateSession h (getSessionID h r)) as [h1 session] eqn:Hs.
    rewrite Hdecode, Hmethod. simpl.
    split; [done|]. split; [done|]. intros sessionID.
    unfold getOrCreateSession in Hs.
    destruct (sessions h !! getSessionID h r) as [known|] eqn:Hknown;
      inversion Hs; subst; [done|].
    unfold is_ready. simpl.
    destruct (decide (getSessionID h r = sessionID)) as [<-|Hne].
    + now rewrite lookup_insert_eq, Hknown.
    + now rewrite lookup_insert_ne.
Qed.


Lemma getOrCreateSession_server h sessionID :
  server (getOrCreateSession h sessionID).1 = server h.
Proof. unfold getOrCreateSession. now destruct (sessions h !! sessionID). Qed.

Lemma getOrCreateSession_initialized h sessionID :
  initialized (getOrCreateSession h sessionID).2 = is_ready h sessionID.
Proof.
  unfold getOrCreateSession, is_ready.
  now destruct (sessions h !! sessionID).
Qed.

(** The answer of the HTTP server to a request once the lifecycle has
    been dealt with. *)
Definition dispatched (h : httpServer) (request : gmap string value)
    (log : list call) : http_response * list call :=
  match handleMCPRequest (server h) request log with
  | (Err e, log') => (sendHTTPError h (Some request) e StatusOK, log')
  | (Ok response, log') => (write_json StatusOK response, log')
  end.

(** C5. A procedure other than the two lifecycle ones, received by a
    session that has not been initialised: over stdio the server stops
    with an error and reads no further input; over HTTP the session
    becomes Ready and the request is answered as a Ready session answers
    it, with the tool catalogue when it is tools/list. *)
Theorem request_before_initialize (s : Server) (h : httpServer)
    (request : gmap string value) (log : list call) :
  Spec.lifecycle (default "" (as_string (request !! "method"))) = false ->
  (forall data rest out,
      json_Unmarshal data = Ok request ->
      stdio_loop s (data :: rest) false out log
      = (Err "received request before initialization", out, log))
  /\ (forall r,
        Method r = "POST" ->
        json_Unmarshal (Body r) = Ok request ->
        is_ready h (getSessionID h r) = false ->
        let '(h', response, log') := httpServer_handleMCPRequest h r log in
        is_ready h' (getSessionID h r) = true
        /\ (response, log') = dispatched h request log
        /\ (response, log')
           = (let '(_, again, log'') := httpServer_handleMCPRequest h' r log in
              (again, log''))
        /\ (as_string (request !! "method") = Some "tools/list" ->
            response = write_json StatusOK
                         (buildToolsListResponse (server h)
                            (index request "id"))
            /\ log' = log)).
Proof.
  intros Hlife. unfold Spec.lifecycle in Hlife.
  apply orb_false_elim in Hlife as [Hinit Hnote].
  split.
  - intros data rest out Hdecode. simpl.
    now rewrite Hdecode, Hinit, Hnote.
  - intros r Hpost Hdecode Hfresh.
    assert (forall h0, server h0 = server h ->
      is_ready h0 (getSessionID h r) = true ->
      httpServer_handleMCPRequest h0 r log
      = (h0, (dispatched h request log).1, (dispatched h request log).2))
      as Hready.
    { intros h0 Hserver Hh0. unfold httpServer_handleMCPRequest.
      rewrite Hpost. simpl (String.eqb "POST" "POST"). simpl negb. cbv iota.
      replace (getSessionID h0 r) with (getSessionID h r) by reflexivity.
      pose proof (getOrCreateSession_initialized h0 (getSessionID h r)) as Hi.
      unfold getOrCreateSession in *. unfold is_ready in Hh0.
      destruct (sessions h0 !! getSessionID h r) as [session|]; [|done].
      simpl in Hi. rewrite Hdecode, Hinit, Hnote. rewrite Hh0. simpl.
      unfold dispatched, sendHTTPError. rewrite Hserver.
      now destruct (handleMCPRequest (server h) request log) as [[?|?] ?]. }
    unfold httpServer_handleMCPRequest at 1.
    rewrite Hpost. simpl (String.eqb "POST" "POST"). simpl negb. cbv iota.
    pose proof (getOrCreateSession_server h (getSessionID h r)) as Hserver.
    pose proof (getOrCreateSession_initialized h (getSessionID h r)) as Hi.
    destruct (getOrCreateSession h (getSessionID h r)) as [h1 session].
    simpl in Hserver, Hi. rewrite Hfresh in Hi.
    rewrite Hdecode, Hinit, Hnote, Hi. simpl negb. simpl andb. cbv iota.
    simpl server. rewrite Hserver.
    assert (is_ready (mark_initialized h1 (getSessionID h r))
              (getSessionID h r) = true) as Hnow.
    { unfold is_ready, mark_initialized. simpl.
      now rewrite lookup_insert_eq. }
    destruct (handleMCPRequest (server h) request log)
      as [[response|e] log'] eqn:Hhandle.
    all: cbv beta iota zeta.
    all: rewrite (Hready (mark_initialized h1 (getSessionID h r)))
      by (simpl; done).
    all: unfold dispatched; rewrite Hhandle; simpl fst; simpl snd.
    all: unfold sendHTTPError; simpl server; rewrite ?Hserver.
    all: split; [exact Hnow|]. all: split; [reflexivity|].
    all: split; [reflexivity|].
    all: intros Hlist; unfold handleMCPRequest, bind in Hhandle;
      rewrite Hlist in Hhandle; simpl in Hhandle.
    all: inversion Hhandle; subst; done.
Qed.


(** A written text is a response: it encodes an envelope with exactly
    one of result and error, whose id is the request's. *)
Definition response_to (request : result (gmap string value))
    (text : payload) : Prop :=
  exists envelope,
    parsed text = Ok (VObj envelope)
    /\ Spec.exactly_one_of_result_error envelope
    /\ envelope !! "id" = Some (request_id request).

Lemma marshal_parsed v text : marshal v = Ok text -> parsed text = Ok v.
Proof.
  unfold marshal. destruct (json_Marshal v); [|done]. now intros [= <-].
Qed.

Lemma write_json_body envelope text :
  match marshal (VObj envelope) with
  | Ok written => JSONBody (line written)
  | Err _ => NoBody
  end = JSONBody text ->
  parsed text = Ok (VObj envelope).
Proof.
  destruct (marshal (VObj envelope)) eqn:Hm; [|done].
  intros [= <-]. simpl. now apply marshal_parsed.
Qed.

Lemma index_request_id request :
  index request "id" = request_id (Ok request).
Proof. unfold index, request_id. now destruct (request !! "id"). Qed.

Lemma result_envelope result id :
  Spec.exactly_one_of_result_error
    (<["jsonrpc" := VStr "2.0"]> (<["result" := result]> (<["id" := id]> ∅)))
  /\ (<["jsonrpc" := VStr "2.0"]> (<["result" := result]> (<["id" := id]> ∅))
        : gmap string value) !! "id" = Some id.
Proof. split; [left; split; [now eexists|done]|done]. Qed.

Lemma error_envelope s id err :
  Spec.exactly_one_of_result_error (buildErrorResponse s id err)
  /\ buildErrorResponse s id err !! "id" = Some id.
Proof. split; [right; split; [done|now eexists]|done]. Qed.

Lemma handleMCPRequest_Ok s request log response log' :
  handleMCPRequest s request log = (Ok response, log') ->
  Spec.exactly_one_of_result_error response
  /\ response !! "id" = Some (index request "id").
Proof.
  unfold handleMCPRequest, bind, require.
  destruct (as_string (request !! "method")) as [method|]; simpl; [|done].
  destruct (String.eqb method "tools/list").
  { intros [= <- _]. apply result_envelope. }
  destruct (String.eqb method "tools/call"); [|done].
  unfold buildToolsCallResponse, bind, require.
  destruct (as_map (request !! "params")) as [params|]; simpl; [|done].
  destruct (as_string (params !! "name")) as [toolName|]; simpl; [|done].
  rewrite attempt_run.
  destruct (callTool s toolName _ log) as [[text|e] log1]; simpl; [|done].
  intros [= <- _]. apply result_envelope.
Qed.

(** What has been written when the input has been read up to and including
    [data] is what had been written before [data] was read, followed by at
    most one line, a response to [data]. *)
Lemma stdio_loop_last s before data ready out log :
  let written := (stdio_loop s before ready out log).1.2 in
  let written' := (stdio_loop s (before ++ [data]) ready out log).1.2 in
  written' = written
  \/ exists text,
       written' = written ++ [text]
       /\ response_to (json_Unmarshal data) text.
Proof.
  revert ready out log.
  induction before as [|d rest IH]; intros ready out log; simpl.
  - destruct (json_Unmarshal data) as [request|e] eqn:Hdecode; simpl;
      [|now left].
    assert (forall envelope text,
      marshal (VObj envelope) = Ok text ->
      Spec.exactly_one_of_result_error envelope
      /\ envelope !! "id" = Some (index request "id") ->
      out ++ [line text] = out
      \/ exists t, out ++ [line text] = out ++ [t]
                   /\ response_to (Ok request) t) as Hline.
    { intros envelope text Hm Henvelope. right. exists (line text).
      split; [done|]. exists envelope. split; [simpl; now apply marshal_parsed|].
      now rewrite <- index_request_id. }
    destruct (String.eqb _ "initialize").
    { unfold handleInitialize, Encode.
      destruct (marshal _) as [text|e] eqn:Hm; simpl; [|now left].
      eapply Hline; [exact Hm|apply result_envelope]. }
    destruct (String.eqb _ "notifications/initialized"); [now left|].
    destruct ready; simpl; [|now left].
    unfold handleRequest.
    destruct (handleMCPRequest s request log) as [[response|e] log1] eqn:Hh.
    + unfold Encode.
      destruct (marshal (VObj response)) as [text|e] eqn:Hm; simpl.
      * eapply Hline; [exact Hm|eapply handleMCPRequest_Ok, Hh].
      * unfold sendError, Encode.
        destruct (marshal (VObj (buildErrorResponse _ _ _)))
          as [text|e'] eqn:Hm'; simpl; [|now left].
        eapply Hline; [exact Hm'|apply error_envelope].
    + simpl. unfold sendError, Encode.
      destruct (marshal (VObj (buildErrorResponse _ _ _)))
        as [text|e'] eqn:Hm'; simpl; [|now left].
      eapply Hline; [exact Hm'|apply error_envelope].
  - destruct (json_Unmarshal d) as [request|e]; simpl; [|now left].
    destruct (String.eqb _ "initialize").
    { destruct (handleInitialize s request out (index request "id"))
        as [[[]|e] out']; [apply IH|now left]. }
    destruct (String.eqb _ "notifications/initialized"); [apply IH|].
    destruct ready; simpl; [|now left].
    destruct (handleRequest s request out log) as [[[[]|e] out'] log'];
      apply IH.
Qed.


End gateway_facts.
(** ** The transport: what is sent and how a reply is read *)

Lemma every_call_impl {A} (P Q : call -> Prop) (m : io A) :
  (forall x, P x -> Q x) -> every_call P m -> every_call Q m.
Proof.
  intros HPQ Hm log. destruct (Hm log) as (new & Hlog & Hnew).
  exists new. split; [done|]. eapply Forall_impl; eauto.
Qed.

(** The log of a computation only grows. *)
Lemma every_call_grows {A} P (m : io A) log :
  every_call P m -> exists new, (m log).2 = log ++ new.
Proof. intros Hm. destruct (Hm log) as (new & Hlog & _). now exists new. Qed.

Lemma length_substring n s :
  String.length (substring 0 n s) = Nat.min n (String.length s).
Proof.
  revert n. induction s as [|a s IH]; intros [|n]; simpl; try done.
  now rewrite IH.
Qed.

Lemma prefix_substring n s : String.prefix (substring 0 n s) s = true.
Proof.
  revert n. induction s as [|a s IH]; intros [|n]; simpl; try done.
  rewrite IH. now destruct (Ascii.ascii_dec a a).
Qed.

Section client_facts.
Import planka.
Context {lib : GoLib} {svc : Service}.

(** The call a GET makes, and the one a login makes. *)
Definition login_call (baseURL : string) (reqBody : option payload) : call :=
  {| req_method := "POST"; req_url := baseURL +:+ "/api/access-tokens";
     req_authorization := ""; req_body := reqBody |}.

Lemma every_call_get {T} `{!Unmarshal T} P c endpoint :
  P (outbound c "GET" endpoint None) ->
  every_call P (get (T := T) c endpoint).
Proof.
  intros HP. unfold get. apply every_call_bind.
  - apply every_call_doRequest. now intros [data|] Hc.
  - intros body. destruct (starts_with_lt _); [apply every_call_fail|].
    destruct (json_Unmarshal body); [apply every_call_ret|apply every_call_fail].
Qed.

Lemma every_call_delete P c endpoint :
  P (outbound c "DELETE" endpoint None) ->
  every_call P (delete c endpoint).
Proof.
  intros HP. unfold delete. apply every_call_bind.
  - apply every_call_doRequest. now intros [data|] Hc.
  - intros _. apply every_call_ret.
Qed.

Lemma doRequest_None c method endpoint log :
  http_NewRequest method (baseURL c +:+ endpoint) = Ok tt ->
  let sent := outbound c method endpoint None in
  doRequest c method endpoint None log
  = (match roundTrip log sent with
     | Failed e => Err ("request failed: " +:+ e)
     | Response status data =>
         if (400 <=? status)%Z
         then Err ("API error (status " +:+ pretty status +:+ "): "
                   +:+ bytes data)
         else Ok data
     end, log ++ [sent]).
Proof.
  intros Hnew sent. unfold doRequest, bind. simpl. rewrite Hnew.
  subst sent. unfold outbound.
  destruct (roundTrip log _) as [e|status data]; [done|].
  now destruct (400 <=? status)%Z.
Qed.

(** X1.  How [get] reads a reply: an error status first, then the guard
    against an HTML page, then the decoder.  The preview quoted in its
    messages is the first 200 bytes of the body, or all of it. *)
Theorem get_outcome {T} `{!Unmarshal T} (c : Client) (endpoint : string)
    (log : list call) (status : Z) (body : payload) :
  http_NewRequest "GET" (baseURL c +:+ endpoint) = Ok tt ->
  roundTrip log (outbound c "GET" endpoint None) = Response status body ->
  get (T := T) c endpoint log
  = (if (400 <=? status)%Z then
       Err ("API error (status " +:+ pretty status +:+ "): " +:+ bytes body)
     else if starts_with_lt (bytes body) then
       Err ("received HTML instead of JSON for endpoint " +:+ endpoint
            +:+ ". Response preview: " +:+ preview (bytes body))
     else
       match json_Unmarshal body with
       | Ok x => Ok x
       | Err e =>
           Err ("failed to decode JSON response for endpoint " +:+ endpoint
                +:+ ": " +:+ e +:+ ". Response preview: "
                +:+ preview (bytes body))
       end,
     log ++ [outbound c "GET" endpoint None])
  /\ String.length (preview (bytes body))
     = Nat.min 200 (String.length (bytes body))
  /\ String.prefix (preview (bytes body)) (bytes body) = true.
Proof.
  intros Hnew Hreply. split; [|split].
  - unfold get, bind. rewrite (doRequest_None _ _ _ _ Hnew). cbv zeta.
    rewrite Hreply. destruct (400 <=? status)%Z; [done|].
    destruct (starts_with_lt (bytes body)); [done|].
    now destruct (json_Unmarshal body).
  - unfold preview. rewrite length_substring. unfold min.
    destruct (Nat.ltb_spec 200 (String.length (bytes body))); lia.
  - apply prefix_substring.
Qed.


(** X2.  Logging in sends one POST to the access-token endpoint of the base
    URL, without a bearer token, whose body holds the user name and the
    password and nothing else.  The client returned keeps the base URL and
    carries the token of the reply; any failure is reported as a failed
    login and yields no client. *)
Theorem login_outcome `{!Unmarshal LoginResponse.t}
    (base username password : string) (log : list call) :
  let credentials : gmap string value :=
    <["emailOrUsername" := VStr username]>
      (<["password" := VStr password]> ∅) in
  match NewClientWithPassword base username password log with
  | (Ok client, log') =>
      baseURL client = base
      /\ exists body status reply,
           parsed body = Ok (VObj credentials)
           /\ log' = log ++ [login_call base (Some body)]
           /\ roundTrip log (login_call base (Some body))
              = Response status reply
           /\ (status < 400)%Z
           /\ json_Unmarshal reply
              = Ok {| LoginResponse.Item := token client |}
  | (Err e, log') =>
      (exists e', e = "login failed: " +:+ e')
      /\ (log' = log
          \/ exists body,
               parsed body = Ok (VObj credentials)
               /\ log' = log ++ [login_call base (Some body)])
  end.
Proof.
  intros credentials.
  unfold NewClientWithPassword, bind. rewrite attempt_run.
  fold credentials. unfold postWithoutAuth, bind. simpl planka.baseURL.
  destruct (marshal (VObj credentials)) as [body|e] eqn:Hbody; simpl.
  2: { split; [now eexists|now left]. }
  apply marshal_parsed in Hbody.
  destruct (http_NewRequest "POST" _) as [[]|e]; simpl.
  2: { split; [now eexists|now left]. }
  fold (login_call base (Some body)).
  destruct (roundTrip log _) as [e|status reply] eqn:Hreply; simpl.
  { split; [now eexists|right; now exists body]. }
  destruct (Z.leb_spec 400 status); simpl.
  { split; [now eexists|right; now exists body]. }
  unfold decode_response.
  destruct (json_Unmarshal reply) as [[item]|e] eqn:Hdecode; simpl.
  - split; [done|]. now exists body, status, reply.
  - split; [now eexists|right; now exists body].
Qed.

End client_facts.

(** ** The resource operations: which calls they make *)

Section api_facts.
Import planka.
Context {lib : GoLib} {svc : Service}.
Context `{!Unmarshal APIResponse.t}.
Context `{!Unmarshal (slice Project.t), !Unmarshal (slice Board.t),
          !Unmarshal (slice List.t), !Unmarshal (slice Card.t),
          !Unmarshal (slice Task.t), !Unmarshal (slice Comment.t)}.
Context `{!Unmarshal (ItemIncluded Project.t), !Unmarshal (ItemIncluded Board.t),
          !Unmarshal (ItemIncluded List.t), !Unmarshal (ItemIncluded Card.t)}.
Context `{!Unmarshal (ItemOnly Project.t), !Unmarshal (ItemOnly Board.t),
          !Unmarshal (ItemOnly List.t), !Unmarshal (ItemOnly Card.t),
          !Unmarshal (ItemOnly Task.t), !Unmarshal (ItemOnly Comment.t),
          !Unmarshal (ItemOnly Stopwatch.t)}.

(** [P] holds of every GET to a path of the API, and of every request
    to one. *)
Definition reads (P : call -> Prop) (c : Client) : Prop :=
  forall endpoint,
    String.prefix "/api/" endpoint = true ->
    P (outbound c "GET" endpoint None).

Definition sends (P : call -> Prop) (c : Client) (method : string) : Prop :=
  forall endpoint reqBody,
    String.prefix "/api/" endpoint = true ->
    P (outbound c method endpoint reqBody).

Lemma every_call_remarshal {T} `{!Unmarshal T} P what data :
  every_call P (remarshal (T := T) what data).
Proof.
  unfold remarshal. destruct (marshal data); [|apply every_call_fail].
  destruct (json_Unmarshal _); [apply every_call_ret|apply every_call_fail].
Qed.

Ltac calls Hget :=
  repeat lazymatch goal with
    | |- every_call _ (bind _ _) => apply every_call_bind; [|intros ?]
    | |- every_call _ (ret _) => apply every_call_ret
    | |- every_call _ (fail _) => apply every_call_fail
    | |- every_call _ (lift _) => apply every_call_lift
    | |- every_call _ (require _ _) => apply every_call_require
    | |- every_call _ (attempt _) => apply every_call_attempt
    | |- every_call _ (get _ _) => apply every_call_get, Hget; reflexivity
    | |- every_call _ (remarshal _ _) => apply every_call_remarshal
    | |- every_call _ (extractItems _) => apply every_call_remarshal
    | |- every_call _ (match ?x with _ => _ end) => destruct x
    end.

Section reading.
Context (P : call -> Prop) (c : Client) (Hget : reads P c).

Lemma every_call_GetProjects : every_call P (GetProjects c).
Proof using Hget. unfold GetProjects. calls Hget. Qed.

Lemma every_call_GetProject projectID : every_call P (GetProject c projectID).
Proof using Hget. unfold GetProject. calls Hget. Qed.

Lemma every_call_GetBoards projectID : every_call P (GetBoards c projectID).
Proof using Hget. unfold GetBoards. calls Hget. Qed.

Lemma every_call_GetBoard boardID : every_call P (GetBoard c boardID).
Proof using Hget. unfold GetBoard. calls Hget. Qed.

Lemma every_call_GetLists boardID : every_call P (GetLists c boardID).
Proof using Hget. unfold GetLists. calls Hget. Qed.

Lemma every_call_GetList listID : every_call P (GetList c listID).
Proof using Hget. unfold GetList. calls Hget. Qed.

Lemma every_call_GetCard cardID : every_call P (GetCard c cardID).
Proof using Hget. unfold GetCard. calls Hget. Qed.

Lemma every_call_GetTasks cardID : every_call P (GetTasks c cardID).
Proof using Hget. unfold GetTasks. calls Hget. Qed.

Lemma every_call_GetComments cardID : every_call P (GetComments c cardID).
Proof using Hget. unfold GetComments. calls Hget. Qed.

Lemma every_call_GetStopwatch cardID : every_call P (GetStopwatch c cardID).
Proof using Hget. unfold GetStopwatch. calls Hget. Qed.

Lemma every_call_scan_boards listID boards boardID :
  every_call P (scan_boards c listID boards boardID).
Proof using Hget.
  revert boardID. induction boards as [|board rest IH]; intros boardID; simpl.
  - apply every_call_ret.
  - apply every_call_bind.
    + apply every_call_attempt, every_call_GetLists.
    + intros [lists|e]; [|apply IH].
      destruct (negb _); [apply every_call_ret|apply IH].
Qed.

Lemma every_call_scan_projects listID projects boardID :
  every_call P (scan_projects c listID projects boardID).
Proof using Hget.
  revert boardID.
  induction projects as [|project rest IH]; intros boardID; simpl.
  - apply every_call_ret.
  - apply every_call_bind.
    + apply every_call_attempt, every_call_GetBoards.
    + intros [boards|e]; [|apply IH].
      apply every_call_bind; [apply every_call_scan_boards|].
      intros found. destruct (negb _); [apply every_call_ret|apply IH].
Qed.

Lemma every_call_cards_of_board boardID listID :
  every_call P (cards_of_board c boardID listID).
Proof using Hget.
  unfold cards_of_board. apply every_call_bind.
  - apply every_call_attempt, every_call_get, Hget. reflexivity.
  - intros [boardResp|e]; [|apply every_call_fail].
    destruct (Included boardResp !! "cards"); [|apply every_call_ret].
    apply every_call_bind; [apply every_call_remarshal|].
    intros allCards. apply every_call_ret.
Qed.

Lemma every_call_GetCards listID : every_call P (GetCards c listID).
Proof using Hget.
  unfold GetCards. apply every_call_bind.
  - apply every_call_attempt, every_call_get, Hget. reflexivity.
  - intros [listResp|e].
    + destruct (String.eqb _ ""); [apply every_call_ret|].
      apply every_call_cards_of_board.
    + apply every_call_bind.
      * apply every_call_attempt, every_call_GetProjects.
      * intros [projects|e']; [|apply every_call_fail].
        apply every_call_bind; [apply every_call_scan_projects|].
        intros boardID. destruct (String.eqb boardID "");
          [apply every_call_ret|apply every_call_cards_of_board].
Qed.

End reading.

Lemma filter_cards_Slice listID allCards l :
  filter_cards listID allCards (Slice l)
  = Slice (l ++ filter (fun card => Card.ListID card = listID) allCards).
Proof.
  revert l. induction allCards as [|card rest IH]; intros l; simpl.
  - now rewrite app_nil_r.
  - rewrite filter_cons.
    destruct (String.eqb_spec (Card.ListID card) listID) as [Heq|Hne].
    + rewrite decide_True by done. unfold slice_append. rewrite IH. simpl.
      now rewrite <- app_assoc.
    + rewrite decide_False by done. apply IH.
Qed.

Lemma filter_cards_nil_slice listID allCards :
  filter_cards listID allCards nil_slice
  = match filter (fun card => Card.ListID card = listID) allCards with
    | [] => nil_slice
    | l => Slice l
    end.
Proof.
  induction allCards as [|card rest IH]; simpl; [done|].
  rewrite filter_cons.
  destruct (String.eqb_spec (Card.ListID card) listID) as [Heq|Hne].
  - rewrite decide_True by done. unfold slice_append.
    now rewrite filter_cards_Slice.
  - now rewrite decide_False by done.
Qed.

(** X3.  The cards of a list, read from the bundle of its board: all the
    cards of the bundle that refer to the list, in the order of the
    bundle.  When none does the collection is the nil slice, whose JSON
    image is null and not the empty array. *)
Theorem cards_of_list_are_kept (c : Client) (boardID listID : string)
    (log log1 log2 : list call) (boardResp : ItemIncluded Board.t)
    (cardsData : value) (allCards : slice Card.t) :
  get (T := ItemIncluded Board.t) c ("/api/boards/" +:+ boardID) log
    = (Ok boardResp, log1) ->
  Included boardResp !! "cards" = Some cardsData ->
  remarshal (T := slice Card.t) "cards" cardsData log1 = (Ok allCards, log2) ->
  let kept :=
    filter (fun card => Card.ListID card = listID) (elems allCards) in
  exists cards,
    cards_of_board c boardID listID log = (Ok cards, log2)
    /\ elems cards = kept
    /\ to_json cards
       = match kept with
         | [] => VNil
         | _ :: _ => VArr (to_json <$> kept)
         end.
Proof.
  intros Hboard Hcards Hall kept. unfold cards_of_board.
  rewrite (bind_Ok _ _ _ _ _ (attempt_eq _ _ _ _ Hboard)). rewrite Hcards.
  rewrite (bind_Ok _ _ _ _ _ Hall). unfold ret.
  eexists. split; [reflexivity|].
  rewrite filter_cards_nil_slice. fold kept. now destruct kept.
Qed.

Lemma remarshal_log {T} `{!Unmarshal T} what data log :
  (remarshal (T := T) what data log).2 = log.
Proof.
  unfold remarshal. destruct (marshal data); [|done].
  now destruct (json_Unmarshal _).
Qed.

(** A GET whose request can be built makes exactly one call. *)
Lemma get_log {T} `{!Unmarshal T} c endpoint log :
  http_NewRequest "GET" (baseURL c +:+ endpoint) = Ok tt ->
  (get (T := T) c endpoint log).2 = log ++ [outbound c "GET" endpoint None].
Proof.
  intros Hnew. unfold get, bind. rewrite (doRequest_None _ _ _ _ Hnew).
  destruct (roundTrip log _) as [e|status data]; [done|].
  destruct (400 <=? status)%Z; [done|].
  destruct (starts_with_lt _); [done|]. now destruct (json_Unmarshal data).
Qed.

(** X4.  The comments of a card, with the calls made.  The comments
    endpoint is asked first.  When it answers, its items are the result
    and the card is not fetched.  When it fails, in whatever way, its
    error is dropped and the card is fetched next: the comments are those
    of the card's bundle (none when it has no such entry), and only a
    failure of that second fetch is reported.  No other call is made. *)
Theorem GetComments_fallback (c : Client) (cardID : string)
    (log : list call) :
  let comments := "/api/cards/" +:+ cardID +:+ "/comments" in
  let card := "/api/cards/" +:+ cardID in
  let first := outbound c "GET" comments None in
  let second := outbound c "GET" card None in
  http_NewRequest "GET" (baseURL c +:+ comments) = Ok tt ->
  http_NewRequest "GET" (baseURL c +:+ card) = Ok tt ->
  match (get (T := APIResponse.t) c comments log).1 with
  | Ok resp =>
      GetComments c cardID log = extractItems resp (log ++ [first])
      /\ (GetComments c cardID log).2 = log ++ [first]
  | Err _ =>
      (GetComments c cardID log).2 = log ++ [first; second]
      /\ (GetComments c cardID log).1
         = match (get (T := ItemIncluded Card.t) c card (log ++ [first])).1
           with
           | Err e => Err ("failed to get card: " +:+ e)
           | Ok cardResp =>
               match Included cardResp !! "comments" with
               | Some commentsData =>
                   (remarshal "comments" commentsData
                      (log ++ [first; second])).1
               | None => Ok (Slice [])
               end
           end
  end.
Proof.
  intros comments card first second Hfirst Hsecond.
  pose proof (get_log (T := APIResponse.t) c comments log Hfirst) as Hlog1.
  pose proof (get_log (T := ItemIncluded Card.t) c card (log ++ [first])
                Hsecond) as Hlog2.
  fold first in Hlog1. fold second in Hlog2. rewrite <- app_assoc in Hlog2.
  simpl in Hlog2.
  unfold GetComments, bind, attempt. fold comments card.
  destruct (get (T := APIResponse.t) c comments log) as [[resp|e] log1];
    simpl in *; subst log1.
  { split; [done|]. unfold extractItems. apply remarshal_log. }
  destruct (get (T := ItemIncluded Card.t) c card (log ++ [first]))
    as [[cardResp|e'] log2]; simpl in *; subst log2; [|done].
  destruct (Included cardResp !! "comments") as [commentsData|]; [|done].
  split; [apply remarshal_log|done].
Qed.

End api_facts.

(** ** The tools: the calls they make *)

(** The HTTP verb a tool's name announces. *)
Definition verb_of (name : string) : option string :=
  if String.prefix "get_" name then Some "GET"
  else if String.prefix "create_" name || String.prefix "start_" name
          || String.prefix "stop_" name || String.prefix "reset_" name
  then Some "POST"
  else if String.prefix "update_" name || String.prefix "move_" name
  then Some "PATCH"
  else if String.prefix "delete_" name then Some "DELETE"
  else None.

(** A call of the tool [name] of server [s]: to a path of the API under
    the client's base URL, with the client's bearer token and the verb of
    the tool; a GET or a DELETE carries no body. *)
Definition tool_call (s : mcp.Server) (name : string) (x : call) : Prop :=
  exists endpoint,
    req_url x = planka.baseURL (mcp.client s) +:+ endpoint
    /\ String.prefix "/api/" endpoint = true
    /\ req_authorization x = "Bearer " +:+ planka.token (mcp.client s)
    /\ verb_of name = Some (req_method x)
    /\ (req_method x = "GET" \/ req_method x = "DELETE" -> req_body x = None).

Section tool_call_facts.
Import planka mcp.
Context {lib : GoLib} {svc : Service}.
Context {field : CreateBoardRequest.Selector}.
Context `{!Unmarshal APIResponse.t}.
Context `{!Unmarshal (slice Project.t), !Unmarshal (slice Board.t),
          !Unmarshal (slice List.t), !Unmarshal (slice Card.t),
          !Unmarshal (slice Task.t), !Unmarshal (slice Comment.t)}.
Context `{!Unmarshal (ItemIncluded Project.t), !Unmarshal (ItemIncluded Board.t),
          !Unmarshal (ItemIncluded List.t), !Unmarshal (ItemIncluded Card.t)}.
Context `{!Unmarshal (ItemOnly Project.t), !Unmarshal (ItemOnly Board.t),
          !Unmarshal (ItemOnly List.t), !Unmarshal (ItemOnly Card.t),
          !Unmarshal (ItemOnly Task.t), !Unmarshal (ItemOnly Comment.t),
          !Unmarshal (ItemOnly Stopwatch.t)}.

Lemma tool_call_outbound s name method endpoint reqBody :
  String.prefix "/api/" endpoint = true ->
  verb_of name = Some method ->
  (method = "GET" \/ method = "DELETE" -> reqBody = None) ->
  tool_call s name (outbound (client s) method endpoint reqBody).
Proof. intros Hpre Hverb Hbody. now exists endpoint. Qed.

Lemma every_call_write {T} `{!Unmarshal T} P c method endpoint body :
  (forall reqBody, P (outbound c method endpoint reqBody)) ->
  every_call P (let* resp := doRequest c method endpoint body in
                decode_response (T := T) resp).
Proof. intros HP. apply every_call_send. intros reqBody _. apply HP. Qed.

Ltac tool_calls :=
  repeat lazymatch goal with
    | |- every_call _ (bind _ _) => apply every_call_bind; [|intros ?]
    | |- every_call _ (ret _) => apply every_call_ret
    | |- every_call _ (fail _) => apply every_call_fail
    | |- every_call _ (lift _) => apply every_call_lift
    | |- every_call _ (require _ _) => apply every_call_require
    | |- every_call _ (attempt _) => apply every_call_attempt
    | |- every_call _ (render _) => apply every_call_lift
    | |- every_call _ (parse_dueDate _) => unfold parse_dueDate
    | |- every_call _ (GetProjects _) => apply every_call_GetProjects
    | |- every_call _ (GetProject _ _) => apply every_call_GetProject
    | |- every_call _ (GetBoards _ _) => apply every_call_GetBoards
    | |- every_call _ (GetBoard _ _) => apply every_call_GetBoard
    | |- every_call _ (GetLists _ _) => apply every_call_GetLists
    | |- every_call _ (GetList _ _) => apply every_call_GetList
    | |- every_call _ (GetCards _ _) => apply every_call_GetCards
    | |- every_call _ (GetCard _ _) => apply every_call_GetCard
    | |- every_call _ (GetTasks _ _) => apply every_call_GetTasks
    | |- every_call _ (GetComments _ _) => apply every_call_GetComments
    | |- every_call _ (GetStopwatch _ _) => apply every_call_GetStopwatch
    | |- every_call _ (post _ _ _) => unfold post; apply every_call_write; intros ?
    | |- every_call _ (patch _ _ _) =>
        unfold patch; apply every_call_write; intros ?
    | |- every_call _ (planka.delete _ _) => apply every_call_delete
    | |- every_call _ (CreateProject _ _) => unfold CreateProject
    | |- every_call _ (CreateBoard _ _) => unfold CreateBoard; cbv zeta
    | |- every_call _ (CreateList _ _) => unfold CreateList; cbv zeta
    | |- every_call _ (CreateCard _ _) => unfold CreateCard; cbv zeta
    | |- every_call _ (UpdateCard _ _ _) => unfold UpdateCard
    | |- every_call _ (MoveCard _ _ _ _) => unfold MoveCard; cbv zeta
    | |- every_call _ (DeleteCard _ _) => unfold DeleteCard
    | |- every_call _ (CreateTask _ _) => unfold CreateTask; cbv zeta
    | |- every_call _ (UpdateTask _ _ _) => unfold UpdateTask
    | |- every_call _ (DeleteTask _ _) => unfold DeleteTask
    | |- every_call _ (CreateComment _ _) => unfold CreateComment
    | |- every_call _ (DeleteComment _ _) => unfold DeleteComment
    | |- every_call _ (StartStopwatch _ _) => unfold StartStopwatch
    | |- every_call _ (StopStopwatch _ _) => unfold StopStopwatch
    | |- every_call _ (ResetStopwatch _ _) => unfold ResetStopwatch
    | |- every_call _ (match ?x with _ => _ end) => destruct x
    | |- reads _ _ => intros ? ?
    | |- tool_call _ _ (outbound _ _ _ _) =>
        apply tool_call_outbound;
        [first [assumption|reflexivity] | reflexivity
        | first [done | intros [?|?]; discriminate]]
    end.

Lemma every_call_callTool s name arguments :
  every_call (tool_call s name) (callTool s name arguments).
Proof.
  unfold callTool.
  repeat match goal with
    | |- context [String.eqb name ?lit] =>
        destruct (String.eqb_spec name lit) as [->|_]
    end.
  all: try apply every_call_fail.
  all: unfold handleGetProjects, handleGetProject, handleCreateProject,
    handleGetBoards,
    handleGetBoard, handleCreateBoard, handleGetLists, handleGetList,
    handleCreateList, handleGetCards, handleGetCard, handleCreateCard,
    handleUpdateCard, handleDeleteCard, handleMoveCard, handleGetTasks,
    handleCreateTask, handleUpdateTask, handleDeleteTask, handleGetComments,
    handleCreateComment, handleDeleteComment, handleGetStopwatch,
    handleStartStopwatch, handleStopStopwatch, handleResetStopwatch.
  all: cbv zeta; tool_calls.
Qed.

(** X5.  Every call a tool makes is a call of that tool: under the base URL,
    on a path of the API, with the bearer token, with the verb its name
    announces, and without a body when it reads or deletes. *)
Theorem tool_calls_are_well_formed (s : Server) (name : string)
    (arguments : gmap string value) :
  every_call (tool_call s name) (callTool s name arguments).
Proof. apply every_call_callTool. Qed.

(** The log of a tool call extends the log it started from. *)
Lemma callTool_grows s name arguments log :
  exists new, (callTool s name arguments log).2 = log ++ new.
Proof. eapply every_call_grows, every_call_callTool. Qed.

(** Unfolding the dispatcher at a tool's name. *)
Ltac dispatch :=
  unfold callTool; simpl (String.eqb _ _); cbv iota;
  unfold handleGetProjects, handleGetProject, handleCreateProject,
    handleGetBoards,
    handleGetBoard, handleCreateBoard, handleGetLists, handleGetList,
    handleCreateList, handleGetCards, handleGetCard, handleCreateCard,
    handleUpdateCard, handleDeleteCard, handleMoveCard, handleGetTasks,
    handleCreateTask, handleUpdateTask, handleDeleteTask, handleGetComments,
    handleCreateComment, handleDeleteComment, handleGetStopwatch,
    handleStartStopwatch, handleStopStopwatch, handleResetStopwatch.

(** X6.  A call that lacks a required argument fails with the message that
    names the first required key, in the order of the tool's schema, that
    is absent or not a string. *)
Theorem missing_argument_is_named (s : Server) (t : gmap string value)
    (before after : list string) (key : string)
    (arguments : gmap string value) (log : list call) :
  t ∈ getTools s ->
  tool_required t = before ++ key :: after ->
  Forall (fun k => is_Some (as_string (arguments !! k))) before ->
  as_string (arguments !! key) = None ->
  callTool s (tool_name t) arguments log = (Err ("missing " +:+ key), log).
Proof.
  intros Ht Hreq Hbefore Hkey.
  assert ((tool_name t, tool_required t,
           map (tool_property_type t) (tool_required t))
          ∈ registry_rows s) as Hrow.
  { unfold registry_rows. apply list_elem_of_fmap. now exists t. }
  rewrite registry_table in Hrow.
  repeat (apply elem_of_cons in Hrow as [Hrow|Hrow]).
  all: try (apply elem_of_nil in Hrow; destruct Hrow).
  all: injection Hrow as Hname Hrequired _.
  all: rewrite Hrequired in Hreq; rewrite Hname; clear Hname Hrequired.
  all: destruct before as [|k1 [|k2 before]]; simpl in Hreq;
    try discriminate.
  all: try (destruct before; discriminate).
  all: injection Hreq as <-; intros; subst.
  all: repeat match goal with
         | H : Forall _ (_ :: _) |- _ =>
             apply Forall_cons in H as [[? ?] H]
         end.
  all: dispatch; unfold bind, require.
  all: repeat match goal with
         | H : as_string _ = _ |- _ => rewrite H; clear H
         end.
  all: reflexivity.
Qed.

Lemma app_singleton_neq {A} (l : list A) x : l ++ [x] <> l.
Proof.
  intros Heq. apply (f_equal length) in Heq.
  rewrite length_app in Heq. simpl in Heq. lia.
Qed.

Lemma tool_names s :
  tool_name <$> getTools s
  = [ "get_projects"; "get_project"; "create_project"; "get_boards";
      "get_board"; "create_board"; "get_lists"; "get_list"; "create_list";
      "get_cards"; "get_card"; "create_card"; "update_card"; "delete_card";
      "move_card"; "get_tasks"; "create_task"; "update_task"; "delete_task";
      "get_comments"; "create_comment"; "delete_comment"; "get_stopwatch";
      "start_stopwatch"; "stop_stopwatch"; "reset_stopwatch" ].
Proof. vm_compute. reflexivity. Qed.

(** A computation that is not refused as an unknown tool would be: when it
    fails, a call has been made or the message does not begin like that
    refusal.  With [strict], a call has been made when it succeeds. *)
Definition answers (strict : bool) {A} (m : io A) : Prop :=
  forall log, exists new,
    (m log).2 = log ++ new
    /\ match (m log).1 with
       | Err e => new <> [] \/ String.prefix "unknown tool: " e = false
       | Ok _ => strict = true -> new <> []
       end.

Lemma answers_ret {A} (x : A) : answers false (ret x).
Proof. intros log. exists []. split; [symmetry; apply app_nil_r|done]. Qed.

Lemma answers_fail {A} strict msg :
  String.prefix "unknown tool: " msg = false ->
  answers strict (fail (A := A) msg).
Proof.
  intros Hmsg log. exists []. split; [symmetry; apply app_nil_r|now right].
Qed.

Lemma answers_require {A} (o : option A) msg :
  String.prefix "unknown tool: " msg = false ->
  answers false (require o msg).
Proof.
  intros Hmsg. destruct o; [apply answers_ret|now apply answers_fail].
Qed.

Lemma answers_bind {A B} strict (m : io A) (k : A -> io B) :
  answers false m -> (forall x, answers strict (k x)) ->
  answers strict (bind m k).
Proof.
  intros Hm Hk log. unfold bind.
  destruct (Hm log) as (new1 & Hlog1 & Hout1).
  destruct (m log) as [[x|e] log1]; simpl in *; subst log1.
  - destruct (Hk x (log ++ new1)) as (new2 & Hlog2 & Hout2).
    exists (new1 ++ new2). rewrite Hlog2, app_assoc. split; [done|].
    destruct (k x (log ++ new1)).1 as [y|e].
    + intros Hstrict. specialize (Hout2 Hstrict).
      intros [_ ?]%app_eq_nil. done.
    + destruct Hout2 as [Hnew|Hmsg]; [left|now right].
      intros [_ ?]%app_eq_nil. done.
  - now exists new1.
Qed.

(** After a call has been made, anything may follow. *)
Lemma answers_then {A B} (m : io A) (k : A -> io B) :
  answers true m -> (forall x, every_call (fun _ => True) (k x)) ->
  answers true (bind m k).
Proof.
  intros Hm Hk log. unfold bind.
  destruct (Hm log) as (new1 & Hlog1 & Hout1).
  destruct (m log) as [[x|e] log1]; simpl in *; subst log1.
  - destruct (Hk x (log ++ new1)) as (new2 & Hlog2 & _).
    exists (new1 ++ new2). rewrite Hlog2, app_assoc. split; [done|].
    assert (new1 ++ new2 <> []) as Hnew
      by (intros [? _]%app_eq_nil; now apply Hout1).
    destruct (k x (log ++ new1)).1; [done|now left].
  - now exists new1.
Qed.

(** A first request whose failure is handled by the caller. *)
Lemma answers_attempt {A B} (m : io A) (k : result A -> io B) :
  answers true m ->
  (forall x, every_call (fun _ => True) (k (Ok x))) ->
  (forall e, answers true (k (Err e))) ->
  answers true (bind (attempt m) k).
Proof.
  intros Hm Hok Herr log. unfold bind. rewrite attempt_run.
  destruct (Hm log) as (new1 & Hlog1 & Hout1).
  destruct (m log) as [[x|e] log1]; simpl in *; subst log1.
  - destruct (Hok x (log ++ new1)) as (new2 & Hlog2 & _).
    exists (new1 ++ new2). rewrite Hlog2, app_assoc. split; [done|].
    assert (new1 ++ new2 <> []) as Hnew
      by (intros [? _]%app_eq_nil; now apply Hout1).
    destruct (k (Ok x) (log ++ new1)).1; [done|now left].
  - destruct (Herr e (log ++ new1)) as (new2 & Hlog2 & Hout2).
    exists (new1 ++ new2). rewrite Hlog2, app_assoc. split; [done|].
    destruct (k (Err e) (log ++ new1)).1 as [y|e'].
    + intros _ [_ ?]%app_eq_nil. now apply Hout2.
    + destruct Hout2 as [Hnew|Hmsg]; [left|now right].
      intros [_ ?]%app_eq_nil. done.
Qed.

Lemma answers_doRequest c method endpoint body :
  answers true (doRequest c method endpoint body).
Proof.
  intros log. unfold doRequest, bind.
  assert (forall reqBody,
    exists new,
      (match http_NewRequest method (baseURL c +:+ endpoint) with
       | Err e => fail ("failed to create request: " +:+ e)
       | Ok _ =>
           let req := {| req_method := method;
                         req_url := baseURL c +:+ endpoint;
                         req_authorization := "Bearer " +:+ token c;
                         req_body := reqBody |} in
           fun log =>
             match roundTrip log req with
             | Failed e => (Err ("request failed: " +:+ e), log ++ [req])
             | Response status body =>
                 if (400 <=? status)%Z
                 then (Err ("API error (status " +:+ pretty status +:+ "): "
                            +:+ bytes body), log ++ [req])
                 else (Ok body, log ++ [req])
             end
       end log).2 = log ++ new
      /\ match (match http_NewRequest method (baseURL c +:+ endpoint) with
                | Err e => fail ("failed to create request: " +:+ e)
                | Ok _ =>
                    let req := {| req_method := method;
                                  req_url := baseURL c +:+ endpoint;
                                  req_authorization := "Bearer " +:+ token c;
                                  req_body := reqBody |} in
                    fun log =>
                      match roundTrip log req with
                      | Failed e =>
                          (Err ("request failed: " +:+ e), log ++ [req])
                      | Response status body =>
                          if (400 <=? status)%Z
                          then (Err ("API error (status " +:+ pretty status
                                     +:+ "): " +:+ bytes body), log ++ [req])
                          else (Ok body, log ++ [req])
                      end
                end log).1 with
         | Err e => new <> [] \/ String.prefix "unknown tool: " e = false
         | Ok _ => true = true -> new <> []
         end) as Hsend.
  { intros reqBody.
    destruct (http_NewRequest method _) as [[]|e]; simpl.
    - eexists [_]. destruct (roundTrip log _) as [e|status data];
        [|destruct (400 <=? status)%Z]; simpl; (split; [done|]).
      all: try left; done.
    - exists []. split; [symmetry; apply app_nil_r|now right]. }
  destruct body as [v|]; simpl; [|apply Hsend].
  destruct (marshal v) as [text|e]; simpl; [apply Hsend|].
  exists []. split; [symmetry; apply app_nil_r|now right].
Qed.

Lemma reads_anything c : reads (fun _ => True) c.
Proof. now intros endpoint _. Qed.

(** What makes calls of no particular kind. *)
Ltac quiet :=
  repeat lazymatch goal with
    | |- every_call _ (bind _ _) => apply every_call_bind; [|intros ?]
    | |- every_call _ (ret _) => apply every_call_ret
    | |- every_call _ (fail _) => apply every_call_fail
    | |- every_call _ (lift _) => apply every_call_lift
    | |- every_call _ (render _) => apply every_call_lift
    | |- every_call _ (require _ _) => apply every_call_require
    | |- every_call _ (attempt _) => apply every_call_attempt
    | |- every_call _ (decode_response _) => unfold decode_response
    | |- every_call _ (remarshal _ _) => apply every_call_remarshal
    | |- every_call _ (extractItems _) => apply every_call_remarshal
    | |- every_call _ (cards_of_board _ _ _) =>
        apply every_call_cards_of_board, reads_anything
    | |- every_call _ (scan_projects _ _ _ _) =>
        apply every_call_scan_projects, reads_anything
    | |- every_call _ (get _ _) => apply every_call_get; exact I
    | |- every_call _ (if ?x then _ else _) => destruct x
    | |- every_call _ (match ?x with _ => _ end) => destruct x
    end.

Lemma answers_get {T} `{!Unmarshal T} c endpoint :
  answers true (get (T := T) c endpoint).
Proof.
  unfold get. apply answers_then; [apply answers_doRequest|]. intros; quiet.
Qed.

Lemma answers_write {T} `{!Unmarshal T} c method endpoint body :
  answers true (let* resp := doRequest c method endpoint body in
                decode_response (T := T) resp).
Proof. apply answers_then; [apply answers_doRequest|]. intros; quiet. Qed.

Lemma answers_delete c endpoint : answers true (delete c endpoint).
Proof.
  unfold delete. apply answers_then; [apply answers_doRequest|]. intros; quiet.
Qed.

Lemma answers_GetProjects c : answers true (GetProjects c).
Proof.
  unfold GetProjects. apply answers_then; [apply answers_get|]. intros; quiet.
Qed.

Lemma answers_cards_of_board c boardID listID :
  answers true (cards_of_board c boardID listID).
Proof.
  unfold cards_of_board. apply answers_attempt; [apply answers_get| |].
  - intros; quiet.
  - intros e. now apply answers_fail.
Qed.

Lemma answers_GetCards c listID : answers true (GetCards c listID).
Proof.
  unfold GetCards. apply answers_attempt; [apply answers_get| |].
  - intros; quiet.
  - intros _. apply answers_attempt; [apply answers_GetProjects| |].
    + intros; quiet.
    + intros e. now apply answers_fail.
Qed.

Lemma answers_GetComments c cardID : answers true (GetComments c cardID).
Proof.
  unfold GetComments. apply answers_attempt; [apply answers_get| |].
  - intros; quiet.
  - intros _. apply answers_attempt; [apply answers_get| |].
    + intros; quiet.
    + intros e. now apply answers_fail.
Qed.

(** Down a handler: the argument checks, then the operation. *)
Ltac answered :=
  repeat lazymatch goal with
    | |- answers _ (bind (require _ _) _) =>
        apply answers_bind; [now apply answers_require|intros ?]
    | |- answers _ (bind (match ?o with _ => _ end) _) =>
        apply answers_bind;
        [destruct o; [|apply answers_ret];
         apply answers_bind; [|intros; apply answers_ret];
         unfold parse_dueDate; destruct (time_Parse_RFC3339 _);
         [apply answers_ret|now apply answers_fail]
        |intros ?]
    | |- answers _ (bind (GetCards _ _) _) =>
        apply answers_then; [apply answers_GetCards|intros; quiet]
    | |- answers _ (bind (GetComments _ _) _) =>
        apply answers_then; [apply answers_GetComments|intros; quiet]
    | |- answers _ (bind (get _ _) _) =>
        apply answers_then; [apply answers_get|intros; quiet]
    | |- answers _ (bind (post _ _ _) _) =>
        apply answers_then; [apply answers_write|intros; quiet]
    | |- answers _ (bind (patch _ _ _) _) =>
        apply answers_then; [apply answers_write|intros; quiet]
    | |- answers _ (bind (delete _ _) _) =>
        apply answers_then; [apply answers_delete|intros; quiet]
    | |- answers _ (bind (bind _ _) _) =>
        apply answers_then; [|intros; quiet]
    end.

Lemma answers_callTool s name arguments :
  name ∈ tool_name <$> getTools s ->
  answers true (callTool s name arguments).
Proof.
  rewrite tool_names. intros Hname.
  repeat (apply elem_of_cons in Hname as [->|Hname]).
  all: try (apply elem_of_nil in Hname; destruct Hname).
  all: dispatch; cbv zeta.
  all: unfold GetProjects, GetProject, CreateProject, GetBoards, GetBoard,
    CreateBoard, GetLists, GetList, CreateList, GetCard, CreateCard,
    UpdateCard, DeleteCard, MoveCard, UpdateCard, GetTasks, CreateTask,
    UpdateTask, DeleteTask, CreateComment, DeleteComment, GetStopwatch,
    StartStopwatch, StopStopwatch, ResetStopwatch; cbv zeta.
  all: answered.
Qed.

(** X7.  The dispatcher and the registry agree on the tools there are.  A
    name the registry does not list is refused as an unknown tool before
    any call, whatever the arguments.  A name it lists is never refused
    so, whatever the arguments: its call makes a request, or fails without
    one with a message of another kind (an argument that is missing or
    invalid, a request that cannot be built); it does not succeed without
    a request. *)
Theorem dispatcher_covers_registry (s : Server) (name : string)
    (log : list call) :
  (name ∉ tool_name <$> getTools s ->
   forall arguments,
     callTool s name arguments log = (Err ("unknown tool: " +:+ name), log))
  /\ (name ∈ tool_name <$> getTools s ->
      forall arguments,
        callTool s name arguments log
        <> (Err ("unknown tool: " +:+ name), log)
        /\ exists new,
             (callTool s name arguments log).2 = log ++ new
             /\ match (callTool s name arguments log).1 with
                | Err e =>
                    new <> [] \/ String.prefix "unknown tool: " e = false
                | Ok _ => new <> []
                end).
Proof.
  split.
  - rewrite tool_names. intros Hname arguments.
    repeat (apply not_elem_of_cons in Hname as [?%String.eqb_neq Hname]).
    unfold callTool.
    repeat match goal with
      | H : String.eqb name _ = false |- _ => rewrite H; clear H
      end.
    reflexivity.
  - intros Hname arguments.
    destruct (answers_callTool s name arguments Hname log)
      as (new & Hlog & Hout).
    split.
    + intros Heq. rewrite Heq in Hlog, Hout. simpl in Hlog, Hout.
      assert (new = []) as ->.
      { apply (f_equal length) in Hlog. rewrite length_app in Hlog.
        destruct new; [done|simpl in Hlog; lia]. }
      destruct Hout as [?|Hmsg]; [done|].
      simpl in Hmsg. now destruct name.
    + exists new. split; [exact Hlog|].
      destruct (callTool s name arguments log).1; [now apply Hout|exact Hout].
Qed.

(** Down to the requests of a handler: everything around them makes no
    call. *)
Ltac to_requests :=
  repeat lazymatch goal with
    | |- every_call _ (bind _ _) => apply every_call_bind; [|intros ?]
    | |- every_call _ (ret _) => apply every_call_ret
    | |- every_call _ (fail _) => apply every_call_fail
    | |- every_call _ (lift _) => apply every_call_lift
    | |- every_call _ (require _ _) => apply every_call_require
    | |- every_call _ (render _) => apply every_call_lift
    | |- every_call _ (parse_dueDate _) => unfold parse_dueDate
    | |- every_call _ (post _ _ _) =>
        unfold post; apply every_call_send; intros [?data|] ?Hc;
        simpl in *; [|done]
    | |- every_call _ (patch _ _ _) =>
        unfold patch; apply every_call_send; intros [?data|] ?Hc;
        simpl in *; [|done]
    | |- every_call _ (CreateProject _ _) => unfold CreateProject
    | |- every_call _ (CreateBoard _ _) => unfold CreateBoard; cbv zeta
    | |- every_call _ (CreateList _ _) => unfold CreateList; cbv zeta
    | |- every_call _ (CreateCard _ _) => unfold CreateCard; cbv zeta
    | |- every_call _ (CreateTask _ _) => unfold CreateTask; cbv zeta
    | |- every_call _ (UpdateTask _ _ _) => unfold UpdateTask
    | |- every_call _ (match ?x with _ => _ end) => destruct x eqn:?
    end.

(** A call whose body is a JSON object that satisfies [Q]. *)
Definition sends_body (Q : gmap string value -> Prop) (x : call) : Prop :=
  exists data body,
    req_body x = Some data /\ parsed data = Ok (VObj body) /\ Q body.

(** X8.  The position a create tool sends.  create_list sends the caller's
    number when it is greater than zero and 65535 otherwise: for zero, for
    a negative number, for a value that is not a number.  create_card and
    create_task replace only zero (and what is not a number): a negative
    position is sent as it is. *)
Theorem position_sent (s : Server) (arguments : gmap string value) :
  every_call
    (sends_body (fun body =>
       body !! "position"
       = Some (VNum match as_float64 (arguments !! "position") with
                    | Some pos => if PrimFloat.ltb 0 pos then pos
                                  else 65535%float
                    | None => 65535%float
                    end)))
    (callTool s "create_list" arguments)
  /\ Forall
       (fun name =>
          every_call
            (sends_body (fun body =>
               body !! "position"
               = Some (VNum match as_float64 (arguments !! "position") with
                            | Some pos => if PrimFloat.eqb pos 0
                                          then 65535%float else pos
                            | None => 65535%float
                            end)))
            (callTool s name arguments))
       ["create_card"; "create_task"].
Proof.
  split; [|repeat constructor].
  all: dispatch; to_requests.
  all: eexists _, _; split; [done|]; split; [eassumption|].
  - rewrite lookup_insert_eq.
    destruct (as_float64 (arguments !! "position")) as [pos|]; [|done].
    destruct (PrimFloat.ltb 0 pos) eqn:Hpos; [|done].
    now rewrite (ltb_zero_not_eqb _ Hpos).
  - match goal with |- context [match ?d with Some _ => _ | None => _ end] =>
      destruct d end.
    all: destruct (decide _).
    all: repeat (rewrite lookup_insert_ne by done); rewrite lookup_insert_eq.
    all: now destruct (as_float64 (arguments !! "position")).
  - rewrite lookup_insert_eq.
    now destruct (as_float64 (arguments !! "position")).
Qed.

(** X9.  An empty description is not sent: create_project, create_board and
    create_card put the description in the body exactly when the caller
    gave a string that is not empty. *)
Theorem description_sent (s : Server) (arguments : gmap string value) :
  Forall
    (fun name =>
       every_call
         (sends_body (fun body =>
            body !! "description"
            = match as_string (arguments !! "description") with
              | Some description =>
                  if decide (description = "") then None
                  else Some (VStr description)
              | None => None
              end))
         (callTool s name arguments))
    ["create_project"; "create_board"; "create_card"].
Proof.
  repeat constructor.
  all: dispatch; to_requests.
  all: eexists _, _; split; [done|]; split; [eassumption|].
  all: unfold put, put_string_omitempty.
  all: repeat match goal with
         | |- context [match ?d with Some _ => _ | None => _ end !! _] =>
             destruct d
         end.
  all: destruct (as_string (arguments !! "description")) as [description|];
    simpl.
  all: repeat destruct (decide _); try done.
  all: repeat (rewrite lookup_insert_ne by done);
    try (rewrite lookup_insert_eq); done.
Qed.

(** The patch update_task sends holds the caller's fields and nothing
    else. *)
Definition exactly_supplied_task (arguments patch : gmap string value)
    : Prop :=
  patch !! "name" = VStr <$> as_string (arguments !! "name")
  /\ patch !! "isCompleted" = VBool <$> as_bool (arguments !! "isCompleted")
  /\ patch !! "position" = VNum <$> as_float64 (arguments !! "position")
  /\ forall k, k ∉ ["name"; "isCompleted"; "position"] -> patch !! k = None.

(** X10.  The tool update_task sends a PATCH to the task named by
    taskId whose body holds exactly the fields among name, isCompleted and
    position that the caller supplied with the declared type; the task id
    is not part of the body. *)
Theorem update_task_patch (s : Server) (arguments : gmap string value) :
  every_call
    (fun x =>
       req_method x = "PATCH"
       /\ (exists taskID,
             as_string (arguments !! "taskId") = Some taskID
             /\ req_url x = baseURL (client s) +:+ "/api/tasks/" +:+ taskID)
       /\ sends_body (exactly_supplied_task arguments) x)
    (callTool s "update_task" arguments).
Proof.
  dispatch.
  destruct (as_string (arguments !! "taskId")) as [taskID|];
    [|now apply (every_call_bind_pure _ _ _ (Err "missing taskId"))].
  apply (every_call_bind_pure _ _ _ (Ok taskID)); [done|].
  to_requests.
  split; [done|]. split; [now exists taskID|].
  eexists _, _. split; [done|]. split; [eassumption|].
  repeat split.
  - rewrite lookup_put_ptr_eq.
    destruct (as_string (arguments !! "name")); [done|].
    now rewrite !lookup_put_ptr_ne by done.
  - rewrite lookup_put_ptr_ne by done. rewrite lookup_put_ptr_eq.
    destruct (as_bool (arguments !! "isCompleted")); [done|].
    now rewrite !lookup_put_ptr_ne by done.
  - rewrite !lookup_put_ptr_ne by done. rewrite lookup_put_ptr_eq.
    now destruct (as_float64 (arguments !! "position")).
  - intros k Hk.
    rewrite !lookup_put_ptr_ne; [done|intros <-; apply Hk; set_solver..].
Qed.

(** X11.  The delete tools read nothing of the reply but its status: with the
    identifier supplied they make one DELETE and, when the status is below
    400, succeed with the fixed success text whatever the body holds. *)
Theorem delete_outcome (s : Server) (name key kind id : string)
    (arguments : gmap string value) (log : list call)
    (status : Z) (body : payload) :
  (name, key, kind) ∈ [ ("delete_card", "cardId", "cards");
                        ("delete_task", "taskId", "tasks");
                        ("delete_comment", "commentId", "comments") ] ->
  arguments !! key = Some (VStr id) ->
  let endpoint := "/api/" +:+ kind +:+ "/" +:+ id in
  let sent := outbound (client s) "DELETE" endpoint None in
  http_NewRequest "DELETE" (baseURL (client s) +:+ endpoint) = Ok tt ->
  roundTrip log sent = Response status body ->
  callTool s name arguments log
  = (if (400 <=? status)%Z
     then Err ("API error (status " +:+ pretty status +:+ "): " +:+ bytes body)
     else Ok success_true,
     log ++ [sent]).
Proof.
  intros Hname Hid endpoint sent Hnew Hreply.
  repeat (apply elem_of_cons in Hname as [[= -> -> ->]|Hname]).
  all: try (apply elem_of_nil in Hname; destruct Hname).
  all: dispatch; rewrite Hid; simpl.
  all: unfold DeleteCard, DeleteTask, DeleteComment, planka.delete.
  all: pose proof (doRequest_None (client s) "DELETE" endpoint log Hnew)
    as Hrun.
  all: cbv zeta in Hrun; fold sent in Hrun; rewrite Hreply in Hrun.
  all: unfold bind, ret; cbv beta iota.
  all: match goal with
       | |- context [doRequest ?c ?m ?ep None ?l] =>
           change (doRequest c m ep None l)
             with (doRequest c m endpoint None l)
       end.
  all: rewrite Hrun; now destruct (400 <=? status)%Z.
Qed.

(** X12.  A due date that does not parse as an RFC 3339 time stops create_card
    and update_card before any call; when the required arguments are
    there, the error is the one about the format of the due date. *)
Theorem invalid_dueDate_is_rejected (s : Server) (t : gmap string value)
    (arguments : gmap string value) (text : string) (e : error) :
  t ∈ getTools s ->
  tool_name t ∈ ["create_card"; "update_card"] ->
  arguments !! "dueDate" = Some (VStr text) ->
  time_Parse_RFC3339 text = Err e ->
  rejected (callTool s (tool_name t) arguments)
  /\ (Forall (fun k => is_Some (as_string (arguments !! k)))
        (tool_required t) ->
      forall log,
        callTool s (tool_name t) arguments log
        = (Err ("invalid dueDate format: " +:+ e), log)).
Proof.
  intros Ht Hname Hdue Hparse.
  assert ((tool_name t, tool_required t,
           map (tool_property_type t) (tool_required t))
          ∈ registry_rows s) as Hrow.
  { unfold registry_rows. apply list_elem_of_fmap. now exists t. }
  rewrite registry_table in Hrow.
  repeat (apply elem_of_cons in Hrow as [Hrow|Hrow]).
  all: try (apply elem_of_nil in Hrow; destruct Hrow).
  all: injection Hrow as Hn Hrequired _.
  all: rewrite Hn in Hname |- *; rewrite Hrequired; clear Hn Hrequired.
  all: repeat (apply elem_of_cons in Hname as [Hname|Hname];
               [try discriminate|]).
  all: try (apply elem_of_nil in Hname; destruct Hname).
  all: split; [intros log|intros Hall log].
  all: repeat match goal with
         | H : Forall _ (_ :: _) |- _ => apply Forall_cons in H as [[? ?] H]
         end.
  all: dispatch; unfold bind, require, parse_dueDate.
  all: rewrite Hdue; simpl; rewrite Hparse.
  all: repeat match goal with
         | H : as_string _ = _ |- _ => rewrite H; clear H
         | |- context [as_string (?a !! ?k)] =>
             destruct (as_string (a !! k))
         end.
  all: simpl; eauto.
Qed.

End tool_call_facts.

(** ** The servers: status codes, sessions and the two transports *)

Section server_facts.
Import planka mcp.
Context {lib : GoLib} {svc : Service}.
Context {field : CreateBoardRequest.Selector}.
Context `{!Unmarshal APIResponse.t}.
Context `{!Unmarshal (slice Project.t), !Unmarshal (slice Board.t),
          !Unmarshal (slice List.t), !Unmarshal (slice Card.t),
          !Unmarshal (slice Task.t), !Unmarshal (slice Comment.t)}.
Context `{!Unmarshal (ItemIncluded Project.t), !Unmarshal (ItemIncluded Board.t),
          !Unmarshal (ItemIncluded List.t), !Unmarshal (ItemIncluded Card.t)}.
Context `{!Unmarshal (ItemOnly Project.t), !Unmarshal (ItemOnly Board.t),
          !Unmarshal (ItemOnly List.t), !Unmarshal (ItemOnly Card.t),
          !Unmarshal (ItemOnly Task.t), !Unmarshal (ItemOnly Comment.t),
          !Unmarshal (ItemOnly Stopwatch.t)}.
Context `{!Unmarshal (gmap string value)}.

(** X13.  The status of an HTTP answer tells how far the request got: 405 for
    a method other than POST, with nothing changed; 400 with an error
    envelope whose id is null for a body that cannot be decoded, after the
    session has been registered; 200 for every request that was decoded,
    failed or not.  The first two make no call. *)
Theorem http_status_codes (h : httpServer) (r : http_request)
    (log : list call) :
  let '(h', response, log') := httpServer_handleMCPRequest h r log in
  if negb (String.eqb (Method r) "POST") then
    h' = h /\ log' = log /\ StatusCode response = 405%Z
    /\ ResponseBody response
       = PlainText ("Method not allowed. Use POST for JSON-RPC requests."
                    +:+ newline)
  else
    match json_Unmarshal (T := gmap string value) (Body r) with
    | Err e =>
        h' = (getOrCreateSession h (getSessionID h r)).1 /\ log' = log
        /\ response
           = write_json 400
               (buildErrorResponse (server h) VNil
                  ("failed to decode request: " +:+ e))
    | Ok request => StatusCode response = 200%Z
    end.
Proof.
  unfold httpServer_handleMCPRequest.
  destruct (negb (String.eqb (Method r) "POST")); [done|].
  pose proof (getOrCreateSession_server h (getSessionID h r)) as Hserver.
  destruct (getOrCreateSession h (getSessionID h r)) as [h1 session].
  simpl in Hserver.
  destruct (json_Unmarshal (Body r)) as [request|e].
  - destruct (String.eqb _ "initialize"); [done|].
    destruct (String.eqb _ "notifications/initialized"); [done|].
    match goal with
    | |- context [handleMCPRequest ?srv request log] =>
        now destruct (handleMCPRequest srv request log) as [[?|?] ?]
    end.
  - unfold sendHTTPError. now rewrite Hserver.
Qed.

(** X14.  The session table over a request.  The server is the same; no
    session is removed and none goes back to awaiting initialization; the
    sessions of other keys are untouched; the key of a POST is registered;
    and a decoded request other than the initialized notification leaves
    its session Ready. *)
Theorem sessions_are_kept (h : httpServer) (r : http_request)
    (log : list call) :
  let h' := (httpServer_handleMCPRequest h r log).1.1 in
  server h' = server h
  /\ (forall k, is_Some (sessions h !! k) -> is_Some (sessions h' !! k))
  /\ (forall k, is_ready h k = true -> is_ready h' k = true)
  /\ (forall k, k <> getSessionID h r -> sessions h' !! k = sessions h !! k)
  /\ (Method r = "POST" -> is_Some (sessions h' !! getSessionID h r))
  /\ (forall request : gmap string value,
        Method r = "POST" ->
        json_Unmarshal (Body r) = Ok request ->
        as_string (request !! "method") <> Some "notifications/initialized" ->
        is_ready h' (getSessionID h r) = true).
Proof.
  set (key := getSessionID h r).
  assert (forall h0 : httpServer,
    server h0 = server h ->
    (forall k, is_Some (sessions h !! k) -> is_Some (sessions h0 !! k)) ->
    (forall k, is_ready h k = true -> is_ready h0 k = true) ->
    (forall k, k <> key -> sessions h0 !! k = sessions h !! k) ->
    server (mark_initialized h0 key) = server h
    /\ (forall k, is_Some (sessions h !! k) ->
                  is_Some (sessions (mark_initialized h0 key) !! k))
    /\ (forall k, is_ready h k = true ->
                  is_ready (mark_initialized h0 key) k = true)
    /\ (forall k, k <> key ->
                  sessions (mark_initialized h0 key) !! k = sessions h !! k)
    /\ is_ready (mark_initialized h0 key) key = true
    /\ is_Some (sessions (mark_initialized h0 key) !! key)) as Hmark.
  { intros h0 Hs Hkeep Hready Hother. unfold mark_initialized, is_ready.
    simpl. repeat split; [done| | | | |now rewrite lookup_insert_eq].
    - intros k Hk. destruct (decide (key = k)) as [<-|Hne];
        [now rewrite lookup_insert_eq|rewrite lookup_insert_ne by done; auto].
    - intros k Hk. destruct (decide (key = k)) as [<-|Hne];
        [now rewrite lookup_insert_eq|].
      rewrite lookup_insert_ne by done. now apply Hready.
    - intros k Hk. rewrite lookup_insert_ne by done. now apply Hother.
    - now rewrite lookup_insert_eq. }
  assert (let h1 := (getOrCreateSession h key).1 in
    server h1 = server h
    /\ (forall k, is_Some (sessions h !! k) -> is_Some (sessions h1 !! k))
    /\ (forall k, is_ready h k = true -> is_ready h1 k = true)
    /\ (forall k, k <> key -> sessions h1 !! k = sessions h !! k)
    /\ is_Some (sessions h1 !! key)
    /\ initialized (getOrCreateSession h key).2 = is_ready h1 key) as Hget.
  { unfold getOrCreateSession, is_ready.
    destruct (sessions h !! key) as [session|] eqn:Hkey; simpl.
    - rewrite Hkey. repeat split; auto.
    - repeat split; [| | |now rewrite lookup_insert_eq
                    |now rewrite lookup_insert_eq].
      + intros k Hk. destruct (decide (key = k)) as [<-|Hne];
          [now rewrite lookup_insert_eq|now rewrite lookup_insert_ne].
      + intros k. destruct (decide (key = k)) as [<-|Hne];
          [now rewrite Hkey|now rewrite lookup_insert_ne].
      + intros k Hk. now rewrite lookup_insert_ne. }
  cbv zeta in Hget. cbv zeta. unfold httpServer_handleMCPRequest. fold key.
  destruct (String.eqb_spec (Method r) "POST") as [Hpost|Hpost]; simpl.
  2: { repeat split; auto; done. }
  destruct (getOrCreateSession h key) as [h1 session]. simpl in Hget.
  destruct Hget as (Hs & Hkeep & Hready & Hother & Hkey & Hinit).
  destruct (Hmark h1 Hs Hkeep Hready Hother)
    as (Hs' & Hkeep' & Hready' & Hother' & Hnow & Hkey').
  destruct (json_Unmarshal (Body r)) as [request|e]; simpl.
  2: { repeat split; auto. now intros ? ? [=]. }
  destruct (String.eqb (default "" (as_string (request !! "method")))
              "initialize") eqn:Hini; simpl.
  { repeat split; auto. }
  destruct (String.eqb_spec (default "" (as_string (request !! "method")))
              "notifications/initialized") as [Hnote|Hnote]; simpl.
  { repeat split; auto. intros request' _ [= <-] Hmethod. exfalso.
    destruct (as_string (request !! "method")) as [method|]; [|done].
    simpl in Hnote. now subst. }
  assert (forall P : httpServer -> Prop,
    P (mark_initialized h1 key) -> (initialized session = true -> P h1) ->
    P (if negb (initialized session) && true
       then mark_initialized h1 key else h1)) as Hif.
  { intros P Hm Hh. destruct (initialized session); simpl; auto. }
  match goal with
  | |- context [handleMCPRequest ?srv request log] =>
      destruct (handleMCPRequest srv request log) as [[?|?] ?]
  end; simpl.
  all: apply (Hif (fun h' =>
    server h' = server h
    /\ (forall k, is_Some (sessions h !! k) -> is_Some (sessions h' !! k))
    /\ (forall k, is_ready h k = true -> is_ready h' k = true)
    /\ (forall k, k <> key -> sessions h' !! k = sessions h !! k)
    /\ (Method r = "POST" -> is_Some (sessions h' !! key))
    /\ (forall request0, Method r = "POST" -> Ok request = Ok request0 ->
          as_string (request0 !! "method")
          <> Some "notifications/initialized" ->
          is_ready h' key = true))).
  all: try (repeat split; auto; fail).
  all: intros Hset; repeat split; auto; intros; now rewrite <- Hinit.
Qed.

(** X15.  What a tools/call request is answered over HTTP: status 200 in both
    cases; the text of the tool as the one content item of the result when
    the tool succeeds, and when it fails the error envelope whose message
    is the tool's error after "tool call failed: ".  Arguments that are
    absent or not an object are read as no arguments. *)
Theorem tools_call_answer (h : httpServer) (r : http_request)
    (request params : gmap string value) (name : string)
    (log : list call) :
  Method r = "POST" ->
  json_Unmarshal (Body r) = Ok request ->
  as_string (request !! "method") = Some "tools/call" ->
  as_map (request !! "params") = Some params ->
  as_string (params !! "name") = Some name ->
  let arguments := default ∅ (as_map (params !! "arguments")) in
  let id := index request "id" in
  let answer := httpServer_handleMCPRequest h r log in
  match callTool (server h) name arguments log with
  | (Ok text, log') =>
      answer.1.2
      = write_json 200
          (<["jsonrpc" := VStr "2.0"]>
             (<["result" :=
                  VObj (<["content" :=
                            VArr [VObj (<["type" := VStr "text"]>
                                       (<["text" := VStr text]> ∅))]]> ∅)]>
                (<["id" := id]> ∅)))
      /\ answer.2 = log'
  | (Err e, log') =>
      answer.1.2
      = write_json 200
          (buildErrorResponse (server h) id ("tool call failed: " +:+ e))
      /\ answer.2 = log'
  end.
Proof.
  intros Hpost Hdecode Hmethod Hparams Hname arguments id answer.
  subst answer. unfold httpServer_handleMCPRequest.
  rewrite Hpost. simpl (String.eqb "POST" "POST"). simpl negb. cbv iota.
  pose proof (getOrCreateSession_server h (getSessionID h r)) as Hserver.
  destruct (getOrCreateSession h (getSessionID h r)) as [h1 session].
  simpl in Hserver. rewrite Hdecode, Hmethod. simpl.
  assert (forall h2, server h2 = server h ->
    handleMCPRequest (server h2) request log
    = match callTool (server h) name arguments log with
      | (Ok text, log') =>
          (Ok (<["jsonrpc" := VStr "2.0"]>
                 (<["result" :=
                      VObj (<["content" :=
                                VArr [VObj (<["type" := VStr "text"]>
                                           (<["text" := VStr text]> ∅))]]>
                              ∅)]>
                    (<["id" := id]> ∅))), log')
      | (Err e, log') => (Err ("tool call failed: " +:+ e), log')
      end) as Hrun.
  { intros h2 ->. unfold handleMCPRequest, buildToolsCallResponse, bind.
    rewrite Hmethod. simpl. rewrite Hparams. simpl. rewrite Hname. simpl.
    rewrite attempt_run. fold arguments.
    now destruct (callTool (server h) name arguments log) as [[?|?] ?]. }
  destruct (initialized session); simpl; rewrite Hrun by done.
  all: destruct (callTool (server h) name arguments log) as [[text|e] log'].
  all: unfold sendHTTPError; simpl; now rewrite ?Hserver.
Qed.

(** X16.  The two transports give the same answer.  Whatever the HTTP server
    writes as the JSON body of its answer to a request other than the
    initialized notification, the stdio server, once initialized, writes
    as its one line for the same request, and they make the same calls. *)
Theorem transports_agree (h : httpServer) (r : http_request)
    (request : gmap string value) (text : payload)
    (out : list payload) (log : list call) :
  Method r = "POST" ->
  json_Unmarshal (Body r) = Ok request ->
  as_string (request !! "method") <> Some "notifications/initialized" ->
  ResponseBody (httpServer_handleMCPRequest h r log).1.2 = JSONBody text ->
  stdio_loop (server h) [Body r] true out log
  = (Ok tt, out ++ [text], (httpServer_handleMCPRequest h r log).2).
Proof.
  intros Hpost Hdecode Hmethod. unfold httpServer_handleMCPRequest.
  rewrite Hpost. simpl (String.eqb "POST" "POST"). simpl negb. cbv iota.
  pose proof (getOrCreateSession_server h (getSessionID h r)) as Hserver.
  destruct (getOrCreateSession h (getSessionID h r)) as [h1 session].
  simpl in Hserver. rewrite Hdecode. simpl. rewrite Hdecode.
  assert (forall envelope,
    ResponseBody (write_json StatusOK envelope) = JSONBody text ->
    Encode out envelope = (Ok tt, out ++ [text])) as Hwrite.
  { intros envelope. unfold write_json, Encode. simpl.
    destruct (marshal (VObj envelope)); [|done]. now intros [= <-]. }
  destruct (String.eqb (default "" (as_string (request !! "method")))
              "initialize"); simpl.
  { unfold handleInitialize. rewrite Hserver.
    intros Hbody. now rewrite (Hwrite _ Hbody). }
  destruct (String.eqb_spec (default "" (as_string (request !! "method")))
              "notifications/initialized") as [Hnote|_]; simpl.
  { exfalso. destruct (as_string (request !! "method")); [|done].
    simpl in Hnote. now subst. }
  assert (forall h2, server h2 = server h ->
    ResponseBody
      (let '(response, log') :=
         match handleMCPRequest (server h2) request log with
         | (Err e, log') => (sendHTTPError h2 (Some request) e StatusOK, log')
         | (Ok response, log') => (write_json StatusOK response, log')
         end in response) = JSONBody text ->
    (let '(r0, out', log') := handleRequest (server h) request out log in
     match r0 with
     | Ok _ => (Ok tt, out', log')
     | Err e => (Ok tt, sendError (server h) out' request e, log')
     end)
    = (Ok tt, out ++ [text],
       (match handleMCPRequest (server h2) request log with
        | (Err e, log') => (sendHTTPError h2 (Some request) e StatusOK, log')
        | (Ok response, log') => (write_json StatusOK response, log')
        end).2)) as Hrun.
  { intros h2 Hs. unfold handleRequest, sendHTTPError, sendError.
    rewrite Hs.
    destruct (handleMCPRequest (server h) request log)
      as [[response|e] log']; intros Hbody; now rewrite (Hwrite _ Hbody). }
  destruct (initialized session); simpl.
  all: match goal with
       | |- context [handleMCPRequest (server ?h2) _ _] =>
           specialize (Hrun h2)
       end.
  all: simpl in Hrun; specialize (Hrun Hserver).
  all: destruct (handleRequest (server h) request out log)
         as [[[[]|e0] out'] log0].
  all: match goal with
       | |- context [handleMCPRequest ?srv ?req ?l] =>
           destruct (handleMCPRequest srv req l) as [[?|?] ?]
       end; simpl in *; exact Hrun.
Qed.

Lemma handleMCPRequest_grows s request log :
  exists new, (handleMCPRequest s request log).2 = log ++ new.
Proof.
  unfold handleMCPRequest, buildToolsCallResponse, bind, require.
  destruct (as_string (request !! "method")) as [method|]; simpl;
    [|exists []; now rewrite app_nil_r].
  destruct (String.eqb method "tools/list"); simpl;
    [exists []; now rewrite app_nil_r|].
  destruct (String.eqb method "tools/call"); simpl;
    [|exists []; now rewrite app_nil_r].
  destruct (as_map (request !! "params")) as [params|]; simpl;
    [|exists []; now rewrite app_nil_r].
  destruct (as_string (params !! "name")) as [name|]; simpl;
    [|exists []; now rewrite app_nil_r].
  rewrite attempt_run. simpl.
  destruct (callTool_grows s name (default ∅ (as_map (params !! "arguments")))
              log) as (new & Hnew).
  exists new.
  now destruct (callTool s name _ log) as [[?|?] ?].
Qed.

Lemma Encode_cases out envelope :
  (exists text, marshal (VObj envelope) = Ok text
                /\ Encode out envelope = (Ok tt, out ++ [line text]))
  \/ exists e, marshal (VObj envelope) = Err e
                /\ Encode out envelope = (Err e, out).
Proof.
  unfold Encode.
  destruct (marshal (VObj envelope)); [left|right]; now eexists.
Qed.

(** X17.  The stdio server writes at most one line for each request it reads,
    after what was written before, and the log of calls only grows. *)
Theorem stdio_output_bound (s : Server) (stdin : list payload)
    (ready : bool) (out : list payload) (log : list call) :
  exists written calls,
    (stdio_loop s stdin ready out log).1.2 = out ++ written
    /\ length written <= length stdin
    /\ (stdio_loop s stdin ready out log).2 = log ++ calls.
Proof.
  revert ready out log.
  induction stdin as [|data rest IH]; intros ready out log; simpl.
  { exists [], []. now rewrite !app_nil_r. }
  assert (forall ready' out' log',
    (exists new, out' = out ++ new /\ length new <= 1) ->
    (exists calls, log' = log ++ calls) ->
    exists written calls',
      (stdio_loop s rest ready' out' log').1.2 = out ++ written
      /\ length written <= S (length rest)
      /\ (stdio_loop s rest ready' out' log').2 = log ++ calls') as Hstep.
  { intros ready' out' log' (new & -> & Hnew) (calls & ->).
    destruct (IH ready' (out ++ new) (log ++ calls))
      as (written & calls' & Hout & Hlen & Hlog).
    exists (new ++ written), (calls ++ calls').
    rewrite Hout, Hlog, !app_assoc, length_app. repeat split. lia. }
  assert (exists new : list payload, out = out ++ new /\ length new <= 1)
    as Hsame by (exists []; rewrite app_nil_r; simpl; split; [done|lia]).
  assert (forall text : payload,
            exists new, out ++ [text] = out ++ new /\ length new <= 1)
    as Hline by (intros text; now exists [text]).
  assert (exists calls : list call, log = log ++ calls) as Hlog
    by (exists []; now rewrite app_nil_r).
  assert (exists (written : list payload) (calls' : list call),
            out = out ++ written /\ length written <= S (length rest)
            /\ log = log ++ calls') as Hstop.
  { exists [], []. rewrite !app_nil_r. repeat split. simpl. lia. }
  destruct (json_Unmarshal data) as [request|e]; simpl; [|exact Hstop].
  destruct (String.eqb _ "initialize").
  { unfold handleInitialize.
    destruct (Encode_cases out (buildInitializeResponse s (index request "id")))
      as [(? & _ & ->)|(e & _ & ->)]; [now apply Hstep|exact Hstop]. }
  destruct (String.eqb _ "notifications/initialized"); [now apply Hstep|].
  destruct ready; simpl; [|exact Hstop].
  unfold handleRequest.
  pose proof (handleMCPRequest_grows s request log) as Hcalls.
  destruct (handleMCPRequest s request log) as [[response|e] log'];
    simpl in Hcalls.
  - destruct (Encode_cases out response) as [(? & _ & ->)|(e & _ & ->)];
      [now apply Hstep|].
    unfold sendError.
    destruct (Encode_cases out (buildErrorResponse s (index request "id") e))
      as [(? & _ & ->)|(e' & _ & ->)]; simpl; now apply Hstep.
  - unfold sendError.
    destruct (Encode_cases out (buildErrorResponse s (index request "id") e))
      as [(? & _ & ->)|(e' & _ & ->)]; simpl; now apply Hstep.
Qed.

(** X18.  The stdio server ends with an error in three cases only: input that
    cannot be decoded, a request before the handshake, a handshake whose
    answer cannot be encoded.  No failure of a request, unknown method or
    failing tool, ends it. *)
Theorem stdio_fatal_errors (s : Server) (stdin : list payload)
    (ready : bool) (out : list payload) (log : list call) :
  match (stdio_loop s stdin ready out log).1.1 with
  | Ok _ => True
  | Err msg =>
      msg = "received request before initialization"
      \/ (exists e, msg = "failed to decode request: " +:+ e)
      \/ (exists e, msg = "failed to handle initialize: " +:+ e)
  end.
Proof.
  revert ready out log.
  induction stdin as [|data rest IH]; intros ready out log; simpl; [done|].
  destruct (json_Unmarshal data) as [request|e]; simpl;
    [|right; left; now exists e].
  destruct (String.eqb _ "initialize").
  { destruct (handleInitialize s request out (index request "id"))
      as [[[]|e] out']; simpl; [apply IH|right; right; now exists e]. }
  destruct (String.eqb _ "notifications/initialized"); [apply IH|].
  destruct ready; simpl; [|now left].
  destruct (handleRequest s request out log) as [[[[]|e] out'] log'];
    apply IH.
Qed.

(** Whether a request read by the stdio server is one it answers: every
    request but the initialized notification. *)
Definition expects_reply (data : payload) : bool :=
  match json_Unmarshal (T := gmap string value) data with
  | Ok request =>
      negb (String.eqb (default "" (as_string (request !! "method")))
              "notifications/initialized")
  | Err _ => false
  end.

(** The envelopes the server builds in answer to a request whose id is
    [id]: the three results and the error. *)
Inductive built (s : Server) (id : value) : gmap string value -> Prop :=
  | built_initialize : built s id (buildInitializeResponse s id)
  | built_tools_list : built s id (buildToolsListResponse s id)
  | built_tools_call (result : string) :
      built s id
        (<["jsonrpc" := VStr "2.0"]>
           (<["result" :=
                VObj (<["content" :=
                          VArr [VObj (<["type" := VStr "text"]>
                                     (<["text" := VStr result]> ∅))]]> ∅)]>
              (<["id" := id]> ∅)))
  | built_error (err : error) : built s id (buildErrorResponse s id err).

Lemma handleMCPRequest_built s request log response log' :
  handleMCPRequest s request log = (Ok response, log') ->
  built s (index request "id") response.
Proof.
  unfold handleMCPRequest, bind, require.
  destruct (as_string (request !! "method")) as [method|]; simpl; [|done].
  destruct (String.eqb method "tools/list").
  { intros [= <- _]. constructor. }
  destruct (String.eqb method "tools/call"); [|done].
  unfold buildToolsCallResponse, bind, require.
  destruct (as_map (request !! "params")) as [params|]; simpl; [|done].
  destruct (as_string (params !! "name")) as [toolName|]; simpl; [|done].
  rewrite attempt_run.
  destruct (callTool s toolName _ log) as [[text|e] log1]; simpl; [|done].
  intros [= <- _]. constructor.
Qed.

(** X19.  Once initialized, and as long as its input decodes and the
    envelopes it builds for the requests of that input encode, the stdio
    server runs to the end of its input and writes exactly one line for
    each request other than the initialized notification, whatever the
    backing service answers. *)
Theorem stdio_answers_every_request (s : Server) (stdin : list payload)
    (out : list payload) (log : list call) :
  Forall (fun data =>
            exists request,
              json_Unmarshal (T := gmap string value) data = Ok request
              /\ forall envelope,
                   built s (index request "id") envelope ->
                   exists text, json_Marshal (VObj envelope) = Ok text)
    stdin ->
  exists written,
    (stdio_loop s stdin true out log).1 = (Ok tt, out ++ written)
    /\ length written = length (List.filter expects_reply stdin).
Proof.
  intros Hdecode. revert out log.
  induction Hdecode as [|data rest (request & Hdata & Hmarshal) _ IH];
    intros out log.
  { exists []. now rewrite app_nil_r. }
  assert (forall out envelope,
    built s (index request "id") envelope ->
    exists text, Encode out envelope = (Ok tt, out ++ [text])) as Hencode.
  { intros out' envelope Hbuilt. unfold Encode, marshal.
    destruct (Hmarshal envelope Hbuilt) as (text & ->). now eexists. }
  assert (forall text log',
    exists written,
      (stdio_loop s rest true (out ++ [text]) log').1
      = (Ok tt, out ++ written)
      /\ length written = S (length (List.filter expects_reply rest)))
    as Hstep.
  { intros text log'.
    destruct (IH (out ++ [text]) log') as (written & Hrun & Hlen).
    exists (text :: written). rewrite Hrun, <- app_assoc. simpl.
    now rewrite Hlen. }
  simpl. unfold expects_reply at 1. rewrite Hdata. simpl.
  destruct (String.eqb _ "initialize") eqn:Hinit.
  { destruct (String.eqb_spec (default "" (as_string (request !! "method")))
                "notifications/initialized") as [Hnote|_].
    { rewrite Hnote in Hinit. discriminate. }
    unfold handleInitialize.
    destruct (Hencode out (buildInitializeResponse s (index request "id")))
      as (text & ->); [constructor|].
    apply Hstep. }
  destruct (String.eqb _ "notifications/initialized"); simpl; [apply IH|].
  unfold handleRequest.
  destruct (handleMCPRequest s request log) as [[response|e] log'] eqn:Hh.
  - destruct (Hencode out response) as (text & ->);
      [eapply handleMCPRequest_built, Hh|].
    apply Hstep.
  - unfold sendError.
    destruct (Hencode out (buildErrorResponse s (index request "id") e))
      as (text & ->); [constructor|].
    apply Hstep.
Qed.

(** X20.  The stdio server of the earlier [server.go] and [StartStdio] are the
    same function of the input: the same outcome, the same lines written
    and the same calls.  The per-method helpers that [server.go] keeps
    answer a tools/list and a tools/call request as [handleRequest]
    does. *)
Theorem Start_is_StartStdio (s : Server) (stdin : list payload)
    (log : list call) :
  legacy.Start s stdin log = StartStdio s stdin log
  /\ (forall request out,
        as_string (request !! "method") = Some "tools/list" ->
        handleRequest s request out log
        = (let '(r, out') := handleToolsList s out (index request "id") in
           (r, out', log)))
  /\ (forall request out,
        as_string (request !! "method") = Some "tools/call" ->
        handleRequest s request out log
        = handleToolsCall s request out (index request "id") log).
Proof.
  split; [|split].
  2: { intros request out Hmethod.
       unfold handleRequest, handleMCPRequest, handleToolsList, bind.
       rewrite Hmethod. simpl.
       now destruct (Encode out _) as [? ?]. }
  2: { intros request out Hmethod.
       unfold handleRequest, handleMCPRequest, handleToolsCall, bind.
       now rewrite Hmethod. }
  unfold legacy.Start, StartStdio. generalize false, (@nil payload).
  revert log.
  induction stdin as [|data rest IH]; intros log ready out; simpl; [done|].
  destruct (json_Unmarshal data) as [request|e]; [|done].
  assert (legacy.handleRequest s request out log
          = handleRequest s request out log) as ->.
  { unfold legacy.handleRequest, handleRequest, handleMCPRequest,
      legacy.handleToolsList, legacy.handleToolsCall,
      buildToolsListResponse, buildToolsCallResponse, bind, require.
    destruct (as_string (request !! "method")) as [method|]; simpl; [|done].
    destruct (String.eqb method "tools/list"); simpl.
    { now destruct (Encode out _) as [? ?]. }
    destruct (String.eqb method "tools/call"); simpl; [|done].
    destruct (as_map (request !! "params")) as [params|]; simpl; [|done].
    destruct (as_string (params !! "name")) as [name|]; simpl; [|done].
    rewrite attempt_run.
    now destruct (callTool s name _ log) as [[text|e] log']. }
  destruct (String.eqb _ "initialize").
  { unfold legacy.handleInitialize, handleInitialize,
      buildInitializeResponse.
    destruct (Encode out _) as [[[]|e] out']; [apply IH|done]. }
  destruct (String.eqb _ "notifications/initialized"); [apply IH|].
  destruct ready; simpl; [|done].
  destruct (handleRequest s request out log) as [[[[]|e] out'] log'];
    apply IH.
Qed.

End server_facts.

(** ** Where [main] hands over *)

Section main_facts.
Import planka mcp.
Context {lib : GoLib} {svc : Service}.
Context {field : CreateBoardRequest.Selector}.
Context `{!Unmarshal APIResponse.t}.
Context `{!Unmarshal (slice Project.t), !Unmarshal (slice Board.t),
          !Unmarshal (slice List.t), !Unmarshal (slice Card.t),
          !Unmarshal (slice Task.t), !Unmarshal (slice Comment.t)}.
Context `{!Unmarshal (ItemIncluded Project.t), !Unmarshal (ItemIncluded Board.t),
          !Unmarshal (ItemIncluded List.t), !Unmarshal (ItemIncluded Card.t)}.
Context `{!Unmarshal (ItemOnly Project.t), !Unmarshal (ItemOnly Board.t),
          !Unmarshal (ItemOnly List.t), !Unmarshal (ItemOnly Card.t),
          !Unmarshal (ItemOnly Task.t), !Unmarshal (ItemOnly Comment.t),
          !Unmarshal (ItemOnly Stopwatch.t)}.
Context `{!Unmarshal LoginResponse.t}.

(** X21.  Where [main] hands over.  When its first argument is test it runs
    the tests, whatever the environment holds, before it reads any
    variable or makes any call.  Otherwise, without PLANKA_URL it stops
    before any call.  With PLANKA_TOKEN set it makes no login call, even
    if a user name and a password are set as well, and every call of
    every tool of the server it starts carries that token to that URL.
    Without a token it needs both the user name and the password, and
    stops before any call when one is missing; with both, the server it
    starts has the client the login gives, and a failed login is fatal.
    The server is started over HTTP at the given address and port when
    the flag is set, over stdio otherwise. *)
Theorem main_handover (httpMode : bool) (httpPort : Z) (httpAddr : string)
    (args : list string) (env : gmap string string) (log : list call) :
  let url := cmd.Getenv env "PLANKA_URL" in
  let token := cmd.Getenv env "PLANKA_TOKEN" in
  let username := cmd.Getenv env "PLANKA_USERNAME" in
  let password := cmd.Getenv env "PLANKA_PASSWORD" in
  let start client :=
    if httpMode then cmd.StartHTTP (NewServer client) httpAddr httpPort
    else cmd.StartStdio (NewServer client) in
  let run := cmd.main httpMode httpPort httpAddr args env log in
  if decide (head args = Some "test") then
    run = (Ok cmd.RunTests, log)
  else if decide (url = "") then
    run = (Err "PLANKA_URL environment variable is required", log)
  else if decide (token <> "") then
    run = (Ok (start (NewClient url token)), log)
    /\ forall name arguments,
         every_call
           (fun x => req_authorization x = "Bearer " +:+ token
                     /\ exists endpoint, req_url x = url +:+ endpoint)
           (callTool (NewServer (NewClient url token)) name arguments)
  else if decide (username = "" \/ password = "") then
    run = (Err ("Either PLANKA_TOKEN or both PLANKA_USERNAME and "
                +:+ "PLANKA_PASSWORD environment variables are required"),
           log)
  else
    run = match NewClientWithPassword url username password log with
          | (Ok client, log') => (Ok (start client), log')
          | (Err e, log') =>
              (Err ("Failed to authenticate with username/password: " +:+ e),
               log')
          end.
Proof.
  intros url token username password start run. subst run.
  unfold cmd.main. fold url token username password.
  destruct (decide (head args = Some "test")) as [Htest|Htest].
  { destruct args as [|arg rest]; [done|]. injection Htest as ->. done. }
  assert (match args with
          | arg :: _ => String.eqb arg "test"
          | [] => false
          end = false) as ->.
  { destruct args as [|arg rest]; [done|]. apply String.eqb_neq.
    intros ->. now apply Htest. }
  destruct (decide (url = "")) as [->|Hurl]; [done|].
  apply String.eqb_neq in Hurl. rewrite Hurl.
  destruct (decide (token <> "")) as [Htoken|Htoken].
  { apply String.eqb_neq in Htoken. rewrite Htoken. simpl. split.
    - unfold bind, ret. subst start. now destruct httpMode.
    - intros name arguments.
      eapply every_call_impl; [|apply every_call_callTool].
      intros x (endpoint & Hx & _ & Hauth & _). split; [exact Hauth|].
      now exists endpoint. }
  assert (token = "") as -> by (destruct (decide (token = "")); tauto).
  simpl.
  destruct (decide (username = "" \/ password = "")) as [Hcred|Hcred].
  { destruct Hcred as [->| ->]; simpl; [done|].
    now rewrite orb_true_r. }
  assert (String.eqb username "" = false) as ->
    by (apply String.eqb_neq; tauto).
  assert (String.eqb password "" = false) as ->
    by (apply String.eqb_neq; tauto).
  simpl. unfold bind. rewrite attempt_run.
  destruct (NewClientWithPassword url username password log)
    as [[client|e] log']; [|done].
  unfold ret. subst start. now destruct httpMode.
Qed.

End main_facts.

(** * Concrete runs *)

(** The error code of the envelope an HTTP response carries. *)
Definition response_code (response : mcp.http_response) : option value :=
  match mcp.ResponseBody response with
  | mcp.JSONBody text =>
      match parsed text with
      | Ok (VObj envelope) => Spec.error_code envelope
      | _ => None
      end
  | _ => None
  end.

Section runs.
Import planka mcp.

#[local] Existing Instance fixture.lib.
#[local] Existing Instance fixture.unset.
#[local] Existing Instance fixture.Project_of.
#[local] Existing Instance fixture.Board_of.
#[local] Existing Instance fixture.List_of.
#[local] Existing Instance fixture.Card_of.
#[local] Existing Instance fixture.Task_of.
#[local] Existing Instance fixture.Comment_of.
#[local] Existing Instance fixture.Stopwatch_of.
#[local] Existing Instance fixture.slice_of.
#[local] Existing Instance fixture.ItemIncluded_of.
#[local] Existing Instance fixture.ItemOnly_of.
#[local] Existing Instance fixture.APIResponse_of.
#[local] Existing Instance fixture.envelope_of.

Import fixture.

(** A service on which the direct list lookup fails and the project
    tree holds list L1 twice: in a board whose identifier is empty and,
    after it, in board B2. *)
Definition tree : Service :=
  serve
    [ ("GET", "http://planka/api/lists/L1", Response 404 html);
      ("GET", "http://planka/api/projects",
       Response 200 (json (obj [("items", VArr [obj [("id", VStr "P1")]])])));
      ("GET", "http://planka/api/projects/P1",
       Response 200
         (json (obj [("item", obj [("id", VStr "P1")]);
                     ("included",
                      obj [("boards", VArr [obj [("id", VStr "")];
                                            obj [("id", VStr "B2")]])])])));
      ("GET", "http://planka/api/boards/",
       Response 200
         (json (obj [("item", obj []);
                     ("included",
                      obj [("lists", VArr [obj [("id", VStr "L1")]])])])));
      ("GET", "http://planka/api/boards/B2",
       Response 200
         (json (obj [("item", obj [("id", VStr "B2")]);
                     ("included",
                      obj [("lists", VArr [obj [("id", VStr "L1");
                                                ("boardId", VStr "B2")]]);
                           ("cards", VArr [obj [("id", VStr "C1");
                                                ("listId", VStr "L1")];
                                           obj [("id", VStr "C2");
                                                ("listId", VStr "L7")]])])])))
    ].

Definition P1 : Project.t :=
  {| Project.ID := "P1"; Project.Name := ""; Project.Description := "";
     Project.CreatedAt := epoch; Project.UpdatedAt := epoch;
     Project.Boards := nil_slice |}.

(** C1, the claim as stated fails in two places.  When neither the list
    nor the project list can be fetched no board is found, and the
    outcome is an error, not an empty collection.  And the search does
    not stop at the first list that matches: on [tree] that list lies in
    the board with the empty identifier, the claim's search adopts that
    board, the loops go on and adopt B2. *)
Lemma GetCards_not_as_claimed :
  GetCards (svc := unreachable) c "L1" []
  = (Err ("failed to get projects to find board: "
          +:+ "request failed: connection refused"),
     [GET "/api/lists/L1" None; GET "/api/projects" None])
  /\ (Spec.search (svc := tree) false c "L1" [P1] []).1 = Ok (Some "")
  /\ (scan_projects (svc := tree) c "L1" [P1] "" []).1 = Ok "B2".
Proof. repeat split; vm_compute; reflexivity. Qed.

Definition C1_card : Card.t :=
  {| Card.ID := "C1"; Card.Name := ""; Card.Description := "";
     Card.ListID := "L1"; Card.Position := 0%float; Card.DueDate := None;
     Card.CreatedAt := epoch; Card.UpdatedAt := epoch;
     Card.Tasks := nil_slice; Card.Comments := nil_slice;
     Card.Labels := nil_slice |}.

(** The whole resolution on [tree]: six calls, and only the card of the
    requested list is returned. *)
Example GetCards_on_tree :
  GetCards (svc := tree) c "L1" []
  = (Ok (Slice [C1_card]),
     [ GET "/api/lists/L1" None; GET "/api/projects" None;
       GET "/api/projects/P1" None; GET "/api/boards/" None;
       GET "/api/boards/B2" None; GET "/api/boards/B2" None ]).
Proof. vm_compute. reflexivity. Qed.

(** A service that knows project P1, board B2 and card C1, none of them
    with the bundle entry for its children. *)
Definition bare : Service :=
  serve
    [ ("GET", "http://planka/api/projects/P1",
       Response 200 (json (obj [("item", obj [("id", VStr "P1")])])));
      ("GET", "http://planka/api/boards/B2",
       Response 200 (json (obj [("item", obj [("id", VStr "B2")]);
                                ("included", obj [])])));
      ("GET", "http://planka/api/cards/C1",
       Response 200 (json (obj [("item", obj [("id", VStr "C1")]);
                                ("included", VNil)])));
      ("GET", "http://planka/api/lists/L1",
       Response 200 (json (obj [("item", obj [("id", VStr "L1");
                                              ("boardId", VStr "B2")])]))) ].

Lemma absent_kind_is_empty_witness :
  GetBoards (svc := bare) c "P1" []
  = (Ok (Slice []), [GET "/api/projects/P1" None])
  /\ GetLists (svc := bare) c "B2" []
     = (Ok (Slice []), [GET "/api/boards/B2" None])
  /\ GetTasks (svc := bare) c "C1" []
     = (Ok (Slice []), [GET "/api/cards/C1" None])
  /\ GetCards (svc := bare) c "L1" []
     = (Ok (Slice []), [GET "/api/lists/L1" None; GET "/api/boards/B2" None]).
Proof.
  split; [|split; [|split]].
  - eapply (proj1 (absent_kind_is_empty (svc := bare) c [] _));
      [vm_compute; reflexivity|reflexivity].
  - eapply (proj1 (proj2 (absent_kind_is_empty (svc := bare) c [] _)));
      [vm_compute; reflexivity|reflexivity].
  - eapply (proj1 (proj2 (proj2
              (absent_kind_is_empty (svc := bare) c [] _))));
      [vm_compute; reflexivity|reflexivity].
  - eapply (proj2 (proj2 (proj2 (proj2
              (absent_kind_is_empty (svc := bare) c [] _)))));
      [vm_compute; reflexivity|done|vm_compute; reflexivity|reflexivity].
Defined.

(** HTTP requests to the call endpoint. *)
Definition POST_mcp (body : payload) : http_request :=
  {| Method := "POST"; X_Session_Token := ""; User_Agent := "curl";
     RemoteAddr := "10.0.0.1:4242"; Body := body |}.

Definition fresh : httpServer := {| server := s; sessions := ∅ |}.

Definition invalid_method : gmap string value :=
  list_to_map [("jsonrpc", VStr "2.0"); ("method", VStr "invalid_method");
               ("id", VNum 9%float)].

Definition call_without_params : gmap string value :=
  list_to_map [("jsonrpc", VStr "2.0"); ("method", VStr "tools/call");
               ("id", VNum 10%float)].

Definition failing_tool_call : gmap string value :=
  list_to_map
    [("jsonrpc", VStr "2.0"); ("method", VStr "tools/call");
     ("params", obj [("name", VStr "get_projects")]); ("id", VNum 11%float)].

(** C2, the claim as stated fails: the unknown method is answered with
    code -32603, which is not the method-not-found code and is the very
    code given to a request of invalid shape and to a failing handler. *)
Lemma unknown_method_code_not_distinct :
  response_code
    (httpServer_handleMCPRequest (svc := unreachable) fresh
       (POST_mcp (json (VObj invalid_method))) []).1.2
  = Some (VInt (-32603))
  /\ (-32603)%Z <> Spec.MethodNotFound
  /\ response_code
       (httpServer_handleMCPRequest (svc := unreachable) fresh
          (POST_mcp (json (VObj call_without_params))) []).1.2
     = Some (VInt (-32603))
  /\ response_code
       (httpServer_handleMCPRequest (svc := unreachable) fresh
          (POST_mcp (json (VObj failing_tool_call))) []).1.2
     = Some (VInt (-32603)).
Proof. repeat split; try (vm_compute; reflexivity). discriminate. Qed.

Lemma unknown_method_answer_witness :
  (httpServer_handleMCPRequest (svc := unreachable) fresh
     (POST_mcp (json (VObj invalid_method))) []).1.2
  = write_json StatusOK
      (buildErrorResponse s (VNum 9%float) "unknown method: invalid_method")
  /\ (httpServer_handleMCPRequest (svc := unreachable) fresh
        (POST_mcp (json (VObj invalid_method))) []).2 = [].
Proof.
  apply (proj1 (unknown_method_answer (svc := unreachable) fresh
                  (POST_mcp (json (VObj invalid_method)))
                  invalid_method "invalid_method" []
                  eq_refl eq_refl)); reflexivity.
Defined.

(** A service that creates what it is asked to create. *)
Definition creating : Service :=
  serve
    [ ("POST", "http://planka/api/boards/B1/lists",
       Response 200 (json (obj [("item", obj [("id", VStr "L9");
                                              ("name", VStr "Backlog");
                                              ("boardId", VStr "B1")])])));
      ("POST", "http://planka/api/lists/L1/cards",
       Response 200 (json (obj [("item", obj [("id", VStr "C9");
                                              ("name", VStr "Write");
                                              ("listId", VStr "L1")])]))) ].

Definition create_list_tool : gmap string value :=
  tool "create_list" "Create a new list"
    [("name", property "string" "The list name");
     ("boardId", property "string" "The board ID");
     ("position", property "number" "The list position")]
    (Some ["name"; "boardId"]).

Definition backlog : gmap string value :=
  list_to_map [("boardId", VStr "B1"); ("name", VStr "Backlog")].

Definition sentinel_body (name : string) : payload :=
  json (obj [("name", VStr name); ("position", VNum 65535%float)]).

(** C3, the claim as stated fails: a position supplied as text is not
    rejected; the list is created at the default position. *)
Lemma text_position_is_not_rejected :
  tool_property_type create_list_tool "position" = Some "number"
  /\ callTool (svc := creating) s "create_list"
       (<["position" := VStr "first"]> backlog) []
     = (Ok "(indented json)",
        [POST "/api/boards/B1/lists" (Some (sentinel_body "Backlog"))]).
Proof. split; vm_compute; reflexivity. Qed.

Lemma arguments_checked_witness :
  (tool_property_type create_list_tool "boardId" = Some "string"
   /\ rejected (callTool (svc := creating) s "create_list"
                  (<["boardId" := VNum 7%float]> backlog)))
  /\ callTool (svc := creating) s "create_list"
       (<["position" := VStr "first"]> backlog) []
     = callTool (svc := creating) s "create_list" backlog [].
Proof.
  assert (create_list_tool ∈ getTools s) as Ht
    by (apply (list_elem_of_lookup_2 _ 8); reflexivity).
  split.
  - apply (proj1 (arguments_checked (svc := creating) s create_list_tool
                    "boardId" (<["boardId" := VNum 7%float]> backlog) Ht)).
    + apply (list_elem_of_lookup_2 _ 1). reflexivity.
    + reflexivity.
  - etransitivity.
    + apply (proj2 (arguments_checked (svc := creating) s create_list_tool
                      "position" (<["position" := VStr "first"]> backlog) Ht))
        with (type := "number") (v := VStr "first").
      * vm_compute. intros Hin.
        repeat (apply elem_of_cons in Hin as [Hin|Hin]; [discriminate|]).
        now apply elem_of_nil in Hin.
      * reflexivity.
      * reflexivity.
      * reflexivity.
    + vm_compute. reflexivity.
Defined.

Definition move_to_L2 : gmap string value :=
  list_to_map [("cardId", VStr "C1"); ("listId", VStr "L2")].

(** C4, the claim as stated fails for move_card: the caller gave no
    position and the patch holds position 0. *)
Lemma move_card_sends_zero_position :
  move_to_L2 !! "position" = None
  /\ snd (callTool (svc := unreachable) s "move_card" move_to_L2 [])
     = [PATCH "/api/cards/C1"
          (Some (json (obj [("listId", VStr "L2");
                            ("position", VNum 0%float)])))].
Proof. split; vm_compute; reflexivity. Qed.

Lemma patch_contents_witness :
  snd (callTool (svc := unreachable) s "move_card"
         (<["position" := VNum 2%float]> move_to_L2) [])
  = [PATCH "/api/cards/C1"
       (Some (json (obj [("listId", VStr "L2");
                         ("position", VNum 2%float)])))].
Proof.
  etransitivity.
  - apply (proj2 (proj2 (patch_contents (svc := unreachable) s
                           (<["position" := VNum 2%float]> move_to_L2)))
             [] "C1" "L2" "(json)"); reflexivity.
  - vm_compute. reflexivity.
Defined.

(** An update that names two fields sends those two and no other. *)
Example update_card_sends_supplied_fields :
  snd (callTool (svc := unreachable) s "update_card"
         (list_to_map [("cardId", VStr "C1"); ("name", VStr "Ship");
                       ("position", VNum 3%float)]) [])
  = [PATCH "/api/cards/C1"
       (Some (json (obj [("name", VStr "Ship");
                         ("position", VNum 3%float)])))].
Proof. vm_compute. reflexivity. Qed.

Definition list_tools : gmap string value :=
  list_to_map [("jsonrpc", VStr "2.0"); ("method", VStr "tools/list");
               ("id", VNum 3%float)].

Lemma request_before_initialize_witness :
  stdio_loop (svc := unreachable) s [json (VObj list_tools)] false [] []
  = (Err "received request before initialization", [], [])
  /\ is_ready
       (httpServer_handleMCPRequest (svc := unreachable) fresh
          (POST_mcp (json (VObj list_tools))) []).1.1
       "10.0.0.1:4242curl" = true
  /\ (httpServer_handleMCPRequest (svc := unreachable) fresh
        (POST_mcp (json (VObj list_tools))) []).1.2
     = write_json StatusOK (buildToolsListResponse s (VNum 3%float)).
Proof.
  pose proof (request_before_initialize (svc := unreachable) s fresh
                list_tools [] eq_refl) as [Hstdio Hhttp].
  split.
  - apply Hstdio. reflexivity.
  - specialize (Hhttp (POST_mcp (json (VObj list_tools)))
                  eq_refl eq_refl eq_refl).
    destruct (httpServer_handleMCPRequest (svc := unreachable) fresh
                (POST_mcp (json (VObj list_tools))) [])
      as [[h' response] log'].
    destruct Hhttp as (Hready & _ & _ & Hlist).
    split; [exact Hready|]. now apply Hlist.
Defined.

Lemma create_list_default_position_witness :
  callTool (svc := creating) s "create_list" backlog []
  = (Ok "(indented json)",
     [POST "/api/boards/B1/lists" (Some (sentinel_body "Backlog"))])
  /\ exists fields,
       to_json {| List.ID := "L9"; List.Name := "Backlog";
                  List.BoardID := "B1"; List.Position := 0%float;
                  List.CreatedAt := epoch; List.UpdatedAt := epoch;
                  List.Cards := nil_slice |} = VObj fields
       /\ fields !! "name" = Some (VStr "Backlog").
Proof.
  pose proof (proj2 (create_list_default_position (svc := creating) s backlog
                       "Backlog" "B1" eq_refl eq_refl eq_refl)
                [] "(json)" 200%Z
                (json (obj [("item", obj [("id", VStr "L9");
                                          ("name", VStr "Backlog");
                                          ("boardId", VStr "B1")])]))
                {| List.ID := "L9"; List.Name := "Backlog";
                   List.BoardID := "B1"; List.Position := 0%float;
                   List.CreatedAt := epoch; List.UpdatedAt := epoch;
                   List.Cards := nil_slice |}
                eq_refl eq_refl eq_refl eq_refl eq_refl eq_refl)
    as [Hrun Hname].
  split; [|exact Hname].
  etransitivity; [exact Hrun|]. vm_compute. reflexivity.
Defined.

Definition initialized_note : gmap string value :=
  list_to_map [("jsonrpc", VStr "2.0");
               ("method", VStr "notifications/initialized")].

(** C9, the claim as stated fails over stdio: the notification is
    accepted and nothing at all is written to the caller. *)
Lemma stdio_notification_gets_no_reply :
  StartStdio (svc := unreachable) s [json (VObj initialized_note)] []
  = (Ok tt, [], []).
Proof. vm_compute. reflexivity. Qed.

Lemma initialized_notification_witness :
  (httpServer_handleMCPRequest (svc := unreachable) fresh
     (POST_mcp (json (VObj initialized_note))) []).1.2
  = write_json StatusOK
      (list_to_map [("jsonrpc", VStr "2.0"); ("result", VNil); ("id", VNil)])
  /\ is_ready
       (httpServer_handleMCPRequest (svc := unreachable) fresh
          (POST_mcp (json (VObj initialized_note))) []).1.1
       "10.0.0.1:4242curl" = false.
Proof.
  pose proof (proj2 (initialized_notification (svc := unreachable)
                       initialized_note eq_refl)
                fresh (POST_mcp (json (VObj initialized_note))) []
                eq_refl eq_refl) as (Hanswer & _ & Hstate).
  split.
  - etransitivity; [exact Hanswer|]. vm_compute. reflexivity.
  - etransitivity; [apply Hstate|]. reflexivity.
Defined.

Definition write_card : gmap string value :=
  list_to_map [("listId", VStr "L1"); ("name", VStr "Write");
               ("position", VNum 0%float)].

Definition new_board : gmap string value :=
  list_to_map [("projectId", VStr "P1"); ("name", VStr "Sprint");
               ("position", VNum 0%float)].

Lemma zero_position_is_replaced_witness :
  PrimFloat.eqb 0%float 0%float = true
  /\ (callTool (svc := creating) s "create_card" write_card []).2
     = [POST "/api/lists/L1/cards" (Some (sentinel_body "Write"))]
  /\ (callTool (svc := creating) s "create_board" new_board []).2
     = [POST "/api/projects/P1/boards" (Some (sentinel_body "Sprint"))].
Proof.
  split; [reflexivity|].
  pose proof (zero_position_is_replaced (svc := creating) s write_card
                0%float eq_refl eq_refl) as (_ & _ & _ & Hcard & _).
  pose proof (zero_position_is_replaced (svc := creating) s new_board
                0%float eq_refl eq_refl) as (_ & _ & _ & _ & _ & Hboard).
  split.
  - etransitivity;
      [exact (Hcard "Write" "L1" None eq_refl eq_refl I [] "(json)"
                eq_refl eq_refl)|].
    vm_compute. reflexivity.
  - etransitivity;
      [exact (Hboard "Sprint" "P1" eq_refl eq_refl [] "(json)"
                eq_refl eq_refl)|].
    vm_compute. reflexivity.
Defined.

(** The same call, run: one POST, with position 65535. *)
Example create_card_at_zero :
  callTool (svc := creating) s "create_card" write_card []
  = (Ok "(indented json)",
     [POST "/api/lists/L1/cards" (Some (sentinel_body "Write"))]).
Proof. vm_compute. reflexivity. Qed.

(** Negative zero is zero as well. *)
Example create_card_at_negative_zero :
  snd (callTool (svc := creating) s "create_card"
         (<["position" := VNum (-0)%float]> write_card) [])
  = [POST "/api/lists/L1/cards" (Some (sentinel_body "Write"))].
Proof. vm_compute. reflexivity. Qed.

(** A request as it is read when its text has the integer literal [id]
    for an id. *)
Definition initialize_numbered (id : Z) : gmap string value :=
  list_to_map [("jsonrpc", VStr "2.0"); ("method", VStr "initialize");
               ("id", VNum (float64_of_integer id))].


Definition initialize_without_id : gmap string value :=
  list_to_map [("jsonrpc", VStr "2.0"); ("method", VStr "initialize")].

Definition ping : gmap string value :=
  list_to_map [("jsonrpc", VStr "2.0"); ("method", VStr "ping");
               ("id", VStr "abc")].


(** A whole stdio session: the handshake, the notification, an unknown
    method.  Two envelopes are written, one per request that has a
    reply. *)
Example stdio_session :
  StartStdio (svc := unreachable) s
    [ json (obj [("method", VStr "initialize"); ("id", VNum 1%float)]);
      json (VObj initialized_note);
      json (VObj invalid_method) ] []
  = (Ok tt,
     [ json_line (VObj (buildInitializeResponse s (VNum 1%float)));
       json_line (VObj (buildErrorResponse s (VNum 9%float)
                          "unknown method: invalid_method")) ],
     []).
Proof. vm_compute. reflexivity. Qed.

#[local] Existing Instance fixture.User_of.
#[local] Existing Instance fixture.LoginResponse_of.

(** A service behind a portal: the user endpoint answers with a page,
    a card can be deleted, and a login is answered with a token. *)
Definition portal : Service :=
  serve
    [ ("GET", "http://planka/api/users/me", Response 200 html);
      ("DELETE", "http://planka/api/cards/C1", Response 200 html);
      ("POST", "http://planka/api/access-tokens",
       Response 200 (json (obj [("item", VStr "t0k3n")]))) ].

Lemma get_outcome_witness :
  GetMe (svc := portal) c []
  = (Err ("received HTML instead of JSON for endpoint /api/users/me"
          +:+ ". Response preview: <!DOCTYPE html>"),
     [GET "/api/users/me" None])
  /\ String.length (preview (bytes html)) = 15.
Proof.
  pose proof (get_outcome (T := User.t) (svc := portal) c "/api/users/me"
                [] 200%Z html eq_refl eq_refl) as (Hrun & Hlen & _).
  split.
  - etransitivity; [exact Hrun|]. vm_compute. reflexivity.
  - etransitivity; [exact Hlen|]. reflexivity.
Defined.

(** Logging in at the portal, and the first call of the client it
    gives. *)
Example login_at_the_portal :
  NewClientWithPassword (svc := portal) "http://planka" "ada" "pw" []
  = (Ok (NewClient "http://planka" "t0k3n"),
     [ {| req_method := "POST";
          req_url := "http://planka/api/access-tokens";
          req_authorization := "";
          req_body :=
            Some (json (obj [("emailOrUsername", VStr "ada");
                             ("password", VStr "pw")])) |} ])
  /\ snd (GetMe (svc := portal) (NewClient "http://planka" "t0k3n") [])
     = [ {| req_method := "GET"; req_url := "http://planka/api/users/me";
            req_authorization := "Bearer t0k3n"; req_body := None |} ].
Proof. split; vm_compute; reflexivity. Qed.

Lemma cards_of_list_are_kept_witness :
  exists cards,
    cards_of_board (svc := tree) c "B2" "L9" []
    = (Ok cards, [GET "/api/boards/B2" None])
    /\ elems cards = []
    /\ to_json cards = VNil.
Proof.
  edestruct (cards_of_list_are_kept (svc := tree) c "B2" "L9" [])
    as (cards & Hrun & Hkept & Hjson);
    [vm_compute; reflexivity|vm_compute; reflexivity
    |vm_compute; reflexivity|].
  exists cards. split; [exact Hrun|]. split.
  - etransitivity; [exact Hkept|]. reflexivity.
  - etransitivity; [exact Hjson|]. reflexivity.
Defined.

(** The cards of list L1 on the same board: the one card that refers to
    it. *)
Example cards_of_L1 :
  (cards_of_board (svc := tree) c "B2" "L1" []).1 = Ok (Slice [C1_card]).
Proof. vm_compute. reflexivity. Qed.

Lemma missing_argument_is_named_witness :
  callTool (svc := creating) s "create_list"
    (list_to_map [("name", VStr "Backlog")]) []
  = (Err "missing boardId", []).
Proof.
  apply (missing_argument_is_named (svc := creating) s create_list_tool
           ["name"] [] "boardId").
  - apply (list_elem_of_lookup_2 _ 8). reflexivity.
  - reflexivity.
  - repeat constructor. now eexists.
  - reflexivity.
Defined.

Lemma dispatcher_covers_registry_witness :
  callTool (svc := unreachable) s "drop_database" ∅ []
  = (Err "unknown tool: drop_database", [])
  /\ callTool (svc := unreachable) s "get_project"
       (list_to_map [("projectId", VNum 7%float)]) []
     <> (Err "unknown tool: get_project", [])
  /\ exists new,
       (callTool (svc := unreachable) s "get_project"
          (list_to_map [("projectId", VStr "P1")]) []).2 = [] ++ new
       /\ new <> [].
Proof.
  split.
  - apply (proj1 (dispatcher_covers_registry (svc := unreachable) s
                    "drop_database" [])).
    rewrite tool_names. intros Hin.
    repeat (apply elem_of_cons in Hin as [Hin|Hin]; [discriminate|]).
    now apply elem_of_nil in Hin.
  - assert ("get_project" ∈ tool_name <$> getTools s) as Hin
      by (apply (list_elem_of_lookup_2 _ 1); reflexivity).
    pose proof (proj2 (dispatcher_covers_registry (svc := unreachable) s
                         "get_project" []) Hin) as Hlisted.
    split; [apply Hlisted|].
    destruct (Hlisted (list_to_map [("projectId", VStr "P1")]))
      as (_ & new & Hlog & Hout).
    exists new. split; [exact Hlog|].
    vm_compute in Hlog. rewrite <- Hlog. discriminate.
Defined.

Lemma delete_outcome_witness :
  callTool (svc := portal) s "delete_card"
    (list_to_map [("cardId", VStr "C1")]) []
  = (Ok success_true, [DELETE "/api/cards/C1" None]).
Proof.
  etransitivity.
  - apply (delete_outcome (svc := portal) s "delete_card" "cardId" "cards"
             "C1" _ [] 200%Z html).
    + apply (list_elem_of_lookup_2 _ 0). reflexivity.
    + reflexivity.
    + reflexivity.
    + reflexivity.
  - reflexivity.
Defined.

Definition create_card_tool : gmap string value :=
  tool "create_card" "Create a new card"
    [("name", property "string" "The card name");
     ("description", property "string" "The card description");
     ("listId", property "string" "The list ID");
     ("position", property "number" "The card position");
     ("dueDate", property "string" "The due date (ISO 8601 format)")]
    (Some ["name"; "listId"]).

Lemma invalid_dueDate_is_rejected_witness :
  callTool (svc := creating) s "create_card"
    (<["dueDate" := VStr ""]> write_card) []
  = (Err "invalid dueDate format: cannot parse as a time", []).
Proof.
  apply (proj2 (invalid_dueDate_is_rejected (svc := creating) s
                  create_card_tool (<["dueDate" := VStr ""]> write_card)
                  "" "cannot parse as a time"
                  ltac:(apply (list_elem_of_lookup_2 _ 11); reflexivity)
                  ltac:(apply (list_elem_of_lookup_2 _ 0); reflexivity)
                  eq_refl eq_refl)).
  repeat constructor; now eexists.
Defined.

(** A negative position: replaced for a list, sent as it is for a
    card. *)
Example negative_positions :
  snd (callTool (svc := creating) s "create_list"
         (<["position" := VNum (-1)%float]> backlog) [])
  = [POST "/api/boards/B1/lists" (Some (sentinel_body "Backlog"))]
  /\ snd (callTool (svc := creating) s "create_card"
            (<["position" := VNum (-1)%float]> write_card) [])
     = [POST "/api/lists/L1/cards"
          (Some (json (obj [("name", VStr "Write");
                            ("position", VNum (-1)%float)])))].
Proof. split; vm_compute; reflexivity. Qed.

Lemma tools_call_answer_witness :
  (httpServer_handleMCPRequest (svc := unreachable) fresh
     (POST_mcp (json (VObj failing_tool_call))) []).1.2
  = write_json 200
      (buildErrorResponse s (VNum 11%float)
         "tool call failed: request failed: connection refused")
  /\ (httpServer_handleMCPRequest (svc := unreachable) fresh
        (POST_mcp (json (VObj failing_tool_call))) []).2
     = [GET "/api/projects" None].
Proof.
  pose proof (tools_call_answer (svc := unreachable) fresh
                (POST_mcp (json (VObj failing_tool_call))) failing_tool_call
                (list_to_map [("name", VStr "get_projects")]) "get_projects"
                [] eq_refl eq_refl eq_refl eq_refl eq_refl) as Hanswer.
  cbv zeta in Hanswer.
  lazymatch type of Hanswer with
  | context [callTool ?srv ?name ?arguments ?log] =>
      replace (callTool srv name arguments log)
        with (@Err string "request failed: connection refused",
              [GET "/api/projects" None]) in Hanswer
        by (vm_compute; reflexivity)
  end.
  exact Hanswer.
Defined.

Lemma transports_agree_witness :
  stdio_loop (svc := unreachable) s [json (VObj invalid_method)] true [] []
  = (Ok tt,
     [json_line (VObj (buildErrorResponse s (VNum 9%float)
                         "unknown method: invalid_method"))],
     []).
Proof.
  etransitivity.
  - apply (transports_agree (svc := unreachable) fresh
             (POST_mcp (json (VObj invalid_method))) invalid_method
             (json_line (VObj (buildErrorResponse s (VNum 9%float)
                                 "unknown method: invalid_method")))
             [] [] eq_refl eq_refl).
    + discriminate.
    + reflexivity.
  - vm_compute. reflexivity.
Defined.

Lemma stdio_answers_every_request_witness :
  exists written,
    (stdio_loop (svc := unreachable) s
       [ json (obj [("method", VStr "initialize"); ("id", VNum 1%float)]);
         json (VObj initialized_note);
         json (VObj failing_tool_call) ] true [] []).1
    = (Ok tt, [] ++ written)
    /\ length written = 2.
Proof.
  destruct (stdio_answers_every_request (svc := unreachable) s
              [ json (obj [("method", VStr "initialize");
                           ("id", VNum 1%float)]);
                json (VObj initialized_note);
                json (VObj failing_tool_call) ] [] [])
    as (written & Hrun & Hlen).
  - repeat (constructor;
            [eexists; split; [reflexivity|intros; now exists "(json)"]|]).
    constructor.
  - exists written. split; [exact Hrun|].
    etransitivity; [exact Hlen|]. reflexivity.
Defined.

(** A service without the comments endpoint: the bundle of the card
    holds its comments. *)
Definition bundled : Service :=
  serve
    [ ("GET", "http://planka/api/cards/C1",
       Response 200
         (json (obj [("item", obj [("id", VStr "C1"); ("name", VStr "Write")]);
                     ("included",
                      obj [("comments",
                            VArr [obj [("id", VStr "M1");
                                       ("text", VStr "hello");
                                       ("cardId", VStr "C1")]])])]))) ].

Lemma GetComments_fallback_witness :
  (GetComments (svc := bundled) c "C1" []).2
  = [GET "/api/cards/C1/comments" None; GET "/api/cards/C1" None]
  /\ (GetComments (svc := bundled) c "C1" []).1
     = Ok (Slice [ {| Comment.ID := "M1"; Comment.Text := "hello";
                      Comment.CardID := "C1"; Comment.UserID := "";
                      Comment.CreatedAt := epoch;
                      Comment.UpdatedAt := epoch |} ]).
Proof.
  pose proof (GetComments_fallback (svc := bundled) c "C1" []
                eq_refl eq_refl) as Hrun.
  cbv zeta in Hrun.
  match type of Hrun with
  | match ?direct with _ => _ end =>
      replace direct
        with (@Err APIResponse.t "request failed: connection refused")
        in Hrun by (vm_compute; reflexivity)
  end.
  destruct Hrun as [Hlog Hcomments]. split.
  - etransitivity; [exact Hlog|]. vm_compute. reflexivity.
  - etransitivity; [exact Hcomments|]. vm_compute. reflexivity.
Defined.

(** [planka-mcp test] runs the tests even when nothing is configured;
    without that argument the same environment is fatal. *)
Example main_with_test_argument :
  cmd.main (svc := unreachable) false 8080 "0.0.0.0" ["test"] ∅ []
  = (Ok cmd.RunTests, [])
  /\ cmd.main (svc := unreachable) false 8080 "0.0.0.0" [] ∅ []
     = (Err "PLANKA_URL environment variable is required", []).
Proof. split; vm_compute; reflexivity. Qed.

End runs.
